(** * Onboarding flow: a shallow embedding of [src/main.py] and its adapters

    The development follows the Python sources:

    - [PyBase]: the fragments of Python the program leans on (exception
      classes, [str] helpers, [datetime]);
    - the data model: [Employee] (a row of the [employees] table),
      [EmpState] (the per-employee dictionary of the graph), and the requests
      sent to the text generator, Gmail, Asana and Calendar;
    - the monad [M] of effects, over a [World] that holds the [employees]
      table, the heap of [EmpState] dictionaries (the nodes update their
      argument in place), the trace of the calls that left the process, and
      the number of readings of the wall clock;
    - [src/apis/gmail_apis.py], [src/apis/asana_apis.py] and [src/main.py],
      function by function and statement by statement;
    - [config/config.py], and the chat and workflow modes of the front end;
    - the vocabulary of the statements, the concrete worlds they are
      exercised on, and the properties of the pipeline.

    Conventions of the model.

    - The outside is an [Env]: what the text generator, Gmail, Asana and
      Calendar answer to each call (a value or an exception of any class,
      possibly depending on the calls made before), the wall clock and
      [os.environ]. Every statement below holds for every [Env] unless it
      says otherwise.
    - The store is the list of the rows of [employees] in the order of their
      rowid; a statement is evaluated on it. The file [data/employees.db] is
      taken to be reachable and the table to exist, as after
      [bootstrap_dummy_db]. The two queries of the mentor selector sort by
      [date(date_joined)] and by nothing else; SQL leaves the order of rows
      with equal sort keys to the engine, and that order is part of the
      [Env].
    - A [str] is represented by its UTF-8 encoding, one [ascii] per byte.
    - The [email] package of the standard library, which [create_message]
      relies on, encodes every message whose headers are made of printable
      ASCII characters; what it does with other headers (it refuses some of
      those that hold a line feed, with an exception of its own) depends on
      its version and is part of the [Env] as well.
    - LangGraph is represented by what this program uses of it: a graph with
      one edge out of each node, run from its entry point until [END].
    - [print] and [pprint] write to the standard output only and are left
      out; the prompt template is represented by the fields it is given. *)

From Stdlib Require Import ZArith List String Ascii Bool Lia.
From stdpp Require Import base list strings pretty.

Open Scope string_scope.
Open Scope list_scope.
Open Scope Z_scope.

(** ** Python base layer *)

Module PyBase.

(** Exception classes that occur in the program. [KeyboardInterrupt] and
    [SystemExit] derive from [BaseException] only; every other class is a
    subclass of [Exception]. *)
Inductive ExcClass :=
| RuntimeError
| KeyError
| ValueError
| OverflowError
| HttpError
| ApiException
| GraphRecursionError
| OtherException (cls : string)
| KeyboardInterrupt
| SystemExit.

(** An exception instance: its class and what [str(e)] prints. *)
Record PyExc := mkExc { exc_class : ExcClass; exc_str : string }.

(** [isinstance(e, Exception)], the test of [except Exception]. *)
Definition is_Exception (c : ExcClass) : bool :=
  match c with
  | KeyboardInterrupt | SystemExit => false
  | _ => true
  end.

(** [isinstance(e, HttpError)], the test of [except HttpError]. *)
Definition is_HttpError (c : ExcClass) : bool :=
  match c with HttpError => true | _ => false end.

(** [isinstance(e, ApiException)], the test of [except ApiException]. *)
Definition is_ApiException (c : ExcClass) : bool :=
  match c with ApiException => true | _ => false end.

(** Outcome of running a piece of Python: a value or a raised exception. *)
Inductive Res (A : Type) :=
| Ok (a : A)
| Raise (e : PyExc).
Arguments Ok {A} a.
Arguments Raise {A} e.

(** *** Strings *)

(** [str(n)] for an [int]. *)
Definition str_int (n : Z) : string := pretty n.

(** ["%0<width>d" % n] for [0 <= n]: left padding with zeros. *)
Fixpoint zeros (k : nat) : string :=
  match k with
  | O => ""
  | S k' => String "0" (zeros k')
  end.

Definition zfill (width : nat) (n : Z) : string :=
  let s := str_int n in
  zeros (width - String.length s) +:+ s.

(** White space as [str.strip] and [str.isspace] see it. The characters
    below U+0080 are one byte each: U+0009 to U+000D, U+001C to U+0020. *)
Definition is_space (c : ascii) : bool :=
  let n := nat_of_ascii c in
  ((9 <=? n)%nat && (n <=? 13)%nat) || ((28 <=? n)%nat && (n <=? 32)%nat).

(** U+0085 and U+00A0, two bytes each: C2 85 and C2 A0. *)
Definition is_space2 (c1 c2 : ascii) : bool :=
  let n1 := nat_of_ascii c1 in
  let n2 := nat_of_ascii c2 in
  (n1 =? 194)%nat && ((n2 =? 133)%nat || (n2 =? 160)%nat).

(** U+1680 (E1 9A 80), U+2000 to U+200A, U+2028, U+2029 and U+202F
    (E2 80 80 to 8A, A8, A9, AF), U+205F (E2 81 9F) and U+3000 (E3 80 80),
    three bytes each. No other character is white space. *)
Definition is_space3 (c1 c2 c3 : ascii) : bool :=
  let n1 := nat_of_ascii c1 in
  let n2 := nat_of_ascii c2 in
  let n3 := nat_of_ascii c3 in
  ((n1 =? 225)%nat && (n2 =? 154)%nat && (n3 =? 128)%nat)
  || ((n1 =? 226)%nat && (n2 =? 128)%nat
      && (((128 <=? n3)%nat && (n3 <=? 138)%nat)
          || (n3 =? 168)%nat || (n3 =? 169)%nat || (n3 =? 175)%nat))
  || ((n1 =? 226)%nat && (n2 =? 129)%nat && (n3 =? 159)%nat)
  || ((n1 =? 227)%nat && (n2 =? 128)%nat && (n3 =? 128)%nat).

(** [s.lstrip()]: the white-space characters at the head are dropped. *)
Fixpoint lstrip (s : string) : string :=
  match s with
  | String c1 s1 =>
      if is_space c1 then lstrip s1
      else match s1 with
           | String c2 s2 =>
               if is_space2 c1 c2 then lstrip s2
               else match s2 with
                    | String c3 s3 =>
                        if is_space3 c1 c2 c3 then lstrip s3 else s
                    | EmptyString => s
                    end
           | EmptyString => s
           end
  | EmptyString => EmptyString
  end.

(** [s.isspace()], or [s] is empty: a text of white-space characters only. *)
Fixpoint all_space (s : string) : bool :=
  match s with
  | String c1 s1 =>
      if is_space c1 then all_space s1
      else match s1 with
           | String c2 s2 =>
               if is_space2 c1 c2 then all_space s2
               else match s2 with
                    | String c3 s3 =>
                        if is_space3 c1 c2 c3 then all_space s3 else false
                    | EmptyString => false
                    end
           | EmptyString => false
           end
  | EmptyString => true
  end.

(** [s.rstrip()]: the text is cut where what remains is white space only.
    The first byte of a character is never the second or third byte of
    another one, so the cut falls between two characters. *)
Fixpoint rstrip (s : string) : string :=
  match s with
  | String c s' => if all_space s then EmptyString else String c (rstrip s')
  | EmptyString => EmptyString
  end.

(** [s.strip()]. *)
Definition strip (s : string) : string := rstrip (lstrip s).

(** [x or default] on an optional string: [None] and [""] are falsy. *)
Definition or_str (x : option string) (dflt : string) : string :=
  match x with
  | Some s => if String.eqb s "" then dflt else s
  | None => dflt
  end.

(** *** [datetime]

    A [date] is represented by its proleptic Gregorian ordinal, the value of
    [date.toordinal()]: day 1 is 0001-01-01 and [date.max] is 9999-12-31,
    ordinal 3652059. *)
Definition date := Z.

Definition MINORDINAL : Z := 1.
Definition MAXORDINAL : Z := 3652059.

Definition valid_date (d : date) : bool :=
  (MINORDINAL <=? d) && (d <=? MAXORDINAL).

(** [_DAYS_IN_MONTH] and [_DAYS_BEFORE_MONTH] of [datetime.py]. *)
Definition DAYS_IN_MONTH (m : Z) : Z :=
  match m with
  | 1 => 31 | 2 => 28 | 3 => 31 | 4 => 30 | 5 => 31 | 6 => 30
  | 7 => 31 | 8 => 31 | 9 => 30 | 10 => 31 | 11 => 30 | 12 => 31
  | _ => -1
  end.

Definition DAYS_BEFORE_MONTH (m : Z) : Z :=
  match m with
  | 1 => 0 | 2 => 31 | 3 => 59 | 4 => 90 | 5 => 120 | 6 => 151
  | 7 => 181 | 8 => 212 | 9 => 243 | 10 => 273 | 11 => 304 | 12 => 334
  | _ => -1
  end.

Definition b2z (b : bool) : Z := if b then 1 else 0.

(** [_ord2ymd]: ordinal to (year, month, day). *)
Definition ord2ymd (n0 : Z) : Z * Z * Z :=
  let n := n0 - 1 in
  let n400 := n / 146097 in
  let n := n mod 146097 in
  let year := n400 * 400 + 1 in
  let n100 := n / 36524 in
  let n := n mod 36524 in
  let n4 := n / 1461 in
  let n := n mod 1461 in
  let n1 := n / 365 in
  let n := n mod 365 in
  let year := year + n100 * 100 + n4 * 4 + n1 in
  if (n1 =? 4) || (n100 =? 4) then (year - 1, 12, 31)
  else
    let leapyear := (n1 =? 3) && (negb (n4 =? 24) || (n100 =? 3)) in
    let month := Z.shiftr (n + 50) 5 in
    let preceding := DAYS_BEFORE_MONTH month + b2z ((2 <? month) && leapyear) in
    if n <? preceding then
      let month := month - 1 in
      let preceding :=
        preceding - (DAYS_IN_MONTH month + b2z ((month =? 2) && leapyear)) in
      (year, month, n - preceding + 1)
    else (year, month, n - preceding + 1).

(** [date.isoformat()]: ["%04d-%02d-%02d"]. *)
Definition date_isoformat (d : date) : string :=
  let '(y, m, dd) := ord2ymd d in
  zfill 4 y +:+ "-" +:+ zfill 2 m +:+ "-" +:+ zfill 2 dd.

(** A naive [datetime]: a date and a time of day. *)
Record datetime := mkDatetime {
  dt_date : date;
  dt_hour : Z;
  dt_minute : Z;
  dt_second : Z;
  dt_microsecond : Z
}.

(** [datetime.combine(d, time(h, m))]. *)
Definition datetime_combine (d : date) (h m : Z) : datetime :=
  mkDatetime d h m 0 0.

(** [isoformat(timespec='seconds')]. *)
Definition datetime_isoformat_seconds (t : datetime) : string :=
  date_isoformat (dt_date t) +:+ "T" +:+ zfill 2 (dt_hour t) +:+ ":"
  +:+ zfill 2 (dt_minute t) +:+ ":" +:+ zfill 2 (dt_second t).

(** [isoformat()]: the microseconds are printed only when they are not 0. *)
Definition datetime_isoformat (t : datetime) : string :=
  if dt_microsecond t =? 0 then datetime_isoformat_seconds t
  else datetime_isoformat_seconds t +:+ "." +:+ zfill 6 (dt_microsecond t).

(** The wall clock is read as a number of microseconds since
    0001-01-01T00:00:00 local time, which is [t - datetime.min]. *)
Definition US_PER_SECOND : Z := 1000000.
Definition US_PER_DAY : Z := 86400 * US_PER_SECOND.

Definition datetime_of_us (us : Z) : datetime :=
  let secs := (us / US_PER_SECOND) mod 86400 in
  mkDatetime (us / US_PER_DAY + 1) (secs / 3600) ((secs / 60) mod 60)
             (secs mod 60) (us mod US_PER_SECOND).

(** The instant a [datetime] printed with [timespec='seconds'] denotes, in
    seconds since 0001-01-01T00:00:00. *)
Definition datetime_seconds (t : datetime) : Z :=
  (((dt_date t - 1) * 24 + dt_hour t) * 60 + dt_minute t) * 60 + dt_second t.

End PyBase.
Export PyBase.


(** ** Data model *)

(** A row of the [employees] table, as [dict(row)] gives it. The TEXT column
    [date_joined] holds an ISO date (YYYY-MM-DD, see the schema comment); it is
    represented by the ordinal of that date, on which SQLite's
    [date(date_joined)] comparisons agree with the calendar order. *)
Record Employee := mkEmployee {
  emp_id : Z;
  emp_name : string;
  emp_email : string;
  emp_role : string;
  emp_department : string;
  emp_date_joined : date;
  emp_location : string;
  emp_level : string;
  emp_manager_email : option string
}.

(** What the Gmail API answers to [messages().send]. *)
Record SentMessage := mkSentMessage { sent_id : string }.

(** What the Asana API answers to [create_task]. *)
Record AsanaTask := mkAsanaTask { task_gid : string; task_permalink_url : string }.

(** What the Calendar API answers to [events().insert]. *)
Record CalendarEvent := mkCalendarEvent {
  event_id : option string;
  event_hangoutLink : option string
}.

(** [EmpState], a [TypedDict] with [total=False]: every key may be absent
    ([None] here). The three results hold the adapter's return value, which
    is itself [None] in Python when the adapter caught an API error. *)
Record EmpState := mkEmpState {
  employee : option Employee;
  email_body : option string;
  email_result : option (option SentMessage);
  asana_task : option (option AsanaTask);
  mentor : option Employee;
  calendar_event : option (option CalendarEvent);
  logs : option (list string)
}.

Definition empty_dict : EmpState :=
  mkEmpState None None None None None None None.

Definition set_email_body (v : string) (s : EmpState) : EmpState :=
  mkEmpState (employee s) (Some v) (email_result s) (asana_task s) (mentor s)
             (calendar_event s) (logs s).

Definition set_email_result (v : option SentMessage) (s : EmpState) : EmpState :=
  mkEmpState (employee s) (email_body s) (Some v) (asana_task s) (mentor s)
             (calendar_event s) (logs s).

Definition set_asana_task (v : option AsanaTask) (s : EmpState) : EmpState :=
  mkEmpState (employee s) (email_body s) (email_result s) (Some v) (mentor s)
             (calendar_event s) (logs s).

Definition set_mentor (v : Employee) (s : EmpState) : EmpState :=
  mkEmpState (employee s) (email_body s) (email_result s) (asana_task s) (Some v)
             (calendar_event s) (logs s).

Definition set_calendar_event (v : option CalendarEvent) (s : EmpState) : EmpState :=
  mkEmpState (employee s) (email_body s) (email_result s) (asana_task s) (mentor s)
             (Some v) (logs s).

Definition set_logs (v : list string) (s : EmpState) : EmpState :=
  mkEmpState (employee s) (email_body s) (email_result s) (asana_task s) (mentor s)
             (calendar_event s) (Some v).

(** *** Requests sent to the external collaborators *)

(** The personalisation fields given to the email prompt. *)
Record LlmFields := mkLlmFields {
  f_name : string;
  f_role : string;
  f_team : string;
  f_start_date : string;
  f_manager_email : string;
  f_location : string
}.

(** The MIME message built by [create_message] (an HTML body and three
    headers), before its base64 encoding. *)
Record GmailMessage := mkGmailMessage {
  msg_to : string;
  msg_from : string;
  msg_subject : string;
  msg_html : string
}.

(** The [data] part of the body of [create_task]. *)
Record TaskBody := mkTaskBody {
  task_name : string;
  task_assignee : string;
  task_workspace : string;
  task_projects : list string
}.

Record EventTime := mkEventTime { dateTime : string; timeZone : string }.

Record Reminder := mkReminder { rem_method : string; rem_minutes : Z }.

(** [event_details] of [schedule_calendar_event]. *)
Record EventDetails := mkEventDetails {
  ev_summary : string;
  ev_location : string;
  ev_description : string;
  ev_start : EventTime;
  ev_end : EventTime;
  ev_attendees : list string;
  ev_reminders_useDefault : bool;
  ev_reminders_overrides : list Reminder;
  ev_requestId : string;
  ev_conferenceSolutionType : string
}.

(** The SQL statements of [main.py]. The parameter of [SelectNewJoiners] is
    the cutoff date bound to [date(?)]. *)
Inductive SqlStmt :=
| DropTableEmployees
| CreateTableEmployees
| SelectCount
| InsertEmployees (rows : list Employee)
| SelectNewJoiners (cutoff : date)
| SelectSeniorAt (preferred_location : string)
| SelectSeniorAny.

(** A call that leaves the process: to the store, the text generator, Gmail,
    Asana, Calendar or the front end. *)
Inductive Event :=
| EvSql (stmt : SqlStmt)
| EvLlmInvoke (fields : LlmFields)
| EvGmailService
| EvGmailSend (user_id : string) (message : GmailMessage)
| EvAsanaAddUser (workspace_gid new_member_email : string)
| EvAsanaCreateTask (body : TaskBody)
| EvCalendarService
| EvCalendarInsert (calendarId : string) (body : EventDetails)
| EvStWrite (text : string)
| EvStMarkdown (text : string).

(** *** The environment

    How the outside answers. Every answer may depend on the calls made so far
    and may be an exception of any class. [env_clock n] is the [n]-th reading
    of the wall clock; [env_environ] is [os.environ].

    Two fields stand for library code whose behaviour the program relies on
    without fixing it. [env_sqlite_order h x y] tells whether SQLite, asked
    to sort by join date after the calls [h], lists the row [x] before the
    row [y] when both joined on the same day. [env_email_error message] is
    what the [email] package raises, if anything, when it is asked to encode
    a message one of whose headers holds a character outside printable
    ASCII: the name of the exception class, a subclass of [Exception], and
    its text. *)
Record Env := mkEnv {
  env_clock : nat -> Z;
  env_environ : string -> option string;
  env_llm : list Event -> LlmFields -> Res string;
  env_gmail_service : list Event -> Res unit;
  env_gmail_send : list Event -> string -> GmailMessage -> Res SentMessage;
  env_asana_add_user : list Event -> string -> string -> Res unit;
  env_asana_create_task : list Event -> TaskBody -> Res AsanaTask;
  env_calendar_service : list Event -> Res unit;
  env_calendar_insert : list Event -> EventDetails -> Res CalendarEvent;
  env_sqlite_order : list Event -> Employee -> Employee -> bool;
  env_email_error : GmailMessage -> option (string * string)
}.

(** *** The world

    [w_employees] is the [employees] table in scan (rowid) order; [w_heap]
    holds the [EmpState] dictionaries, a reference being an index in it;
    [w_trace] lists the external calls made so far, oldest first; [w_ticks]
    counts the readings of the clock. *)
Definition ref := nat.

Record World := mkWorld {
  w_employees : list Employee;
  w_heap : list EmpState;
  w_trace : list Event;
  w_ticks : nat
}.

(** ** The monad of effects *)

Definition M (A : Type) : Type := World -> Res A * World.

Definition ret {A} (a : A) : M A := fun w => (Ok a, w).

Definition bind {A B} (m : M A) (k : A -> M B) : M B :=
  fun w =>
    match m w with
    | (Ok a, w') => k a w'
    | (Raise e, w') => (Raise e, w')
    end.

Definition raise {A} (c : ExcClass) (msg : string) : M A :=
  fun w => (Raise (mkExc c msg), w).

(** [try: body  except <cls> as e: handler]. *)
Definition try_except {A} (body : M A) (cls : ExcClass -> bool)
    (handler : PyExc -> M A) : M A :=
  fun w =>
    match body w with
    | (Ok a, w') => (Ok a, w')
    | (Raise e, w') =>
        if cls (exc_class e) then handler e w' else (Raise e, w')
    end.

Declare Scope monad_scope.
Delimit Scope monad_scope with monad.
Notation "x <- c1 ;; c2" := (bind c1 (fun x => c2))
  (at level 100, c1 at next level, right associativity) : monad_scope.
Notation "c1 ;; c2" := (bind c1 (fun _ => c2))
  (at level 100, right associativity) : monad_scope.
Open Scope monad_scope.

(** An external call: it is recorded, and the environment answers from the
    calls made before it. *)
Definition call {A} (ev : Event) (answer : list Event -> Res A) : M A :=
  fun w =>
    (answer (w_trace w),
     mkWorld (w_employees w) (w_heap w) (w_trace w ++ [ev]) (w_ticks w)).

Section WithEnv.

Variable env : Env.

(** A reading of the wall clock, in microseconds. *)
Definition clock_us : M Z :=
  fun w =>
    (Ok (env_clock env (w_ticks w)),
     mkWorld (w_employees w) (w_heap w) (w_trace w) (S (w_ticks w))).

(** [dt.datetime.now()]. *)
Definition datetime_now : M datetime :=
  us <- clock_us ;; ret (datetime_of_us us).

(** [dt.date.today()]. *)
Definition date_today : M date :=
  us <- clock_us ;; ret (dt_date (datetime_of_us us)).

(** [d + dt.timedelta(days=n)]: [timedelta] refuses more than 999999999
    days, and the sum must be a date between [date.min] and [date.max]. *)
Definition date_add_days (d : date) (n : Z) : M date :=
  if (Z.abs n <=? 999999999)
  then if valid_date (d + n) then ret (d + n)
       else raise OverflowError "date value out of range"
  else raise OverflowError
         ("days=" +:+ str_int n +:+ "; must have magnitude <= 999999999").

(** [os.environ.get(key, default)]. *)
Definition environ_get (key dflt : string) : string :=
  match env_environ env key with
  | Some v => v
  | None => dflt
  end.

End WithEnv.

(** ** The employee store (sqlite3) *)

Definition is_data_engineer (e : Employee) : bool :=
  String.eqb (emp_role e) "Data Engineer".

Definition is_junior (e : Employee) : bool := String.eqb (emp_level e) "junior".

Definition is_senior (e : Employee) : bool := String.eqb (emp_level e) "senior".

(** [ORDER BY date(date_joined) ASC]: the rows sorted by join date. The
    queries name no second key; [before x y] tells whether the engine lists
    [x] before [y] when the two joined on the same day. *)
Fixpoint insert_by_date (before : Employee -> Employee -> bool) (x : Employee)
    (l : list Employee) : list Employee :=
  match l with
  | [] => [x]
  | y :: l' =>
      if (emp_date_joined x <? emp_date_joined y)
         || ((emp_date_joined x =? emp_date_joined y) && before x y)
      then x :: l
      else y :: insert_by_date before x l'
  end.

Definition order_by_date_joined (before : Employee -> Employee -> bool)
    (rows : list Employee) : list Employee :=
  fold_right (insert_by_date before) [] rows.

(** [LIMIT 1]. *)
Definition limit_1 (rows : list Employee) : list Employee := firstn 1 rows.

(** [INSERT] into a table whose key is [INTEGER PRIMARY KEY AUTOINCREMENT]:
    each row gets the next identifier. *)
Definition max_id (rows : list Employee) : Z :=
  fold_right (fun e m => Z.max (emp_id e) m) 0 rows.

Definition with_id (i : Z) (e : Employee) : Employee :=
  mkEmployee i (emp_name e) (emp_email e) (emp_role e) (emp_department e)
             (emp_date_joined e) (emp_location e) (emp_level e)
             (emp_manager_email e).

Fixpoint assign_ids (next : Z) (rows : list Employee) : list Employee :=
  match rows with
  | [] => []
  | e :: rows' => with_id next e :: assign_ids (next + 1) rows'
  end.

(** The table after a statement. *)
Definition table_after (stmt : SqlStmt) (table : list Employee) : list Employee :=
  match stmt with
  | DropTableEmployees => []
  | CreateTableEmployees => []
  | InsertEmployees rows => table ++ assign_ids (max_id table + 1) rows
  | SelectCount | SelectNewJoiners _ | SelectSeniorAt _ | SelectSeniorAny => table
  end.

(** The [WHERE] clauses of the three queries. *)
Definition where_new_joiner (cutoff : date) (e : Employee) : bool :=
  is_data_engineer e && (cutoff <=? emp_date_joined e) && is_junior e.

Definition where_senior_at (preferred_location : string) (e : Employee) : bool :=
  is_data_engineer e && is_senior e
  && String.eqb (emp_location e) preferred_location.

Definition where_senior (e : Employee) : bool :=
  is_data_engineer e && is_senior e.

(** The rows a statement returns. *)
Definition result_rows (before : Employee -> Employee -> bool) (stmt : SqlStmt)
    (table : list Employee) : list Employee :=
  match stmt with
  | SelectNewJoiners cutoff => List.filter (where_new_joiner cutoff) table
  | SelectSeniorAt preferred_location =>
      limit_1 (order_by_date_joined before
                 (List.filter (where_senior_at preferred_location) table))
  | SelectSeniorAny =>
      limit_1 (order_by_date_joined before (List.filter where_senior table))
  | DropTableEmployees | CreateTableEmployees | SelectCount
  | InsertEmployees _ => []
  end.

(** [con.execute(stmt).fetchall()]. *)
Definition execute (env : Env) (stmt : SqlStmt) : M (list Employee) :=
  fun w =>
    (Ok (result_rows (env_sqlite_order env (w_trace w)) stmt (w_employees w)),
     mkWorld (table_after stmt (w_employees w)) (w_heap w)
             (w_trace w ++ [EvSql stmt]) (w_ticks w)).

(** [.fetchone()]. *)
Definition fetchone (rows : list Employee) : option Employee := head rows.

(** [SELECT COUNT(1) FROM employees]. *)
Definition execute_count : M Z :=
  fun w =>
    (Ok (Z.of_nat (length (w_employees w))),
     mkWorld (w_employees w) (w_heap w) (w_trace w ++ [EvSql SelectCount])
             (w_ticks w)).

(** ** The heap of state dictionaries *)

(** The dictionary a reference points to. *)
Definition deref (w : World) (state : ref) : EmpState :=
  default empty_dict (w_heap w !! state).

(** [state[key]]: [KeyError] when the key is absent. *)
Definition getitem {A} (state : ref) (key : string) (field : EmpState -> option A)
    : M A :=
  fun w =>
    match field (deref w state) with
    | Some v => (Ok v, w)
    | None => (Raise (mkExc KeyError ("'" +:+ key +:+ "'")), w)
    end.

(** [state.get("logs", [])]. *)
Definition get_logs (state : ref) : M (list string) :=
  fun w => (Ok (default [] (logs (deref w state))), w).

(** [state[key] = v], an update in place. *)
Definition setitem (state : ref) (update : EmpState -> EmpState) : M unit :=
  fun w =>
    (Ok tt,
     mkWorld (w_employees w) (<[state := update (deref w state)]> (w_heap w))
             (w_trace w) (w_ticks w)).

(** A dictionary display: a new object. *)
Definition new_dict (s : EmpState) : M ref :=
  fun w =>
    (Ok (length (w_heap w)),
     mkWorld (w_employees w) (w_heap w ++ [s]) (w_trace w) (w_ticks w)).

(** ** [src/apis/gmail_apis.py] *)

Section gmail_apis.

Variable env : Env.

(** [get_gmail_service]: the OAuth flow and the construction of the client,
    one call to the outside. *)
Definition get_gmail_service : M unit :=
  call EvGmailService (env_gmail_service env).

(** A header the [email] package writes as it is: printable ASCII
    characters only, the space included. *)
Definition is_printable (c : ascii) : bool :=
  let n := nat_of_ascii c in (32 <=? n)%nat && (n <=? 126)%nat.

Fixpoint plain_header (s : string) : bool :=
  match s with
  | String c s' => is_printable c && plain_header s'
  | EmptyString => true
  end.

Definition plain_headers (message : GmailMessage) : bool :=
  plain_header (msg_to message) && plain_header (msg_from message)
  && plain_header (msg_subject message).

(** [message.as_bytes()] on the message with its three headers. *)
Definition as_bytes (message : GmailMessage) : M GmailMessage :=
  if plain_headers message then ret message
  else
    match env_email_error env message with
    | Some (cls, text) => raise (OtherException cls) text
    | None => ret message
    end.

Definition create_message (sender to subject message_text : string)
    : M GmailMessage :=
  let message := mkGmailMessage to sender subject message_text in
  as_bytes message.

Definition send_message (user_id : string) (message : GmailMessage)
    : M (option SentMessage) :=
  try_except
    (sent_message <- call (EvGmailSend user_id message)
                          (fun h => env_gmail_send env h user_id message) ;;
     ret (Some sent_message))
    is_HttpError
    (fun error => ret None).

Definition send_gmail (sender_email recipient_email subject body : string)
    : M (option SentMessage) :=
  get_gmail_service ;;
  email_message <- create_message sender_email recipient_email subject body ;;
  result <- send_message sender_email email_message ;;
  ret result.

Definition get_calendar_service : M unit :=
  call EvCalendarService (env_calendar_service env).

Definition default_reminders : list Reminder :=
  [mkReminder "email" (24 * 60); mkReminder "popup" 30].

Definition schedule_calendar_event (summary location description
    start_time_str end_time_str : string) (attendees_emails : list string)
    (timezone : string) (reminders : list Reminder)
    (conference_request_id : string) : M (option CalendarEvent) :=
  get_calendar_service ;;
  let event_details :=
    mkEventDetails summary location description
      (mkEventTime start_time_str timezone)
      (mkEventTime end_time_str timezone)
      attendees_emails
      false
      (match reminders with [] => default_reminders | _ => reminders end)
      conference_request_id
      "hangoutsMeet" in
  try_except
    (event <- call (EvCalendarInsert "primary" event_details)
                   (fun h => env_calendar_insert env h event_details) ;;
     ret (Some event))
    is_HttpError
    (fun error => ret None).

End gmail_apis.

(** ** [src/apis/asana_apis.py] *)

Section asana_apis.

Variable env : Env.

Definition invite_user_to_workspace (workspace_gid new_member_email : string)
    : M unit :=
  try_except
    (call (EvAsanaAddUser workspace_gid new_member_email)
          (fun h => env_asana_add_user env h workspace_gid new_member_email))
    is_ApiException
    (fun e => ret tt).

Definition create_task (workspace_gid project_gid assignee_email task_name : string)
    : M (option AsanaTask) :=
  let body := mkTaskBody task_name assignee_email workspace_gid [project_gid] in
  try_except
    (response <- call (EvAsanaCreateTask body)
                      (fun h => env_asana_create_task env h body) ;;
     ret (Some response))
    is_ApiException
    (fun e => ret None).

Definition create_onboarding_tasks (workspace_gid project_gid new_member_email
    task_name : string) : M (option AsanaTask) :=
  invite_user_to_workspace workspace_gid new_member_email ;;
  create_task workspace_gid project_gid new_member_email task_name.

End asana_apis.

(** ** [src/main.py] *)

(** A graph of LangGraph, as far as this program uses it: named nodes, an
    entry point and one edge out of each node. [invoke] runs the entry node
    and follows the edges up to [END]; LangGraph stops a run after
    [recursion_limit] steps (25 by default) with [GraphRecursionError], and
    refuses a name that is not a node with [ValueError]. *)
Inductive Target :=
| Node (name : string)
| END.

Record StateGraph := mkStateGraph {
  g_nodes : list (string * (ref -> M ref));
  g_entry_point : option string;
  g_edges : list (string * Target)
}.

Definition new_StateGraph : StateGraph := mkStateGraph [] None [].

Definition add_node (name : string) (f : ref -> M ref) (g : StateGraph) : StateGraph :=
  mkStateGraph (g_nodes g ++ [(name, f)]) (g_entry_point g) (g_edges g).

Definition set_entry_point (name : string) (g : StateGraph) : StateGraph :=
  mkStateGraph (g_nodes g) (Some name) (g_edges g).

Definition add_edge (a : string) (b : Target) (g : StateGraph) : StateGraph :=
  mkStateGraph (g_nodes g) (g_entry_point g) (g_edges g ++ [(a, b)]).

Fixpoint assoc {A} (key : string) (l : list (string * A)) : option A :=
  match l with
  | [] => None
  | (k, v) :: l' => if String.eqb k key then Some v else assoc key l'
  end.

Definition recursion_limit : nat := 25.

Fixpoint run_from (fuel : nat) (g : StateGraph) (name : string) (state : ref)
    : M ref :=
  match fuel with
  | O => raise GraphRecursionError "Recursion limit of 25 reached"
  | S fuel' =>
      match assoc name (g_nodes g) with
      | None => raise ValueError ("Unknown node " +:+ name)
      | Some f =>
          state' <- f state ;;
          match assoc name (g_edges g) with
          | Some (Node next) => run_from fuel' g next state'
          | Some END | None => ret state'
          end
      end
  end.

Definition invoke (g : StateGraph) (state : ref) : M ref :=
  match g_entry_point g with
  | Some name => run_from recursion_limit g name state
  | None => raise ValueError "Graph must have an entrypoint"
  end.

(** The dictionary [run_onboarding_for_new_joiners] returns; the key
    [message] is present on the early return only. *)
Record RunResult := mkRunResult {
  processed : Z;
  successes : Z;
  failures : list string;
  message : option string
}.

Definition steps_markdown : string := "
    - Generate welcome email  
    - Send welcome email  
    - Create Asana task  
    - Find mentor  
    - Schedule intro call with mentor
    ".

Section main.

Variable env : Env.

(** *** DB setup utilities *)

Definition seed_rows (today : date) (d7 d100 d400 d900 : date) : list Employee :=
  [ mkEmployee 0 "Kaushal Vachhani" "kaushal.vachhani@example.com"
      "Data Engineer" "Data Platform" today "Bengaluru" "junior"
      (Some "lead.de@example.com");
    mkEmployee 0 "Asha Patel" "asha.patel@example.com"
      "Data Engineer" "Data Platform" d100 "Bengaluru" "junior"
      (Some "lead.de@example.com");
    mkEmployee 0 "Neeraj Singh" "neeraj.singh@example.com"
      "Data Engineer" "Data Platform" d400 "Bengaluru" "senior"
      (Some "director.de@example.com");
    mkEmployee 0 "Sneha Rao" "sneha.rao@example.com"
      "Data Engineer" "Data Platform" d900 "Pune" "senior"
      (Some "director.de@example.com");
    mkEmployee 0 "Karan Shah" "karan.shah@example.com"
      "Backend Engineer" "App Eng" d7 "Bengaluru" "junior"
      (Some "lead.be@example.com") ].

Definition bootstrap_dummy_db : M unit :=
  execute env DropTableEmployees ;;
  execute env CreateTableEmployees ;;
  count <- execute_count ;;
  if count =? 0 then
    today <- date_today env ;;
    last_week <- date_add_days today (- 7) ;;
    d100 <- date_add_days today (- 100) ;;
    d400 <- date_add_days today (- 400) ;;
    d900 <- date_add_days today (- 900) ;;
    execute env (InsertEmployees (seed_rows today last_week d100 d400 d900)) ;;
    ret tt
  else ret tt.

(** *** Query helpers *)

Definition find_new_joiners_data_engineers (joined_since_days : Z)
    : M (list Employee) :=
  today <- date_today env ;;
  cutoff <- date_add_days today (- joined_since_days) ;;
  rows <- execute env (SelectNewJoiners cutoff) ;;
  ret rows.

Definition find_senior_mentor (preferred_location : string)
    : M (option Employee) :=
  rows <- execute env (SelectSeniorAt preferred_location) ;;
  match fetchone rows with
  | Some row => ret (Some row)
  | None =>
      rows2 <- execute env SelectSeniorAny ;;
      ret (fetchone rows2)
  end.

(** *** Email generation *)

Definition generate_welcome_email_content (emp : Employee) : M string :=
  let fields :=
    mkLlmFields (emp_name emp) (emp_role emp) (emp_department emp)
      (date_isoformat (emp_date_joined emp))
      (or_str (emp_manager_email emp) "hr@company.com")
      (emp_location emp) in
  body <- call (EvLlmInvoke fields) (fun h => env_llm env h fields) ;;
  ret (strip body).

(** *** Shared graph state per employee *)

Definition append_log (state : ref) (msg : string) : M ref :=
  logs <- get_logs state ;;
  now <- datetime_now env ;;
  let logs := logs ++ [datetime_isoformat_seconds now +:+ " | " +:+ msg] in
  setitem state (set_logs logs) ;;
  ret state.

(** *** Graph nodes *)

Definition node_generate_email (state : ref) : M ref :=
  emp <- getitem state "employee" employee ;;
  body <- generate_welcome_email_content emp ;;
  setitem state (set_email_body body) ;;
  append_log state ("Generated email for " +:+ emp_email emp).

Definition node_send_email (state : ref) : M ref :=
  emp <- getitem state "employee" employee ;;
  let subject := "Welcome to the team, " +:+ emp_name emp +:+ "!" in
  body <- getitem state "email_body" email_body ;;
  res <- send_gmail env "me" (emp_email emp) subject body ;;
  setitem state (set_email_result res) ;;
  append_log state ("Sent welcome email to " +:+ emp_email emp).

Definition node_asana_task (state : ref) : M ref :=
  emp <- getitem state "employee" employee ;;
  let workspace_gid := environ_get env "ASANA_WORKSPACE_GID" "workspace_dummy" in
  let project_gid := environ_get env "ASANA_PROJECT_GID" "project_dummy" in
  let task_name := "Onboarding for " +:+ emp_name emp +:+ " - Data Engineer" in
  task <- create_onboarding_tasks env workspace_gid project_gid (emp_email emp)
                                  task_name ;;
  setitem state (set_asana_task task) ;;
  append_log state ("Created Asana task for " +:+ emp_email emp).

Definition node_find_mentor (state : ref) : M ref :=
  emp <- getitem state "employee" employee ;;
  mentor <- find_senior_mentor (emp_location emp) ;;
  match mentor with
  | None => raise RuntimeError ("No senior mentor available for " +:+ emp_name emp)
  | Some mentor =>
      setitem state (set_mentor mentor) ;;
      append_log state ("Selected mentor " +:+ emp_name mentor +:+ " for "
                        +:+ emp_email emp)
  end.

Definition node_schedule_intro_call (state : ref) : M ref :=
  emp <- getitem state "employee" employee ;;
  mentor <- getitem state "mentor" mentor ;;
  today <- date_today env ;;
  next_week <- date_add_days today 7 ;;
  let start_dt := datetime_combine next_week 10 0 in
  let end_dt := datetime_combine next_week 11 0 in
  let summary := "Intro chat: " +:+ emp_name emp +:+ " x " +:+ emp_name mentor
                 +:+ " (Data Platform)" in
  let location := "Google Meet" in
  let description :=
    "Welcome " +:+ emp_name emp +:+ ".
" +:+ "Mentor: " +:+ emp_name mentor +:+ " (" +:+ emp_email mentor +:+ ").
" +:+ "Agenda: Meet the team, tooling overview, first week goals.
" +:+ "Manager: " +:+ or_str (emp_manager_email emp) "N/A" +:+ ".
" in
  event <- schedule_calendar_event env summary location description
             (datetime_isoformat start_dt) (datetime_isoformat end_dt)
             [emp_email emp; emp_email mentor]
             "Asia/Kolkata"
             [mkReminder "popup" 30]
             ("mentor-" +:+ str_int (emp_id emp) +:+ "-"
              +:+ date_isoformat next_week) ;;
  setitem state (set_calendar_event event) ;;
  append_log state ("Scheduled mentor call for " +:+ emp_email emp).

(** *** Build per-employee subgraph *)

Definition build_employee_graph : StateGraph :=
  let g := new_StateGraph in
  let g := add_node "generate_email" node_generate_email g in
  let g := add_node "send_email" node_send_email g in
  let g := add_node "asana_task" node_asana_task g in
  let g := add_node "find_mentor" node_find_mentor g in
  let g := add_node "schedule_intro_call" node_schedule_intro_call g in
  let g := set_entry_point "generate_email" g in
  let g := add_edge "generate_email" (Node "send_email") g in
  let g := add_edge "send_email" (Node "asana_task") g in
  let g := add_edge "asana_task" (Node "find_mentor") g in
  let g := add_edge "find_mentor" (Node "schedule_intro_call") g in
  let g := add_edge "schedule_intro_call" END g in
  g.

(** *** Orchestration *)

Definition st_write (text : string) : M unit :=
  fun w =>
    (Ok tt, mkWorld (w_employees w) (w_heap w) (w_trace w ++ [EvStWrite text])
                    (w_ticks w)).

Definition st_markdown (text : string) : M unit :=
  fun w =>
    (Ok tt, mkWorld (w_employees w) (w_heap w) (w_trace w ++ [EvStMarkdown text])
                    (w_ticks w)).

(** [for emp in new_joiners: st.write(...)]. *)
Fixpoint write_details (new_joiners : list Employee) : M unit :=
  match new_joiners with
  | [] => ret tt
  | emp :: rest =>
      st_write ("- " +:+ emp_name emp +:+ " - " +:+ emp_email emp) ;;
      write_details rest
  end.

(** The loop over the new joiners, with its two accumulators. *)
Fixpoint for_each_joiner (compiled : StateGraph) (new_joiners : list Employee)
    (successes : Z) (failures : list string) : M (Z * list string) :=
  match new_joiners with
  | [] => ret (successes, failures)
  | emp :: rest =>
      state <- new_dict (mkEmpState (Some emp) None None None None None (Some [])) ;;
      acc <- try_except
               (invoke compiled state ;;
                ret (successes + 1, failures))
               is_Exception
               (fun e => ret (successes,
                              failures ++ [emp_email emp +:+ ": " +:+ exc_str e])) ;;
      for_each_joiner compiled rest (fst acc) (snd acc)
  end.

Definition run_onboarding_for_new_joiners (joined_since_days : Z) : M RunResult :=
  new_joiners <- find_new_joiners_data_engineers joined_since_days ;;
  match new_joiners with
  | [] => ret (mkRunResult 0 0 [] (Some "No new Data Engineers found"))
  | _ =>
      st_write ("Found " +:+ str_int (Z.of_nat (length new_joiners))
                +:+ " new Data Engineers who joined in the last "
                +:+ str_int joined_since_days +:+ " days.") ;;
      st_write "Details of new joiners:" ;;
      write_details new_joiners ;;
      st_write "They will be onboarded with the following steps:" ;;
      st_markdown steps_markdown ;;
      st_write "Starting onboarding workflow..." ;;
      let compiled := build_employee_graph in
      acc <- for_each_joiner compiled new_joiners 0 [] ;;
      ret (mkRunResult (Z.of_nat (length new_joiners)) (fst acc) (snd acc) None)
  end.

End main.


(** ** The rest of the program

    What the pipeline does not go through: the validation of the settings
    in [config/config.py], and the two modes of the front end in
    [src/main.py]. *)

(** *** More of [str] *)

(** [c.lower()] on an ASCII character; the bytes of the other characters
    are left as they are. *)
Definition lower_char (c : ascii) : ascii :=
  let n := nat_of_ascii c in
  if (65 <=? n)%nat && (n <=? 90)%nat then ascii_of_nat (n + 32) else c.

(** [s.lower()]. *)
Fixpoint lower (s : string) : string :=
  match s with
  | String c s' => String (lower_char c) (lower s')
  | EmptyString => EmptyString
  end.

(** [sep.join(items)]. *)
Fixpoint join (sep : string) (items : list string) : string :=
  match items with
  | [] => ""
  | [x] => x
  | x :: rest => x +:+ sep +:+ join sep rest
  end.

(** [s.isascii()]. *)
Fixpoint isascii (s : string) : bool :=
  match s with
  | String c s' => (nat_of_ascii c <? 128)%nat && isascii s'
  | EmptyString => true
  end.

(** *** [config/config.py]

    The module is run once, when [src/main.py] imports it. [environ] is
    [os.environ] after [load_dotenv()]. *)
Module config.

(** [not x] for what [os.getenv] returns: [None] and [""] are falsy. *)
Definition falsy (x : option string) : bool :=
  match x with
  | Some s => String.eqb s ""
  | None => true
  end.

(** The dictionary [SETTINGS]. *)
Record Settings := mkSettings {
  google_api_key : option string;
  asana_workspace_gid : option string;
  asana_project_gid : option string;
  asana_pat : option string
}.

(** What the module defines when its import succeeds: [SETTINGS], and the
    access token [asana_api_client] is configured with. *)
Record Exports := mkExports {
  SETTINGS : Settings;
  access_token : option string
}.

Definition import (environ : string -> option string) : Res Exports :=
  let GOOGLE_API_KEY := environ "GOOGLE_API_KEY" in
  let ASANA_WORKSPACE_GID := environ "ASANA_WORKSPACE_GID" in
  let ASANA_PROJECT_GID := environ "ASANA_PROJECT_GID" in
  let ASANA_PAT := environ "ASANA_PAT" in
  let missing := [] in
  let missing :=
    if falsy GOOGLE_API_KEY then missing ++ ["GOOGLE_API_KEY"] else missing in
  let missing :=
    if falsy ASANA_WORKSPACE_GID then missing ++ ["ASANA_WORKSPACE_GID"]
    else missing in
  let missing :=
    if falsy ASANA_PROJECT_GID then missing ++ ["ASANA_PROJECT_GID"]
    else missing in
  let missing :=
    if falsy ASANA_PAT then missing ++ ["ASANA_PAT"] else missing in
  match missing with
  | _ :: _ =>
      Raise (mkExc ValueError
               ("Missing required environment variables: "
                +:+ join ", " missing))
  | [] =>
      Ok (mkExports
            (mkSettings GOOGLE_API_KEY ASANA_WORKSPACE_GID ASANA_PROJECT_GID
                        ASANA_PAT)
            ASANA_PAT)
  end.

End config.

(** *** Chat interface of [src/main.py] *)

Definition STOP_COMMANDS : list string := ["stop"; "exit"; "quit"; "silence"].

(** [x in STOP_COMMANDS]. *)
Definition in_STOP_COMMANDS (x : string) : bool :=
  existsb (String.eqb x) STOP_COMMANDS.

(** The one call [chat_mode] makes to the outside: [get_llm()], the
    construction of the chain and its [invoke] on [{"input": input}]. *)
Inductive ChatCall :=
| ChainInvoke (input : string).

(** [chat_mode] returns its answer or raises; the calls it made are listed
    beside. [chain] is what the text generator answers to an input. *)
Definition chat_mode (chain : string -> Res string) (user_text : string)
    : Res string * list ChatCall :=
  if in_STOP_COMMANDS (lower (strip user_text))
  then (Ok "Okay, stopping the onboarding flow. Bye!", [])
  else (chain user_text, [ChainInvoke user_text]).

(** *** Workflow mode of [src/main.py] *)

Definition onboarding_mode (env : Env) : M unit :=
  st_write "Starting onboarding workflow..." ;;
  st_write "Fetching new joiners..." ;;
  summary <- run_onboarding_for_new_joiners env 14 ;;
  st_write "âœ… Workflow completed.".

(** ** Vocabulary of the statements *)

(** The world after the external calls [evs]. *)
Definition add_events (evs : list Event) (w : World) : World :=
  mkWorld (w_employees w) (w_heap w) (w_trace w ++ evs) (w_ticks w).

(** The world after [n] more readings of the clock. *)
Definition add_ticks (n : nat) (w : World) : World :=
  mkWorld (w_employees w) (w_heap w) (w_trace w) (n + w_ticks w).

(** The line [append_log] writes when it reads the clock for the [tick]-th
    time. *)
Definition log_entry (env : Env) (tick : nat) (msg : string) : string :=
  datetime_isoformat_seconds (datetime_of_us (env_clock env tick))
  +:+ " | " +:+ msg.

(** The log of a dictionary, empty when the key is absent. *)
Definition logs_of (s : EmpState) : list string := default [] (logs s).

(** The world after a node stored a result with [update] in the dictionary
    [state] and logged [msg]. *)
Definition logged (env : Env) (state : ref) (update : EmpState -> EmpState)
    (msg : string) (w : World) : World :=
  mkWorld (w_employees w)
          (<[state := set_logs (logs_of (deref w state)
                                ++ [log_entry env (w_ticks w) msg])
                               (update (deref w state))]> (w_heap w))
          (w_trace w)
          (S (w_ticks w)).

(** The date [dt.date.today()] returns at the [tick]-th reading of the
    clock, and in a world. *)
Definition date_at (env : Env) (tick : nat) : date :=
  dt_date (datetime_of_us (env_clock env tick)).

Definition today_in (env : Env) (w : World) : date := date_at env (w_ticks w).

(** The requests each node sends for an employee. *)
Definition welcome_fields (emp : Employee) : LlmFields :=
  mkLlmFields (emp_name emp) (emp_role emp) (emp_department emp)
    (date_isoformat (emp_date_joined emp))
    (or_str (emp_manager_email emp) "hr@company.com")
    (emp_location emp).

Definition welcome_message (emp : Employee) (body : string) : GmailMessage :=
  mkGmailMessage (emp_email emp) "me"
    ("Welcome to the team, " +:+ emp_name emp +:+ "!") body.

Definition onboarding_task (env : Env) (emp : Employee) : TaskBody :=
  mkTaskBody ("Onboarding for " +:+ emp_name emp +:+ " - Data Engineer")
    (emp_email emp)
    (environ_get env "ASANA_WORKSPACE_GID" "workspace_dummy")
    [environ_get env "ASANA_PROJECT_GID" "project_dummy"].

(** The invitation the file-task step sends first. *)
Definition workspace_invite (env : Env) (emp : Employee) : Event :=
  EvAsanaAddUser (environ_get env "ASANA_WORKSPACE_GID" "workspace_dummy")
                 (emp_email emp).

(** The event the schedule-meeting step asks the calendar to insert for a
    meeting on the day [next_week]. *)
Definition intro_call_event (emp mentor : Employee) (next_week : date)
    : EventDetails :=
  mkEventDetails
    ("Intro chat: " +:+ emp_name emp +:+ " x " +:+ emp_name mentor
     +:+ " (Data Platform)")
    "Google Meet"
    ("Welcome " +:+ emp_name emp +:+ ".
" +:+ "Mentor: " +:+ emp_name mentor +:+ " (" +:+ emp_email mentor +:+ ").
" +:+ "Agenda: Meet the team, tooling overview, first week goals.
" +:+ "Manager: " +:+ or_str (emp_manager_email emp) "N/A" +:+ ".
")
    (mkEventTime (datetime_isoformat (datetime_combine next_week 10 0))
                 "Asia/Kolkata")
    (mkEventTime (datetime_isoformat (datetime_combine next_week 11 0))
                 "Asia/Kolkata")
    [emp_email emp; emp_email mentor]
    false
    [mkReminder "popup" 30]
    ("mentor-" +:+ str_int (emp_id emp) +:+ "-" +:+ date_isoformat next_week)
    "hangoutsMeet".

(** What an [except cls] clause lets through, and the value the adapters
    return otherwise ([None] for a caught error). *)
Definition escapes {A} (cls : ExcClass -> bool) (r : Res A) : option PyExc :=
  match r with
  | Ok _ => None
  | Raise e => if cls (exc_class e) then None else Some e
  end.

Definition value_of {A} (r : Res A) : option A :=
  match r with
  | Ok a => Some a
  | Raise _ => None
  end.

(** What the [email] package raises for a message, if anything. *)
Definition email_error (env : Env) (message : GmailMessage) : option PyExc :=
  if plain_headers message then None
  else
    match env_email_error env message with
    | Some (cls, text) => Some (mkExc (OtherException cls) text)
    | None => None
    end.

(** The two queries of the mentor selector on a table, when they are
    evaluated after the calls [h]. *)
Definition senior_at (env : Env) (h : list Event) (preferred_location : string)
    (table : list Employee) : option Employee :=
  head (order_by_date_joined (env_sqlite_order env h)
          (List.filter (where_senior_at preferred_location) table)).

Definition senior_any (env : Env) (h : list Event) (table : list Employee)
    : option Employee :=
  head (order_by_date_joined (env_sqlite_order env h)
          (List.filter where_senior table)).

Definition select_mentor (env : Env) (h : list Event)
    (preferred_location : string) (table : list Employee) : option Employee :=
  match senior_at env h preferred_location table with
  | Some row => Some row
  | None =>
      senior_any env (h ++ [EvSql (SelectSeniorAt preferred_location)]) table
  end.

(** The statements the mentor selector sends: the second query is sent when
    the first one finds no row. *)
Definition mentor_queries (preferred_location : string) (table : list Employee)
    : list Event :=
  match List.filter (where_senior_at preferred_location) table with
  | _ :: _ => [EvSql (SelectSeniorAt preferred_location)]
  | [] => [EvSql (SelectSeniorAt preferred_location); EvSql SelectSeniorAny]
  end.

(** The five nodes in the order of the edges of [build_employee_graph]. *)
Definition pipeline_steps (env : Env) : list (ref -> M ref) :=
  [node_generate_email env; node_send_email env; node_asana_task env;
   node_find_mentor env; node_schedule_intro_call env].

(** Running a list of nodes one after the other on the same dictionary. *)
Fixpoint run_steps (steps : list (ref -> M ref)) (state : ref) : M ref :=
  match steps with
  | [] => ret state
  | f :: rest => state' <- f state ;; run_steps rest state'
  end.

(** The clock never runs backwards. *)
Definition monotone_clock (env : Env) : Prop :=
  forall n : nat, env_clock env n <= env_clock env (S n).

(** The outside raises subclasses of [Exception] only (no
    [KeyboardInterrupt], no [SystemExit]). *)
Definition raises_only_Exception {A} (r : Res A) : Prop :=
  match r with
  | Ok _ => True
  | Raise e => is_Exception (exc_class e) = true
  end.

Definition well_behaved (env : Env) : Prop :=
  (forall h f, raises_only_Exception (env_llm env h f))
  /\ (forall h, raises_only_Exception (env_gmail_service env h))
  /\ (forall h u m, raises_only_Exception (env_gmail_send env h u m))
  /\ (forall h ws e, raises_only_Exception (env_asana_add_user env h ws e))
  /\ (forall h b, raises_only_Exception (env_asana_create_task env h b))
  /\ (forall h, raises_only_Exception (env_calendar_service env h))
  /\ (forall h b, raises_only_Exception (env_calendar_insert env h b)).

(** What a node may change: nothing in the store, and in the heap only the
    dictionary it was given, whose employee stays; the trace and the clock
    only grow. *)
Definition node_frame (state : ref) (w w' : World) : Prop :=
  w_employees w' = w_employees w
  /\ length (w_heap w') = length (w_heap w)
  /\ (forall r : ref, r <> state -> w_heap w' !! r = w_heap w !! r)
  /\ employee (deref w' state) = employee (deref w state)
  /\ (exists evs, w_trace w' = w_trace w ++ evs)
  /\ (w_ticks w <= w_ticks w')%nat.

(** The effect of a node that returned: the store is as before, the
    dictionary [state] now holds [s'], the calls [evs] were made and the
    clock was read [ticks' - w_ticks w] times. *)
Definition step_result (state : ref) (w w' : World) (s' : EmpState)
    (evs : list Event) (ticks' : nat) : Prop :=
  (state < length (w_heap w))%nat
  /\ w_employees w' = w_employees w
  /\ w_heap w' = <[state := s']> (w_heap w)
  /\ w_trace w' = w_trace w ++ evs
  /\ w_ticks w' = ticks'.

(** The dictionary after a node stored a result with [update] and logged
    [msg] at the clock reading [tick]. *)
Definition stored (env : Env) (update : EmpState -> EmpState) (tick : nat)
    (msg : string) (s : EmpState) : EmpState :=
  set_logs (logs_of s ++ [log_entry env tick msg]) (update s).

(** The log and the external calls of a run of the five nodes that started
    at the clock reading [t0], for the employee [emp] with the mentor [m]
    and the generated body [body]. *)
Definition pipeline_log (env : Env) (t0 : nat) (emp m : Employee) : list string :=
  [log_entry env t0 ("Generated email for " +:+ emp_email emp);
   log_entry env (1 + t0) ("Sent welcome email to " +:+ emp_email emp);
   log_entry env (2 + t0) ("Created Asana task for " +:+ emp_email emp);
   log_entry env (3 + t0)
     ("Selected mentor " +:+ emp_name m +:+ " for " +:+ emp_email emp);
   log_entry env (5 + t0) ("Scheduled mentor call for " +:+ emp_email emp)].

Definition calls_before_mentor (env : Env) (emp : Employee) (body : string)
    : list Event :=
  [EvLlmInvoke (welcome_fields emp);
   EvGmailService;
   EvGmailSend "me" (welcome_message emp body);
   workspace_invite env emp;
   EvAsanaCreateTask (onboarding_task env emp)].

Definition pipeline_calls (env : Env) (t0 : nat) (table : list Employee)
    (emp m : Employee) (body : string) : list Event :=
  [EvLlmInvoke (welcome_fields emp);
   EvGmailService;
   EvGmailSend "me" (welcome_message emp body);
   workspace_invite env emp;
   EvAsanaCreateTask (onboarding_task env emp)]
  ++ mentor_queries (emp_location emp) table
  ++ [EvCalendarService;
      EvCalendarInsert "primary"
        (intro_call_event emp m (date_at env (4 + t0) + 7))].

(** The instant a log line written at the [tick]-th reading shows, in
    seconds. *)
Definition log_instant (env : Env) (tick : nat) : Z :=
  datetime_seconds (datetime_of_us (env_clock env tick)).

(** The dictionary the orchestrator builds for an employee, and the world
    once it is allocated. *)
Definition fresh_state (emp : Employee) : EmpState :=
  mkEmpState (Some emp) None None None None None (Some []).

Definition with_state (s : EmpState) (w : World) : World :=
  mkWorld (w_employees w) (w_heap w ++ [s]) (w_trace w) (w_ticks w).

(** The entry of the failures list for an employee whose chain raised [e]. *)
Definition failure_descriptor (emp : Employee) (e : PyExc) : string :=
  emp_email emp +:+ ": " +:+ exc_str e.

(** [m] is a row of [pool] and no row of [pool] joined before it. *)
Definition earliest_joined (pool : list Employee) (m : Employee) : Prop :=
  In m pool /\ forall x, In x pool -> emp_date_joined m <= emp_date_joined x.

(** The outcome of the chain for each new joiner, in order: [None] when the
    five steps completed, the exception otherwise. Every employee starts on
    a dictionary of its own, in the world the previous employee left. *)
Inductive loop_run (env : Env) : list Employee -> World ->
    list (option PyExc) -> World -> Prop :=
| loop_done w : loop_run env [] w [] w
| loop_completed emp rest w r w1 outcomes w' :
    invoke (build_employee_graph env) (length (w_heap w))
           (with_state (fresh_state emp) w) = (Ok r, w1) ->
    loop_run env rest w1 outcomes w' ->
    loop_run env (emp :: rest) w (None :: outcomes) w'
| loop_failed emp rest w e w1 outcomes w' :
    invoke (build_employee_graph env) (length (w_heap w))
           (with_state (fresh_state emp) w) = (Raise e, w1) ->
    loop_run env rest w1 outcomes w' ->
    loop_run env (emp :: rest) w (Some e :: outcomes) w'.

(** The number of completed chains and the descriptors of the failed ones. *)
Fixpoint count_completed (outcomes : list (option PyExc)) : Z :=
  match outcomes with
  | [] => 0
  | None :: rest => 1 + count_completed rest
  | Some _ :: rest => count_completed rest
  end.

Fixpoint descriptors (new_joiners : list Employee)
    (outcomes : list (option PyExc)) : list string :=
  match new_joiners, outcomes with
  | emp :: rest, Some e :: outcomes' =>
      failure_descriptor emp e :: descriptors rest outcomes'
  | _ :: rest, None :: outcomes' => descriptors rest outcomes'
  | _, _ => []
  end.

(** What the orchestrator writes to the front end before the loop. *)
Definition announcement (new_joiners : list Employee) (joined_since_days : Z)
    : list Event :=
  [EvStWrite ("Found " +:+ str_int (Z.of_nat (length new_joiners))
              +:+ " new Data Engineers who joined in the last "
              +:+ str_int joined_since_days +:+ " days.");
   EvStWrite "Details of new joiners:"]
  ++ List.map (fun emp => EvStWrite ("- " +:+ emp_name emp +:+ " - "
                                     +:+ emp_email emp)) new_joiners
  ++ [EvStWrite "They will be onboarded with the following steps:";
      EvStMarkdown steps_markdown;
      EvStWrite "Starting onboarding workflow..."].

(** The spec's sentence on logging, read literally: whatever a step does,
    the log of its dictionary is one entry longer afterwards. *)
Definition every_step_logs_once : Prop :=
  forall (env : Env) (step : ref -> M ref),
    In step (pipeline_steps env) ->
    forall (state : ref) (w : World),
      (state < length (w_heap w))%nat ->
      exists entry,
        logs_of (deref (snd (step state w)) state)
        = logs_of (deref w state) ++ [entry].

(** The spec's sentence on delivery and task-creation failures, read
    literally: in the chain of an employee, started on the dictionary the
    orchestrator builds, once Gmail has refused the message or Asana has
    refused the task (the call [ev], made by this chain after the calls
    [h], was answered by an error), the chain makes no further call. *)
Definition refused (env : Env) (h : list Event) (ev : Event) : Prop :=
  match ev with
  | EvGmailSend user_id message =>
      exists e, env_gmail_send env h user_id message = Raise e
  | EvAsanaCreateTask body =>
      exists e, env_asana_create_task env h body = Raise e
  | _ => False
  end.

Definition refusal_halts_chain : Prop :=
  forall (env : Env) (emp : Employee) (state : ref) (w : World)
         (made : list Event) (ev : Event) (tail : list Event),
    deref w state = fresh_state emp ->
    w_trace (snd (invoke (build_employee_graph env) state w))
    = w_trace w ++ made ++ ev :: tail ->
    refused env (w_trace w ++ made) ev ->
    tail = [].


(** A node that raises leaves the heap as it was, and what it raises is an
    [Exception] whenever the outside raises nothing else. *)
Definition raise_outcome (env : Env) (state : ref) (w : World) (e : PyExc)
    (w' : World) : Prop :=
  w_heap w' = w_heap w
  /\ node_frame state w w'
  /\ (well_behaved env -> is_Exception (exc_class e) = true).

(** Whatever its outcome, a node returns the reference it was given and
    stays within its frame. *)
Definition respects_frame (env : Env) (f : ref -> M ref) : Prop :=
  forall state w,
    match f state w with
    | (Ok r, w') => r = state /\ node_frame state w w'
    | (Raise e, w') => raise_outcome env state w e w'
    end.

(** ** Vocabulary for the rest of the program *)

(** The table [bootstrap_dummy_db] leaves when it runs on the day [today]:
    the five seed rows, numbered from 1. *)
Definition seeded_table (today : date) : list Employee :=
  assign_ids 1 (seed_rows today (today - 7) (today - 100) (today - 400)
                          (today - 900)).

(** The statements [bootstrap_dummy_db] sends on the day [today]. *)
Definition bootstrap_statements (today : date) : list Event :=
  [EvSql DropTableEmployees; EvSql CreateTableEmployees; EvSql SelectCount;
   EvSql (InsertEmployees (seed_rows today (today - 7) (today - 100)
                                     (today - 400) (today - 900)))].

(** What is shown on the front end. *)
Definition is_front_end (ev : Event) : bool :=
  match ev with
  | EvStWrite _ | EvStMarkdown _ => true
  | _ => false
  end.

Definition front_end (evs : list Event) : list Event :=
  List.filter is_front_end evs.

(** The three queries of the pipeline. *)
Definition is_pipeline_query (stmt : SqlStmt) : bool :=
  match stmt with
  | SelectNewJoiners _ | SelectSeniorAt _ | SelectSeniorAny => true
  | _ => false
  end.

(** The calls of the nodes: nothing on the front end, and no statement but
    the queries. *)
Definition behind_the_scenes (ev : Event) : bool :=
  match ev with
  | EvStWrite _ | EvStMarkdown _ => false
  | EvSql stmt => is_pipeline_query stmt
  | _ => true
  end.

(** The calls of the orchestrator: any, but no statement other than the
    queries. *)
Definition reads_the_store_only (ev : Event) : bool :=
  match ev with
  | EvSql stmt => is_pipeline_query stmt
  | _ => true
  end.

(** A computation that, whatever its outcome, leaves the table as it was and
    makes only calls that are [allowed]. *)
Definition confined (allowed : Event -> bool) {A} (m : M A) : Prop :=
  forall w,
    w_employees (snd (m w)) = w_employees w
    /\ exists evs,
         w_trace (snd (m w)) = w_trace w ++ evs
         /\ forallb allowed evs = true.

(** White space around a text. A white-space character at the head of a
    text, with what follows it. *)
Definition space_at_head (s : string) : option string :=
  match s with
  | String c1 s1 =>
      if is_space c1 then Some s1
      else match s1 with
           | String c2 s2 =>
               if is_space2 c1 c2 then Some s2
               else match s2 with
                    | String c3 s3 =>
                        if is_space3 c1 c2 c3 then Some s3 else None
                    | EmptyString => None
                    end
           | EmptyString => None
           end
  | EmptyString => None
  end.

(** A text that starts with a white-space character, a text that is one
    white-space character, a text that ends with one. *)
Definition starts_with_space (s : string) : bool :=
  match space_at_head s with
  | Some _ => true
  | None => false
  end.

Definition is_one_space (s : string) : bool :=
  match space_at_head s with
  | Some EmptyString => true
  | _ => false
  end.

Fixpoint ends_with_space (s : string) : bool :=
  match s with
  | String c s' => is_one_space s || ends_with_space s'
  | EmptyString => false
  end.

(** A text of printable ASCII characters other than the space. *)
Definition is_graphic (c : ascii) : bool :=
  let n := nat_of_ascii c in (33 <=? n)%nat && (n <=? 126)%nat.

Fixpoint all_graphic (s : string) : bool :=
  match s with
  | String c s' => is_graphic c && all_graphic s'
  | EmptyString => true
  end.

(** What a state shows of the progress of its chain: the result of the
    [i]-th step is present exactly when [i <= k], and the log has [k]
    lines. *)
Definition progress (k : nat) (s : EmpState) : Prop :=
  (is_Some (email_body s) <-> (1 <= k)%nat)
  /\ (is_Some (email_result s) <-> (2 <= k)%nat)
  /\ (is_Some (asana_task s) <-> (3 <= k)%nat)
  /\ (is_Some (mentor s) <-> (4 <= k)%nat)
  /\ (is_Some (calendar_event s) <-> (5 <= k)%nat)
  /\ length (logs_of s) = k.

(** An outcome the loop of the orchestrator survives: a completed chain,
    or an exception that [except Exception] catches. *)
Definition caught (outcome : option PyExc) : Prop :=
  match outcome with
  | Some e => is_Exception (exc_class e) = true
  | None => True
  end.

(** The variables [config/config.py] requires, in the order it checks them,
    and those an environment lacks. *)
Definition required_variables : list string :=
  ["GOOGLE_API_KEY"; "ASANA_WORKSPACE_GID"; "ASANA_PROJECT_GID"; "ASANA_PAT"].

Definition missing_variables (environ : string -> option string) : list string :=
  List.filter (fun key => config.falsy (environ key)) required_variables.

(** A request to stop: one of the stop commands, in any mix of upper and
    lower case, with any white space around it. *)
Definition stop_request (user_text : string) : Prop :=
  exists l word r,
    user_text = l +:+ word +:+ r
    /\ all_space l = true
    /\ all_space r = true
    /\ In (lower word) STOP_COMMANDS.

(** An outside without unexpected errors: the text generator and the two
    Google clients answer, and Gmail, Asana and Calendar either answer or
    refuse with the error their adapter catches. *)
Definition no_unexpected_error (env : Env) : Prop :=
  (forall h f, is_Some (value_of (env_llm env h f)))
  /\ (forall h, is_Some (value_of (env_gmail_service env h)))
  /\ (forall h u m, escapes is_HttpError (env_gmail_send env h u m) = None)
  /\ (forall h ws e,
        escapes is_ApiException (env_asana_add_user env h ws e) = None)
  /\ (forall h b, escapes is_ApiException (env_asana_create_task env h b) = None)
  /\ (forall h, is_Some (value_of (env_calendar_service env h)))
  /\ (forall h b, escapes is_HttpError (env_calendar_insert env h b) = None).

(** ** Concrete environments and worlds

    The worlds on which the statements below are exercised. The clock starts
    on 2026-11-03 at 09:05:07 and advances by one second per reading. *)

Definition clock_from (start_us : Z) (n : nat) : Z :=
  start_us + Z.of_nat n * US_PER_SECOND.

Definition environ_example (key : string) : option string :=
  if String.eqb key "ASANA_WORKSPACE_GID" then Some "1200000000000001"
  else if String.eqb key "ASANA_PROJECT_GID" then Some "1200000000000002"
  else None.

(** SQLite as it is seen to behave on a table without an index: rows with
    equal sort keys come in the order of their rowid. *)
Definition rowid_order (h : list Event) (x y : Employee) : bool :=
  emp_id x <? emp_id y.

(** An [email] package that refuses a header holding a line feed. *)
Fixpoint has_line_feed (s : string) : bool :=
  match s with
  | String c s' => (nat_of_ascii c =? 10)%nat || has_line_feed s'
  | EmptyString => false
  end.

Definition email_no_line_feed (message : GmailMessage)
    : option (string * string) :=
  if has_line_feed (msg_to message) || has_line_feed (msg_from message)
     || has_line_feed (msg_subject message)
  then Some ("HeaderParseError",
             "header value appears to contain an embedded header")
  else None.

(** Every collaborator answers. *)
Definition env_ok : Env :=
  mkEnv (clock_from 63929293507123456)
        environ_example
        (fun _ f => Ok ("  <p>Welcome " +:+ f_name f +:+ "</p>
"))
        (fun _ => Ok tt)
        (fun h _ _ => Ok (mkSentMessage ("msg-" +:+ str_int (Z.of_nat (length h)))))
        (fun _ _ _ => Ok tt)
        (fun h _ => Ok (mkAsanaTask ("task-" +:+ str_int (Z.of_nat (length h)))
                                    "https://app.asana.com/0/0/1"))
        (fun _ => Ok tt)
        (fun _ _ => Ok (mkCalendarEvent (Some "ev1")
                                        (Some "https://meet.google.com/abc")))
        rowid_order
        email_no_line_feed.

(** Gmail refuses every message with an [HttpError]; Asana refuses every task
    with an [ApiException]. *)
Definition env_refusing : Env :=
  mkEnv (env_clock env_ok) (env_environ env_ok) (env_llm env_ok)
        (env_gmail_service env_ok)
        (fun _ _ _ => Raise (mkExc HttpError "<HttpError 429 rate limit exceeded>"))
        (env_asana_add_user env_ok)
        (fun _ _ => Raise (mkExc ApiException "(403) Forbidden"))
        (env_calendar_service env_ok)
        (env_calendar_insert env_ok)
        (env_sqlite_order env_ok) (env_email_error env_ok).

Definition empty_world : World := mkWorld [] [] [] 0.

(** The world after [bootstrap_dummy_db]: the five seeded rows. *)
Definition seeded_world : World :=
  Eval vm_compute in snd (bootstrap_dummy_db env_ok empty_world).

Definition kaushal : Employee :=
  mkEmployee 1 "Kaushal Vachhani" "kaushal.vachhani@example.com"
    "Data Engineer" "Data Platform" 739923 "Bengaluru" "junior"
    (Some "lead.de@example.com").

Definition neeraj : Employee :=
  mkEmployee 3 "Neeraj Singh" "neeraj.singh@example.com"
    "Data Engineer" "Data Platform" 739523 "Bengaluru" "senior"
    (Some "director.de@example.com").

Definition sneha : Employee :=
  mkEmployee 4 "Sneha Rao" "sneha.rao@example.com"
    "Data Engineer" "Data Platform" 739023 "Pune" "senior"
    (Some "director.de@example.com").

(** A store without any senior Data Engineer. *)
Definition juniors_only_world : World :=
  mkWorld (List.filter is_junior (w_employees seeded_world)) [] [] 1.

(** Two seniors who joined on the same day at the same place. *)
Definition twin_a : Employee :=
  mkEmployee 7 "Twin A" "twin.a@example.com" "Data Engineer" "Data Platform"
    739000 "Pune" "senior" None.

Definition twin_b : Employee :=
  mkEmployee 8 "Twin B" "twin.b@example.com" "Data Engineer" "Data Platform"
    739000 "Pune" "senior" None.

(** A store whose first two seniors joined on the same day. *)
Definition twins_world : World :=
  mkWorld [twin_a; twin_b; sneha; kaushal] [] [] 0.

(** The same store seen later, after other work was done. *)
Definition twins_world_later : World :=
  mkWorld [twin_a; twin_b; sneha; kaushal] [fresh_state kaushal]
          [EvStWrite "Starting onboarding workflow..."] 12.

(** An engine whose order among rows with equal sort keys is the order of
    the rowid at one time and the reverse order at another. *)
Definition env_ties_vary : Env :=
  mkEnv (env_clock env_ok) (env_environ env_ok) (env_llm env_ok)
        (env_gmail_service env_ok) (env_gmail_send env_ok)
        (env_asana_add_user env_ok) (env_asana_create_task env_ok)
        (env_calendar_service env_ok) (env_calendar_insert env_ok)
        (fun h x y => if Nat.even (length h) then emp_id x <? emp_id y
                      else emp_id y <? emp_id x)
        (env_email_error env_ok).

(** A new joiner whose name holds a line feed, and a store with her. *)
Definition eve : Employee :=
  mkEmployee 9 "Eve
Bcc: all@example.com" "eve@example.com" "Data Engineer" "Data Platform"
    739923 "Pune" "junior" None.

Definition eve_world : World := mkWorld [sneha; eve] [] [] 0.

(** A store where nobody joined lately. *)
Definition veterans_world : World := mkWorld [neeraj; sneha] [] [] 0.

(** Three new joiners and two seniors; the delivery of the message to the
    second new joiner times out, which is not an [HttpError]. *)
Definition asha : Employee :=
  mkEmployee 2 "Asha Patel" "asha.patel@example.com"
    "Data Engineer" "Data Platform" 739920 "Pune" "junior" None.

Definition ravi : Employee :=
  mkEmployee 6 "Ravi Kumar" "ravi.kumar@example.com"
    "Data Engineer" "Data Platform" 739915 "Mumbai" "junior"
    (Some "lead.de@example.com").

Definition three_joiners_world : World :=
  mkWorld [kaushal; asha; neeraj; sneha; ravi] [] [] 0.

Definition env_timeout_for_asha : Env :=
  mkEnv (env_clock env_ok) (env_environ env_ok) (env_llm env_ok)
        (env_gmail_service env_ok)
        (fun h user_id message =>
           if String.eqb (msg_to message) "asha.patel@example.com"
           then Raise (mkExc (OtherException "TimeoutError")
                             "The read operation timed out")
           else env_gmail_send env_ok h user_id message)
        (env_asana_add_user env_ok)
        (env_asana_create_task env_ok)
        (env_calendar_service env_ok)
        (env_calendar_insert env_ok)
        (env_sqlite_order env_ok) (env_email_error env_ok).

(** The outside of [env_ok] seen [n] days later. *)
Definition env_days_later (n : Z) : Env :=
  mkEnv (fun k => env_clock env_ok k + n * US_PER_DAY) (env_environ env_ok)
        (env_llm env_ok) (env_gmail_service env_ok) (env_gmail_send env_ok)
        (env_asana_add_user env_ok) (env_asana_create_task env_ok)
        (env_calendar_service env_ok) (env_calendar_insert env_ok)
        (env_sqlite_order env_ok) (env_email_error env_ok).

(** The rows of an outcome, none for an exception. *)
Definition value_or_nil {A} (r : Res (list A)) : list A :=
  match r with
  | Ok l => l
  | Raise _ => []
  end.

(** Asana refuses every invitation with an [ApiException] (the user is a
    member of the workspace already, say), and answers as [env_ok] to
    everything else. *)
Definition env_invite_refused : Env :=
  mkEnv (env_clock env_ok) (env_environ env_ok) (env_llm env_ok)
        (env_gmail_service env_ok) (env_gmail_send env_ok)
        (fun _ _ _ => Raise (mkExc ApiException "(403) Forbidden"))
        (env_asana_create_task env_ok)
        (env_calendar_service env_ok) (env_calendar_insert env_ok)
        (env_sqlite_order env_ok) (env_email_error env_ok).

(** The operator interrupts the program while the message to the second
    new joiner is being delivered. *)
Definition env_interrupted_for_asha : Env :=
  mkEnv (env_clock env_ok) (env_environ env_ok) (env_llm env_ok)
        (env_gmail_service env_ok)
        (fun h user_id message =>
           if String.eqb (msg_to message) "asha.patel@example.com"
           then Raise (mkExc KeyboardInterrupt "")
           else env_gmail_send env_ok h user_id message)
        (env_asana_add_user env_ok)
        (env_asana_create_task env_ok)
        (env_calendar_service env_ok)
        (env_calendar_insert env_ok)
        (env_sqlite_order env_ok) (env_email_error env_ok).

(** An environment with the four settings, and one without the two of
    Asana's workspace and project. *)
Definition environ_complete (key : string) : option string :=
  if String.eqb key "GOOGLE_API_KEY" then Some "AIza-example"
  else if String.eqb key "ASANA_PAT" then Some "2/1200/example"
  else environ_example key.

Definition environ_partial (key : string) : option string :=
  if String.eqb key "GOOGLE_API_KEY" then Some "AIza-example"
  else if String.eqb key "ASANA_PAT" then Some "2/1200/example"
  else if String.eqb key "ASANA_PROJECT_GID" then Some ""
  else None.

Definition env_configured : Env :=
  mkEnv (env_clock env_ok) environ_complete (env_llm env_ok)
        (env_gmail_service env_ok) (env_gmail_send env_ok)
        (env_asana_add_user env_ok) (env_asana_create_task env_ok)
        (env_calendar_service env_ok) (env_calendar_insert env_ok)
        (env_sqlite_order env_ok) (env_email_error env_ok).

(** A text generator that echoes its input. *)
Definition chain_echo (input : string) : Res string :=
  Ok ("You said: " +:+ input).

(** * Sanity checks of the Python base layer *)

Example ord2ymd_2025_08_14 : date_isoformat 739477 = "2025-08-14".
Proof. vm_compute. reflexivity. Qed.
Example ord2ymd_min : date_isoformat 1 = "0001-01-01".
Proof. vm_compute. reflexivity. Qed.
Example ord2ymd_max : date_isoformat 3652059 = "9999-12-31".
Proof. vm_compute. reflexivity. Qed.
Example ord2ymd_leap : date_isoformat 738945 = "2024-02-29".
Proof. vm_compute. reflexivity. Qed.
Example ord2ymd_2000 : date_isoformat 730485 = "2000-12-31".
Proof. vm_compute. reflexivity. Qed.
Example ord2ymd_1900 : date_isoformat 693655 = "1900-03-01".
Proof. vm_compute. reflexivity. Qed.
Example now_iso :
  datetime_isoformat_seconds (datetime_of_us 63929293507123456)
  = "2026-11-03T09:05:07"
  /\ datetime_isoformat (datetime_of_us 63929293507123456)
     = "2026-11-03T09:05:07.123456".
Proof. vm_compute. split; reflexivity. Qed.
Example strip_ex : strip "  a b
 " = "a b".
Proof. vm_compute. reflexivity. Qed.
(** The white space [str.strip] removes is not ASCII only: a no-break
    space (U+00A0, bytes C2 A0) before the text, an ideographic space
    (U+3000, bytes E3 80 80) and a next-line control (U+0085, bytes C2 85)
    after it. A zero-width space (U+200B, bytes E2 80 8B) is not white
    space. *)
Example strip_unicode_ex :
  strip (String "194" (String "160"
           ("a b" +:+ String "227" (String "128" (String "128"
              (String "194" (String "133" "")))))))
  = "a b"
  /\ strip (String "226" (String "128" (String "139" " a")))
     = String "226" (String "128" (String "139" " a")).
Proof. vm_compute. split; reflexivity. Qed.
(** ** Reasoning about the monad *)

Lemma bind_Ok_inv {A B} (m : M A) (k : A -> M B) w b w2 :
  bind m k w = (Ok b, w2) ->
  exists a w1, m w = (Ok a, w1) /\ k a w1 = (Ok b, w2).
Proof.
  unfold bind. destruct (m w) as [[a | e] w1]; intros H.
  - exists a, w1. split; [reflexivity | exact H].
  - discriminate H.
Qed.

Lemma bind_Ok {A B} (m : M A) (k : A -> M B) w a w1 :
  m w = (Ok a, w1) -> bind m k w = k a w1.
Proof. unfold bind. intros ->. reflexivity. Qed.

Lemma bind_Raise {A B} (m : M A) (k : A -> M B) w e w1 :
  m w = (Raise e, w1) -> bind m k w = (Raise e, w1).
Proof. unfold bind. intros ->. reflexivity. Qed.

Lemma bind_assoc {A B C} (m : M A) (k : A -> M B) (h : B -> M C) w :
  bind (bind m k) h w = bind m (fun a => bind (k a) h) w.
Proof. unfold bind. destruct (m w) as [[a | e] w1]; reflexivity. Qed.

(** ** Reasoning about the store *)

Section OrderBy.

Variable before : Employee -> Employee -> bool.

Lemma insert_by_date_head x l :
  head (insert_by_date before x l)
  = Some (match head l with
          | None => x
          | Some y =>
              if (emp_date_joined x <? emp_date_joined y)
                 || ((emp_date_joined x =? emp_date_joined y) && before x y)
              then x else y
          end).
Proof.
  destruct l as [| y l']; simpl; [reflexivity |].
  destruct ((emp_date_joined x <? emp_date_joined y)
            || ((emp_date_joined x =? emp_date_joined y) && before x y));
    reflexivity.
Qed.

Lemma order_by_date_joined_nil l : order_by_date_joined before l = [] -> l = [].
Proof.
  destruct l as [| x l]; [reflexivity |]. simpl. intros H.
  apply (f_equal head) in H. rewrite insert_by_date_head in H. discriminate H.
Qed.

Lemma order_by_date_joined_head_None l :
  head (order_by_date_joined before l) = None <-> l = [].
Proof.
  split.
  - intros H. apply order_by_date_joined_nil.
    destruct (order_by_date_joined before l); [reflexivity | discriminate H].
  - intros ->. reflexivity.
Qed.

(** The first row of [ORDER BY date(date_joined) ASC] is a row of the input
    and no row of the input joined before it, whatever the engine does with
    the rows that joined on the same day. *)
Lemma order_by_date_joined_head l m :
  head (order_by_date_joined before l) = Some m ->
  In m l /\ (forall x, In x l -> emp_date_joined m <= emp_date_joined x).
Proof.
  revert m. induction l as [| a l IH]; intros m H; simpl in H; [discriminate H |].
  rewrite insert_by_date_head in H.
  destruct (head (order_by_date_joined before l)) as [y |] eqn:Hy.
  - destruct (IH y eq_refl) as [Hin Hmin].
    destruct ((emp_date_joined a <? emp_date_joined y)
              || ((emp_date_joined a =? emp_date_joined y) && before a y))
      eqn:Hle; injection H as <-.
    + assert (emp_date_joined a <= emp_date_joined y).
      { apply orb_true_iff in Hle as [Hlt | Heq].
        - apply Z.ltb_lt in Hlt. lia.
        - apply andb_true_iff in Heq as [Heq _]. apply Z.eqb_eq in Heq. lia. }
      split; [left; reflexivity |].
      intros x [<- | Hx]; [lia |]. specialize (Hmin x Hx). lia.
    + apply orb_false_iff in Hle as [Hlt _]. apply Z.ltb_ge in Hlt.
      split; [right; exact Hin |].
      intros x [<- | Hx]; [lia | auto].
  - injection H as <-.
    apply order_by_date_joined_head_None in Hy. subst l.
    split; [left; reflexivity |]. intros x [<- | []]. lia.
Qed.

(** The rows come out sorted by join date, and they are the rows that went
    in. *)
Lemma insert_by_date_Permutation x l :
  Permutation (insert_by_date before x l) (x :: l).
Proof.
  induction l as [| y l IH]; simpl; [reflexivity |].
  destruct ((emp_date_joined x <? emp_date_joined y)
            || ((emp_date_joined x =? emp_date_joined y) && before x y));
    [reflexivity |].
  rewrite IH. apply perm_swap.
Qed.

Lemma order_by_date_joined_Permutation l :
  Permutation (order_by_date_joined before l) l.
Proof.
  induction l as [| x l IH]; simpl; [reflexivity |].
  rewrite insert_by_date_Permutation. apply perm_skip. exact IH.
Qed.

End OrderBy.

(** Two engines that agree on the rows that joined on the same day sort
    alike. *)
Lemma order_by_date_joined_ext before1 before2 l :
  (forall x y, before1 x y = before2 x y) ->
  order_by_date_joined before1 l = order_by_date_joined before2 l.
Proof.
  intros Hsame. induction l as [| x l IH]; simpl; [reflexivity |].
  rewrite IH. generalize (order_by_date_joined before2 l). intros sorted.
  induction sorted as [| y sorted IHs]; simpl; [reflexivity |].
  rewrite Hsame, IHs. reflexivity.
Qed.

Lemma fetchone_limit_1 l : fetchone (limit_1 l) = head l.
Proof. destruct l; reflexivity. Qed.


(** ** Reasoning about the heap and the log *)

Lemma deref_Some_valid {A} (field : EmpState -> option A) w state v :
  field empty_dict = None ->
  field (deref w state) = Some v ->
  (state < length (w_heap w))%nat.
Proof.
  unfold deref. intros Hnone H.
  destruct (w_heap w !! state) as [s |] eqn:Hs.
  - eapply lookup_lt_Some. exact Hs.
  - simpl in H. congruence.
Qed.

Lemma employee_valid w state emp :
  employee (deref w state) = Some emp -> (state < length (w_heap w))%nat.
Proof. apply (deref_Some_valid employee). reflexivity. Qed.

Lemma deref_insert emps heap tr tk state s :
  (state < length heap)%nat ->
  deref (mkWorld emps (<[state := s]> heap) tr tk) state = s.
Proof.
  intros H. unfold deref. simpl. rewrite list_lookup_insert_eq by exact H.
  reflexivity.
Qed.

(** [state[key] = v] followed by [return append_log(state, msg)]. *)
Lemma setitem_append_log env state update msg w :
  (state < length (w_heap w))%nat ->
  (forall s, logs (update s) = logs s) ->
  (setitem state update ;; append_log env state msg) w
  = (Ok state, logged env state update msg w).
Proof.
  intros Hv Hupd.
  unfold append_log, bind, setitem, get_logs, datetime_now, clock_us, ret, logged.
  simpl. rewrite !deref_insert by exact Hv.
  rewrite list_insert_insert_eq. unfold logs_of. rewrite Hupd. reflexivity.
Qed.

(** ** The nodes, outcome by outcome *)

Section NodeEquations.

Variable env : Env.

Lemma getitem_employee_None {B} state (k : Employee -> M B) w :
  employee (deref w state) = None ->
  (emp <- getitem state "employee" employee ;; k emp) w
  = (Raise (mkExc KeyError "'employee'"), w).
Proof. intros H. unfold bind, getitem. rewrite H. reflexivity. Qed.

Lemma getitem_employee_Some {B} state (k : Employee -> M B) w emp :
  employee (deref w state) = Some emp ->
  (emp <- getitem state "employee" employee ;; k emp) w = k emp w.
Proof. intros H. unfold bind, getitem. rewrite H. reflexivity. Qed.

Lemma node_generate_email_eq state w emp :
  employee (deref w state) = Some emp ->
  node_generate_email env state w
  = let w1 := add_events [EvLlmInvoke (welcome_fields emp)] w in
    match env_llm env (w_trace w) (welcome_fields emp) with
    | Ok body =>
        (Ok state,
         logged env state (set_email_body (strip body))
                ("Generated email for " +:+ emp_email emp) w1)
    | Raise e => (Raise e, w1)
    end.
Proof.
  intros He. pose proof (employee_valid _ _ _ He) as Hv.
  unfold node_generate_email. rewrite (getitem_employee_Some _ _ _ _ He).
  unfold generate_welcome_email_content.
  rewrite bind_assoc. unfold bind at 1, call.
  fold (welcome_fields emp).
  destruct (env_llm env (w_trace w) (welcome_fields emp)) as [body | e];
    [| reflexivity].
  cbv zeta. unfold bind at 1, ret at 1.
  apply (setitem_append_log env state (set_email_body (strip body)) _
           (add_events [EvLlmInvoke (welcome_fields emp)] w)); auto.
Qed.

Lemma add_events_app evs1 evs2 w :
  add_events evs2 (add_events evs1 w) = add_events (evs1 ++ evs2) w.
Proof. unfold add_events. simpl. rewrite <- app_assoc. reflexivity. Qed.

(** [try: r = <call>; return r  except cls: return None]. *)
Lemma try_call_eq {A} (ev : Event) (answer : list Event -> Res A) cls w :
  try_except (r <- call ev answer ;; ret (Some r)) cls (fun _ => ret None) w
  = match escapes cls (answer (w_trace w)) with
    | Some e => (Raise e, add_events [ev] w)
    | None => (Ok (value_of (answer (w_trace w))), add_events [ev] w)
    end.
Proof.
  unfold try_except, bind, call, ret, escapes, value_of.
  destruct (answer (w_trace w)) as [a | e]; [reflexivity |].
  destruct (cls (exc_class e)); reflexivity.
Qed.

Lemma send_message_eq user_id message w :
  send_message env user_id message w
  = let r := env_gmail_send env (w_trace w) user_id message in
    match escapes is_HttpError r with
    | Some e => (Raise e, add_events [EvGmailSend user_id message] w)
    | None => (Ok (value_of r), add_events [EvGmailSend user_id message] w)
    end.
Proof. unfold send_message. rewrite try_call_eq. reflexivity. Qed.

Lemma as_bytes_eq message w :
  as_bytes env message w
  = match email_error env message with
    | Some e => (Raise e, w)
    | None => (Ok message, w)
    end.
Proof.
  unfold as_bytes, email_error.
  destruct (plain_headers message); [reflexivity |].
  destruct (env_email_error env message) as [[cls text] |]; reflexivity.
Qed.

Lemma send_gmail_eq sender recipient subject body w :
  send_gmail env sender recipient subject body w
  = let message := mkGmailMessage recipient sender subject body in
    match env_gmail_service env (w_trace w) with
    | Ok _ =>
        match email_error env message with
        | Some e => (Raise e, add_events [EvGmailService] w)
        | None =>
            send_message env sender message (add_events [EvGmailService] w)
        end
    | Raise e => (Raise e, add_events [EvGmailService] w)
    end.
Proof.
  unfold send_gmail, get_gmail_service, bind at 1, call.
  destruct (env_gmail_service env (w_trace w)) as [[] | e]; [| reflexivity].
  cbv zeta. unfold bind at 1, create_message. cbv zeta. rewrite as_bytes_eq.
  fold (add_events [EvGmailService] w).
  destruct (email_error env _) as [e |]; [reflexivity |].
  unfold bind, ret.
  match goal with |- context [send_message ?a ?b ?c ?d] =>
    destruct (send_message a b c d) as [[r | e] w1] end; reflexivity.
Qed.

Lemma node_send_email_eq state w emp body :
  employee (deref w state) = Some emp ->
  email_body (deref w state) = Some body ->
  node_send_email env state w
  = let message := welcome_message emp body in
    match env_gmail_service env (w_trace w) with
    | Raise e => (Raise e, add_events [EvGmailService] w)
    | Ok _ =>
        match email_error env message with
        | Some e => (Raise e, add_events [EvGmailService] w)
        | None =>
            let w2 := add_events [EvGmailService; EvGmailSend "me" message] w in
            let r :=
              env_gmail_send env (w_trace w ++ [EvGmailService]) "me" message in
            match escapes is_HttpError r with
            | Some e => (Raise e, w2)
            | None =>
                (Ok state,
                 logged env state (set_email_result (value_of r))
                        ("Sent welcome email to " +:+ emp_email emp) w2)
            end
        end
    end.
Proof.
  intros He Hb. pose proof (employee_valid _ _ _ He) as Hv.
  unfold node_send_email. rewrite (getitem_employee_Some _ _ _ _ He).
  cbv zeta. unfold bind at 1, getitem at 1. rewrite Hb.
  unfold bind at 1. rewrite send_gmail_eq. cbv zeta.
  change (mkGmailMessage (emp_email emp) "me"
            ("Welcome to the team, " +:+ emp_name emp +:+ "!") body)
    with (welcome_message emp body).
  destruct (env_gmail_service env (w_trace w)) as [[] | e]; [| reflexivity].
  destruct (email_error env (welcome_message emp body)) as [e |];
    [reflexivity |].
  rewrite send_message_eq. cbv zeta. rewrite add_events_app. simpl app.
  change (w_trace (add_events [EvGmailService] w)) with (w_trace w ++ [EvGmailService]).
  destruct (escapes is_HttpError _) as [e |]; [reflexivity |].
  apply (setitem_append_log env state (set_email_result _)); auto.
Qed.

Lemma invite_user_to_workspace_eq workspace_gid new_member_email w :
  invite_user_to_workspace env workspace_gid new_member_email w
  = let ev := EvAsanaAddUser workspace_gid new_member_email in
    match escapes is_ApiException
            (env_asana_add_user env (w_trace w) workspace_gid new_member_email) with
    | Some e => (Raise e, add_events [ev] w)
    | None => (Ok tt, add_events [ev] w)
    end.
Proof.
  unfold invite_user_to_workspace, try_except, call, ret, escapes.
  destruct (env_asana_add_user env (w_trace w) workspace_gid new_member_email)
    as [[] | e]; [reflexivity |].
  destruct (is_ApiException (exc_class e)); reflexivity.
Qed.

Lemma create_task_eq workspace_gid project_gid assignee_email task_name w :
  create_task env workspace_gid project_gid assignee_email task_name w
  = let body := mkTaskBody task_name assignee_email workspace_gid [project_gid] in
    let r := env_asana_create_task env (w_trace w) body in
    match escapes is_ApiException r with
    | Some e => (Raise e, add_events [EvAsanaCreateTask body] w)
    | None => (Ok (value_of r), add_events [EvAsanaCreateTask body] w)
    end.
Proof. unfold create_task. cbv zeta. rewrite try_call_eq. reflexivity. Qed.

Lemma create_onboarding_tasks_eq workspace_gid project_gid new_member_email
    task_name w :
  create_onboarding_tasks env workspace_gid project_gid new_member_email
                          task_name w
  = let invite := EvAsanaAddUser workspace_gid new_member_email in
    match escapes is_ApiException
            (env_asana_add_user env (w_trace w) workspace_gid new_member_email) with
    | Some e => (Raise e, add_events [invite] w)
    | None =>
        create_task env workspace_gid project_gid new_member_email task_name
                    (add_events [invite] w)
    end.
Proof.
  unfold create_onboarding_tasks, bind. rewrite invite_user_to_workspace_eq.
  cbv zeta. destruct (escapes is_ApiException _); reflexivity.
Qed.

Lemma node_asana_task_eq state w emp :
  employee (deref w state) = Some emp ->
  node_asana_task env state w
  = let invite := workspace_invite env emp in
    let body := onboarding_task env emp in
    match escapes is_ApiException
            (env_asana_add_user env (w_trace w)
               (environ_get env "ASANA_WORKSPACE_GID" "workspace_dummy")
               (emp_email emp)) with
    | Some e => (Raise e, add_events [invite] w)
    | None =>
        let w2 := add_events [invite; EvAsanaCreateTask body] w in
        let r := env_asana_create_task env (w_trace w ++ [invite]) body in
        match escapes is_ApiException r with
        | Some e => (Raise e, w2)
        | None =>
            (Ok state,
             logged env state (set_asana_task (value_of r))
                    ("Created Asana task for " +:+ emp_email emp) w2)
        end
    end.
Proof.
  intros He. pose proof (employee_valid _ _ _ He) as Hv.
  unfold node_asana_task. rewrite (getitem_employee_Some _ _ _ _ He).
  cbv zeta. unfold bind at 1. rewrite create_onboarding_tasks_eq. cbv zeta.
  fold (workspace_invite env emp).
  destruct (escapes is_ApiException _) as [e |]; [reflexivity |].
  rewrite create_task_eq. cbv zeta. rewrite add_events_app. simpl app.
  fold (onboarding_task env emp).
  change (w_trace (add_events [workspace_invite env emp] w))
    with (w_trace w ++ [workspace_invite env emp]).
  destruct (escapes is_ApiException _) as [e |]; [reflexivity |].
  apply (setitem_append_log env state (set_asana_task _)); auto.
Qed.

Lemma mentor_queries_eq h preferred_location table :
  mentor_queries preferred_location table
  = match senior_at env h preferred_location table with
    | Some _ => [EvSql (SelectSeniorAt preferred_location)]
    | None => [EvSql (SelectSeniorAt preferred_location); EvSql SelectSeniorAny]
    end.
Proof.
  unfold mentor_queries, senior_at.
  destruct (head (order_by_date_joined _ _)) as [row |] eqn:Hrow.
  - destruct (List.filter _ table); [discriminate Hrow | reflexivity].
  - apply order_by_date_joined_head_None in Hrow. rewrite Hrow. reflexivity.
Qed.

Lemma find_senior_mentor_eq preferred_location w :
  find_senior_mentor env preferred_location w
  = (Ok (select_mentor env (w_trace w) preferred_location (w_employees w)),
     add_events (mentor_queries preferred_location (w_employees w)) w).
Proof.
  rewrite (mentor_queries_eq (w_trace w)).
  unfold find_senior_mentor, bind at 1, execute at 1. cbn [result_rows table_after].
  rewrite fetchone_limit_1. unfold select_mentor.
  fold (senior_at env (w_trace w) preferred_location (w_employees w)).
  destruct (senior_at env (w_trace w) preferred_location (w_employees w))
    as [row |]; [reflexivity |].
  unfold bind, execute, ret. cbn [result_rows table_after w_employees w_heap w_trace w_ticks].
  rewrite fetchone_limit_1. unfold add_events. rewrite <- app_assoc. reflexivity.
Qed.

Lemma node_find_mentor_eq state w emp :
  employee (deref w state) = Some emp ->
  node_find_mentor env state w
  = let w1 := add_events (mentor_queries (emp_location emp) (w_employees w)) w in
    match select_mentor env (w_trace w) (emp_location emp) (w_employees w) with
    | None =>
        (Raise (mkExc RuntimeError
                  ("No senior mentor available for " +:+ emp_name emp)), w1)
    | Some mentor =>
        (Ok state,
         logged env state (set_mentor mentor)
                ("Selected mentor " +:+ emp_name mentor +:+ " for "
                 +:+ emp_email emp) w1)
    end.
Proof.
  intros He. pose proof (employee_valid _ _ _ He) as Hv.
  unfold node_find_mentor. rewrite (getitem_employee_Some _ _ _ _ He).
  unfold bind at 1. rewrite find_senior_mentor_eq. cbv zeta.
  destruct (select_mentor env (w_trace w) (emp_location emp) (w_employees w))
    as [m |]; [| reflexivity].
  apply (setitem_append_log env state (set_mentor m)); auto.
Qed.

Lemma schedule_calendar_event_eq summary location description start_time_str
    end_time_str attendees_emails timezone reminders conference_request_id w :
  schedule_calendar_event env summary location description start_time_str
    end_time_str attendees_emails timezone reminders conference_request_id w
  = let body :=
      mkEventDetails summary location description
        (mkEventTime start_time_str timezone)
        (mkEventTime end_time_str timezone)
        attendees_emails false
        (match reminders with [] => default_reminders | _ => reminders end)
        conference_request_id "hangoutsMeet" in
    match env_calendar_service env (w_trace w) with
    | Raise e => (Raise e, add_events [EvCalendarService] w)
    | Ok _ =>
        let w2 := add_events [EvCalendarService; EvCalendarInsert "primary" body] w in
        let r := env_calendar_insert env (w_trace w ++ [EvCalendarService]) body in
        match escapes is_HttpError r with
        | Some e => (Raise e, w2)
        | None => (Ok (value_of r), w2)
        end
    end.
Proof.
  unfold schedule_calendar_event, get_calendar_service, bind at 1, call at 1.
  destruct (env_calendar_service env (w_trace w)) as [[] | e]; [| reflexivity].
  cbv zeta. rewrite try_call_eq. unfold add_events. simpl.
  rewrite <- app_assoc. reflexivity.
Qed.

Lemma node_schedule_intro_call_eq state w emp m :
  employee (deref w state) = Some emp ->
  mentor (deref w state) = Some m ->
  node_schedule_intro_call env state w
  = let next_week := today_in env w + 7 in
    let w1 := add_ticks 1 w in
    if valid_date next_week then
      let body := intro_call_event emp m next_week in
      match env_calendar_service env (w_trace w) with
      | Raise e => (Raise e, add_events [EvCalendarService] w1)
      | Ok _ =>
          let w2 :=
            add_events [EvCalendarService; EvCalendarInsert "primary" body] w1 in
          let r := env_calendar_insert env (w_trace w ++ [EvCalendarService]) body in
          match escapes is_HttpError r with
          | Some e => (Raise e, w2)
          | None =>
              (Ok state,
               logged env state (set_calendar_event (value_of r))
                      ("Scheduled mentor call for " +:+ emp_email emp) w2)
          end
      end
    else (Raise (mkExc OverflowError "date value out of range"), w1).
Proof.
  intros He Hm. pose proof (employee_valid _ _ _ He) as Hv.
  unfold node_schedule_intro_call. rewrite (getitem_employee_Some _ _ _ _ He).
  unfold bind at 1, getitem at 1. rewrite Hm.
  unfold bind at 1, date_today at 1, bind at 1, clock_us at 1, ret at 1.
  change (dt_date (datetime_of_us (env_clock env (w_ticks w))))
    with (today_in env w). cbv zeta.
  unfold bind at 1, date_add_days at 1.
  change (Z.abs 7 <=? 999999999) with true. cbv iota.
  change (mkWorld (w_employees w) (w_heap w) (w_trace w) (S (w_ticks w)))
    with (add_ticks 1 w).
  destruct (valid_date (today_in env w + 7)); [| reflexivity].
  unfold ret at 1. unfold bind at 1.
  rewrite schedule_calendar_event_eq. cbv zeta.
  fold (intro_call_event emp m (today_in env w + 7)).
  change (w_trace (add_ticks 1 w)) with (w_trace w).
  destruct (env_calendar_service env (w_trace w)) as [[] | e]; [| reflexivity].
  destruct (escapes is_HttpError _) as [e |]; [reflexivity |].
  apply (setitem_append_log env state (set_calendar_event _)); auto.
Qed.

End NodeEquations.

(** ** Frames *)

Lemma node_frame_refl state w : node_frame state w w.
Proof.
  repeat split; auto. exists []. rewrite app_nil_r. reflexivity.
Qed.

Lemma node_frame_trans state w1 w2 w3 :
  node_frame state w1 w2 -> node_frame state w2 w3 -> node_frame state w1 w3.
Proof.
  intros (He1 & Hl1 & Hh1 & Hs1 & [evs1 Ht1] & Hk1)
         (He2 & Hl2 & Hh2 & Hs2 & [evs2 Ht2] & Hk2).
  repeat split.
  - congruence.
  - congruence.
  - intros r Hr. rewrite Hh2, Hh1 by exact Hr. reflexivity.
  - congruence.
  - exists (evs1 ++ evs2). rewrite Ht2, Ht1, app_assoc. reflexivity.
  - lia.
Qed.

Lemma node_frame_add_events state evs w : node_frame state w (add_events evs w).
Proof. repeat split; simpl; auto. exists evs. reflexivity. Qed.

Lemma node_frame_add_ticks state n w : node_frame state w (add_ticks n w).
Proof.
  repeat split; simpl; auto; [| lia]. exists []. rewrite app_nil_r. reflexivity.
Qed.

Lemma node_frame_events evs w w0 state :
  node_frame state w0 w -> node_frame state w0 (add_events evs w).
Proof.
  intros H. eapply node_frame_trans; [exact H | apply node_frame_add_events].
Qed.

Create HintDb frame.
#[local] Hint Resolve node_frame_refl node_frame_add_events node_frame_add_ticks
  node_frame_events : frame.

Lemma step_result_deref state w w' s' evs t :
  step_result state w w' s' evs t -> deref w' state = s'.
Proof.
  intros (Hv & _ & Hh & _). unfold deref. rewrite Hh.
  rewrite list_lookup_insert_eq by exact Hv. reflexivity.
Qed.

Lemma step_result_trans state w w1 w2 s1 s2 evs1 evs2 t1 t2 :
  step_result state w w1 s1 evs1 t1 ->
  step_result state w1 w2 s2 evs2 t2 ->
  step_result state w w2 s2 (evs1 ++ evs2) t2.
Proof.
  intros (Hv & He & Hh & Ht & Hk) (Hv' & He' & Hh' & Ht' & Hk').
  repeat split; auto.
  - congruence.
  - rewrite Hh', Hh. apply list_insert_insert_eq.
  - rewrite Ht', Ht, app_assoc. reflexivity.
Qed.

Lemma step_result_frame state w w' s' evs t :
  step_result state w w' s' evs t ->
  employee s' = employee (deref w state) ->
  (w_ticks w <= t)%nat ->
  node_frame state w w'.
Proof.
  intros R Hs Hle. pose proof (step_result_deref _ _ _ _ _ _ R) as D.
  destruct R as (Hv & He & Hh & Ht & Hk). repeat split; auto.
  - rewrite Hh. apply length_insert.
  - intros r Hr. rewrite Hh. apply list_lookup_insert_ne. auto.
  - rewrite D. exact Hs.
  - exists evs. exact Ht.
  - lia.
Qed.

(** ** What each node does when it returns, and when it raises *)

Section NodeOutcomes.

Variable env : Env.

Ltac no_employee H :=
  match type of H with
  | ?node env ?state ?w = _ =>
      destruct (employee (deref w state)) as [emp |] eqn:He;
      [| unfold node in H; rewrite (getitem_employee_None _ _ _ He) in H ]
  end.

Lemma node_generate_email_Ok state w r w' :
  node_generate_email env state w = (Ok r, w') ->
  exists emp body,
    employee (deref w state) = Some emp
    /\ env_llm env (w_trace w) (welcome_fields emp) = Ok body
    /\ r = state
    /\ step_result state w w'
         (stored env (set_email_body (strip body)) (w_ticks w)
                 ("Generated email for " +:+ emp_email emp) (deref w state))
         [EvLlmInvoke (welcome_fields emp)] (S (w_ticks w)).
Proof.
  intros H. no_employee H; [| discriminate H].
  rewrite (node_generate_email_eq _ _ _ _ He) in H. cbv zeta in H.
  destruct (env_llm env (w_trace w) (welcome_fields emp)) as [body | e] eqn:Hllm;
    [| discriminate H].
  injection H as <- <-. exists emp, body. repeat split; auto.
  all: apply (employee_valid _ _ _ He).
Qed.

Lemma node_send_email_Ok state w r w' :
  node_send_email env state w = (Ok r, w') ->
  exists emp body res,
    employee (deref w state) = Some emp
    /\ email_body (deref w state) = Some body
    /\ env_gmail_service env (w_trace w) = Ok tt
    /\ email_error env (welcome_message emp body) = None
    /\ escapes is_HttpError
         (env_gmail_send env (w_trace w ++ [EvGmailService]) "me"
            (welcome_message emp body)) = None
    /\ res = value_of (env_gmail_send env (w_trace w ++ [EvGmailService]) "me"
                         (welcome_message emp body))
    /\ r = state
    /\ step_result state w w'
         (stored env (set_email_result res) (w_ticks w)
                 ("Sent welcome email to " +:+ emp_email emp) (deref w state))
         [EvGmailService; EvGmailSend "me" (welcome_message emp body)]
         (S (w_ticks w)).
Proof.
  intros H. no_employee H; [| discriminate H].
  destruct (email_body (deref w state)) as [body |] eqn:Hb.
  - rewrite (node_send_email_eq _ _ _ _ _ He Hb) in H. cbv zeta in H.
    destruct (env_gmail_service env (w_trace w)) as [[] | e]; [| discriminate H].
    destruct (email_error env (welcome_message emp body)) eqn:Hmime;
      [discriminate H |].
    destruct (escapes is_HttpError _) eqn:Hesc; [discriminate H |].
    injection H as <- <-. exists emp, body. eexists. repeat split; eauto.
    all: apply (employee_valid _ _ _ He).
  - unfold node_send_email in H. rewrite (getitem_employee_Some _ _ _ _ He) in H.
    cbv zeta in H. unfold bind at 1, getitem at 1 in H. rewrite Hb in H.
    discriminate H.
Qed.

Lemma node_asana_task_Ok state w r w' :
  node_asana_task env state w = (Ok r, w') ->
  exists emp task,
    employee (deref w state) = Some emp
    /\ task = value_of (env_asana_create_task env
                          (w_trace w ++ [workspace_invite env emp])
                          (onboarding_task env emp))
    /\ r = state
    /\ step_result state w w'
         (stored env (set_asana_task task) (w_ticks w)
                 ("Created Asana task for " +:+ emp_email emp) (deref w state))
         [workspace_invite env emp; EvAsanaCreateTask (onboarding_task env emp)]
         (S (w_ticks w)).
Proof.
  intros H. no_employee H; [| discriminate H].
  rewrite (node_asana_task_eq _ _ _ _ He) in H. cbv zeta in H.
  destruct (escapes is_ApiException _); [discriminate H |].
  destruct (escapes is_ApiException _); [discriminate H |].
  injection H as <- <-. exists emp. eexists. repeat split; eauto.
  all: apply (employee_valid _ _ _ He).
Qed.

Lemma node_find_mentor_Ok state w r w' :
  node_find_mentor env state w = (Ok r, w') ->
  exists emp m,
    employee (deref w state) = Some emp
    /\ select_mentor env (w_trace w) (emp_location emp) (w_employees w) = Some m
    /\ r = state
    /\ step_result state w w'
         (stored env (set_mentor m) (w_ticks w)
                 ("Selected mentor " +:+ emp_name m +:+ " for " +:+ emp_email emp)
                 (deref w state))
         (mentor_queries (emp_location emp) (w_employees w))
         (S (w_ticks w)).
Proof.
  intros H. no_employee H; [| discriminate H].
  rewrite (node_find_mentor_eq _ _ _ _ He) in H. cbv zeta in H.
  destruct (select_mentor env (w_trace w) (emp_location emp) (w_employees w))
    as [m |] eqn:Hm; [| discriminate H].
  injection H as <- <-. exists emp, m. repeat split; auto.
  all: apply (employee_valid _ _ _ He).
Qed.

Lemma node_schedule_intro_call_no_mentor state w emp :
  employee (deref w state) = Some emp ->
  mentor (deref w state) = None ->
  node_schedule_intro_call env state w = (Raise (mkExc KeyError "'mentor'"), w).
Proof.
  intros He Hm. unfold node_schedule_intro_call.
  rewrite (getitem_employee_Some _ _ _ _ He).
  unfold bind at 1, getitem at 1. rewrite Hm. reflexivity.
Qed.

Lemma node_schedule_intro_call_Ok state w r w' :
  node_schedule_intro_call env state w = (Ok r, w') ->
  exists emp m event,
    employee (deref w state) = Some emp
    /\ mentor (deref w state) = Some m
    /\ valid_date (today_in env w + 7) = true
    /\ event = value_of (env_calendar_insert env (w_trace w ++ [EvCalendarService])
                           (intro_call_event emp m (today_in env w + 7)))
    /\ r = state
    /\ env_calendar_service env (w_trace w) = Ok tt
    /\ step_result state w w'
         (stored env (set_calendar_event event) (S (w_ticks w))
                 ("Scheduled mentor call for " +:+ emp_email emp) (deref w state))
         [EvCalendarService;
          EvCalendarInsert "primary" (intro_call_event emp m (today_in env w + 7))]
         (S (S (w_ticks w))).
Proof.
  intros H. no_employee H; [| discriminate H].
  destruct (mentor (deref w state)) as [m |] eqn:Hm.
  - rewrite (node_schedule_intro_call_eq _ _ _ _ _ He Hm) in H. cbv zeta in H.
    destruct (valid_date (today_in env w + 7)) eqn:Hvalid; [| discriminate H].
    destruct (env_calendar_service env (w_trace w)) as [[] | e]; [| discriminate H].
    destruct (escapes is_HttpError _); [discriminate H |].
    injection H as <- <-. exists emp, m. eexists. repeat split; eauto.
    all: apply (employee_valid _ _ _ He).
  - rewrite (node_schedule_intro_call_no_mentor _ _ _ He Hm) in H. discriminate H.
Qed.

Lemma escapes_Some {A} cls (r : Res A) e : escapes cls r = Some e -> r = Raise e.
Proof.
  destruct r as [a | e']; simpl; [discriminate |].
  destruct (cls (exc_class e')); [discriminate |]. intros [= ->]. reflexivity.
Qed.

Lemma email_error_is_Exception message e :
  email_error env message = Some e -> is_Exception (exc_class e) = true.
Proof.
  unfold email_error. destruct (plain_headers message); [discriminate |].
  destruct (env_email_error env message) as [[cls text] |]; [| discriminate].
  intros [= <-]. reflexivity.
Qed.

Lemma well_behaved_escapes {A} cls (r : Res A) e :
  raises_only_Exception r -> escapes cls r = Some e ->
  is_Exception (exc_class e) = true.
Proof. intros Hr He. apply escapes_Some in He. subst r. exact Hr. Qed.

Ltac raised H :=
  injection H as <- <-;
  split; [reflexivity | split; [auto with frame |]];
  try (intros _; reflexivity).

Ltac from_outside :=
  let Hwb := fresh "Hwb" in
  intros Hwb; destruct Hwb as (? & ? & ? & ? & ? & ? & ?);
  match goal with
  | Hesc : escapes _ _ = Some ?e |- is_Exception (exc_class ?e) = true =>
      refine (well_behaved_escapes _ _ _ _ Hesc); auto
  | Hr : ?answer = Raise ?e |- is_Exception (exc_class ?e) = true =>
      let X := fresh in
      assert (X : raises_only_Exception answer) by auto;
      rewrite Hr in X; exact X
  end.

Lemma node_generate_email_Raise state w e w' :
  node_generate_email env state w = (Raise e, w') -> raise_outcome env state w e w'.
Proof.
  intros H. no_employee H.
  - rewrite (node_generate_email_eq _ _ _ _ He) in H. cbv zeta in H.
    destruct (env_llm env (w_trace w) (welcome_fields emp)) eqn:Hr;
      [discriminate H |].
    raised H. from_outside.
  - raised H.
Qed.

Lemma node_send_email_Raise state w e w' :
  node_send_email env state w = (Raise e, w') -> raise_outcome env state w e w'.
Proof.
  intros H. no_employee H.
  - destruct (email_body (deref w state)) as [body |] eqn:Hb.
    + rewrite (node_send_email_eq _ _ _ _ _ He Hb) in H. cbv zeta in H.
      destruct (env_gmail_service env (w_trace w)) as [[] | e'] eqn:Hr.
      * destruct (email_error env (welcome_message emp body)) as [e' |] eqn:Hmime.
        -- raised H. intros _. apply (email_error_is_Exception _ _ Hmime).
        -- destruct (escapes is_HttpError _) eqn:Hesc; [| discriminate H].
           raised H. from_outside.
      * raised H. from_outside.
    + unfold node_send_email in H. rewrite (getitem_employee_Some _ _ _ _ He) in H.
      cbv zeta in H. unfold bind at 1, getitem at 1 in H. rewrite Hb in H.
      raised H.
  - raised H.
Qed.

Lemma node_asana_task_Raise state w e w' :
  node_asana_task env state w = (Raise e, w') -> raise_outcome env state w e w'.
Proof.
  intros H. no_employee H.
  - rewrite (node_asana_task_eq _ _ _ _ He) in H. cbv zeta in H.
    destruct (escapes is_ApiException _) eqn:Hesc.
    + raised H. from_outside.
    + destruct (escapes is_ApiException _) eqn:Hesc2 in H; [| discriminate H].
      raised H. clear Hesc. from_outside.
  - raised H.
Qed.

Lemma node_find_mentor_Raise state w e w' :
  node_find_mentor env state w = (Raise e, w') -> raise_outcome env state w e w'.
Proof.
  intros H. no_employee H.
  - rewrite (node_find_mentor_eq _ _ _ _ He) in H. cbv zeta in H.
    destruct (select_mentor env (w_trace w) (emp_location emp) (w_employees w));
      [discriminate H |].
    raised H.
  - raised H.
Qed.

Lemma node_schedule_intro_call_Raise state w e w' :
  node_schedule_intro_call env state w = (Raise e, w') ->
  raise_outcome env state w e w'.
Proof.
  intros H. no_employee H.
  - destruct (mentor (deref w state)) as [m |] eqn:Hm.
    + rewrite (node_schedule_intro_call_eq _ _ _ _ _ He Hm) in H. cbv zeta in H.
      destruct (valid_date (today_in env w + 7)).
      * destruct (env_calendar_service env (w_trace w)) as [[] | e'] eqn:Hr.
        -- destruct (escapes is_HttpError _) eqn:Hesc; [| discriminate H].
           raised H. from_outside.
        -- raised H. from_outside.
      * raised H.
    + rewrite (node_schedule_intro_call_no_mentor _ _ _ He Hm) in H.
      raised H.
  - raised H.
Qed.

End NodeOutcomes.

(** ** The compiled graph *)

(** The graph built by [build_employee_graph] runs the five nodes in the
    order of its edges. *)
Lemma invoke_build_employee_graph env state w :
  invoke (build_employee_graph env) state w
  = run_steps (pipeline_steps env) state w.
Proof. reflexivity. Qed.

Lemma run_steps_app steps1 steps2 state w :
  run_steps (steps1 ++ steps2) state w
  = (state' <- run_steps steps1 state ;; run_steps steps2 state') w.
Proof.
  revert state w. induction steps1 as [| f steps1 IH]; intros state w; simpl.
  - reflexivity.
  - rewrite bind_assoc. unfold bind at 1 2.
    destruct (f state w) as [[s | e] w1]; [apply IH | reflexivity].
Qed.

Lemma node_generate_email_frame env : respects_frame env (node_generate_email env).
Proof.
  intros state w. destruct (node_generate_email env state w) as [[r | e] w'] eqn:H.
  - apply node_generate_email_Ok in H as (emp & body & _ & _ & -> & R).
    split; [reflexivity |]. eapply step_result_frame; [exact R | reflexivity | lia].
  - apply node_generate_email_Raise. exact H.
Qed.

Lemma node_send_email_frame env : respects_frame env (node_send_email env).
Proof.
  intros state w. destruct (node_send_email env state w) as [[r | e] w'] eqn:H.
  - apply node_send_email_Ok in H as (emp & body & res & _ & _ & _ & _ & _ & _ & -> & R).
    split; [reflexivity |]. eapply step_result_frame; [exact R | reflexivity | lia].
  - apply node_send_email_Raise. exact H.
Qed.

Lemma node_asana_task_frame env : respects_frame env (node_asana_task env).
Proof.
  intros state w. destruct (node_asana_task env state w) as [[r | e] w'] eqn:H.
  - apply node_asana_task_Ok in H as (emp & task & _ & _ & -> & R).
    split; [reflexivity |]. eapply step_result_frame; [exact R | reflexivity | lia].
  - apply node_asana_task_Raise. exact H.
Qed.

Lemma node_find_mentor_frame env : respects_frame env (node_find_mentor env).
Proof.
  intros state w. destruct (node_find_mentor env state w) as [[r | e] w'] eqn:H.
  - apply node_find_mentor_Ok in H as (emp & m & _ & _ & -> & R).
    split; [reflexivity |]. eapply step_result_frame; [exact R | reflexivity | lia].
  - apply node_find_mentor_Raise. exact H.
Qed.

Lemma node_schedule_intro_call_frame env :
  respects_frame env (node_schedule_intro_call env).
Proof.
  intros state w.
  destruct (node_schedule_intro_call env state w) as [[r | e] w'] eqn:H.
  - apply node_schedule_intro_call_Ok in H
      as (emp & m & ev & _ & _ & _ & _ & -> & _ & R).
    split; [reflexivity |]. eapply step_result_frame; [exact R | reflexivity | lia].
  - apply node_schedule_intro_call_Raise. exact H.
Qed.

Lemma pipeline_steps_frame env : Forall (respects_frame env) (pipeline_steps env).
Proof.
  unfold pipeline_steps.
  apply List.Forall_cons; [apply node_generate_email_frame |].
  apply List.Forall_cons; [apply node_send_email_frame |].
  apply List.Forall_cons; [apply node_asana_task_frame |].
  apply List.Forall_cons; [apply node_find_mentor_frame |].
  apply List.Forall_cons; [apply node_schedule_intro_call_frame |].
  apply List.Forall_nil.
Qed.

(** A run of nodes that respect their frame respects it as well; when it
    raises, the heap holds what the nodes before the failing one stored. *)
Lemma run_steps_frame env steps :
  Forall (respects_frame env) steps ->
  forall state w,
    match run_steps steps state w with
    | (Ok r, w') => r = state /\ node_frame state w w'
    | (Raise e, w') =>
        node_frame state w w'
        /\ (well_behaved env -> is_Exception (exc_class e) = true)
    end.
Proof.
  induction 1 as [| f steps Hf _ IH]; intros state w; simpl.
  - split; [reflexivity | apply node_frame_refl].
  - unfold bind. specialize (Hf state w).
    destruct (f state w) as [[r | e] w1].
    + destruct Hf as [-> F1]. specialize (IH state w1).
      destruct (run_steps steps state w1) as [[r2 | e2] w2].
      * destruct IH as [-> F2]. split; [reflexivity |].
        eapply node_frame_trans; eauto.
      * destruct IH as [F2 Hex]. split; [| exact Hex].
        eapply node_frame_trans; eauto.
    + destruct Hf as (_ & F & Hex). auto.
Qed.

Lemma EmpState_ext (s s' : EmpState) :
  employee s = employee s' ->
  email_body s = email_body s' ->
  email_result s = email_result s' ->
  asana_task s = asana_task s' ->
  mentor s = mentor s' ->
  calendar_event s = calendar_event s' ->
  logs s = logs s' ->
  s = s'.
Proof. destruct s, s'. simpl. intros. congruence. Qed.

(** A run of the five nodes that returns: what it stored, logged and called. *)
Lemma pipeline_Ok env state w r w' :
  run_steps (pipeline_steps env) state w = (Ok r, w') ->
  exists emp body res task m event,
    employee (deref w state) = Some emp
    /\ r = state
    /\ select_mentor env (w_trace w ++ calls_before_mentor env emp body)
                     (emp_location emp) (w_employees w) = Some m
    /\ valid_date (date_at env (4 + w_ticks w) + 7) = true
    /\ step_result state w w'
         (mkEmpState (Some emp) (Some body) (Some res) (Some task) (Some m)
                     (Some event)
                     (Some (logs_of (deref w state)
                            ++ pipeline_log env (w_ticks w) emp m)))
         (pipeline_calls env (w_ticks w) (w_employees w) emp m body)
         (6 + w_ticks w).
Proof.
  unfold pipeline_steps, run_steps. intros H.
  apply bind_Ok_inv in H as (s1 & w1 & H1 & H).
  apply bind_Ok_inv in H as (s2 & w2 & H2 & H).
  apply bind_Ok_inv in H as (s3 & w3 & H3 & H).
  apply bind_Ok_inv in H as (s4 & w4 & H4 & H).
  apply bind_Ok_inv in H as (s5 & w5 & H5 & H).
  injection H as <- <-.
  apply node_generate_email_Ok in H1 as (emp & body & He & Hllm & -> & R1).
  pose proof (step_result_deref _ _ _ _ _ _ R1) as D1.
  apply node_send_email_Ok in H2
    as (emp2 & body2 & res & He2 & Hb2 & _ & _ & _ & _ & -> & R2).
  rewrite D1 in He2, Hb2, R2. simpl in He2, Hb2.
  assert (emp2 = emp) as -> by congruence. injection Hb2 as <-.
  pose proof (step_result_deref _ _ _ _ _ _ R2) as D2.
  apply node_asana_task_Ok in H3 as (emp3 & task & He3 & _ & -> & R3).
  rewrite D2 in He3, R3. simpl in He3.
  assert (emp3 = emp) as -> by congruence.
  pose proof (step_result_deref _ _ _ _ _ _ R3) as D3.
  apply node_find_mentor_Ok in H4 as (emp4 & m & He4 & Hsel & -> & R4).
  rewrite D3 in He4, R4. simpl in He4.
  assert (emp4 = emp) as -> by congruence.
  pose proof (step_result_deref _ _ _ _ _ _ R4) as D4.
  apply node_schedule_intro_call_Ok in H5
    as (emp5 & m5 & event & He5 & Hm5 & Hvalid & _ & -> & _ & R5).
  rewrite D4 in He5, Hm5, R5. simpl in He5, Hm5.
  assert (emp5 = emp) as -> by congruence. injection Hm5 as <-.
  pose proof (step_result_trans _ _ _ _ _ _ _ _ _ _ R1 R2) as R12.
  pose proof (step_result_trans _ _ _ _ _ _ _ _ _ _ R12 R3) as R13.
  pose proof (step_result_trans _ _ _ _ _ _ _ _ _ _ R13 R4) as R14.
  pose proof (step_result_trans _ _ _ _ _ _ _ _ _ _ R14 R5) as R15.
  destruct R1 as (_ & E1 & _ & T1 & K1).
  destruct R2 as (_ & E2 & _ & T2 & K2).
  destruct R3 as (_ & E3 & _ & T3 & K3).
  destruct R4 as (_ & E4 & _ & _ & K4).
  rewrite K1 in K2. rewrite K2 in K3. rewrite K3 in K4.
  rewrite E1 in E2. rewrite E2 in E3.
  rewrite T1 in T2. rewrite T2 in T3.
  rewrite <- !app_assoc in T3. cbn [app] in T3.
  unfold today_in in *. rewrite K4 in *. rewrite K3, K2, K1, E3 in *.
  rewrite T3 in Hsel.
  exists emp, (strip body), res, task, m, event.
  repeat split; auto.
  all: destruct R15 as (V & E & Hh & T & K); auto.
  rewrite Hh. f_equal. apply EmpState_ext; unfold stored, logs_of; simpl.
  all: try reflexivity.
  - exact He.
  - rewrite <- !app_assoc. reflexivity.
Qed.

(** ** The two queries *)

Section TwoQueries.

Variable env : Env.
Variable h : list Event.

Lemma senior_at_Some preferred_location table m :
  senior_at env h preferred_location table = Some m ->
  earliest_joined (List.filter (where_senior_at preferred_location) table) m.
Proof. apply order_by_date_joined_head. Qed.

Lemma senior_at_None preferred_location table :
  senior_at env h preferred_location table = None ->
  List.filter (where_senior_at preferred_location) table = [].
Proof. apply order_by_date_joined_head_None. Qed.

Lemma senior_any_Some table m :
  senior_any env h table = Some m ->
  earliest_joined (List.filter where_senior table) m.
Proof. apply order_by_date_joined_head. Qed.

Lemma senior_any_None table :
  senior_any env h table = None -> List.filter where_senior table = [].
Proof. apply order_by_date_joined_head_None. Qed.

End TwoQueries.

Lemma where_senior_at_senior preferred_location e :
  where_senior_at preferred_location e = true -> where_senior e = true.
Proof.
  unfold where_senior_at, where_senior. intros H.
  apply andb_true_iff in H as [H _]. exact H.
Qed.

Lemma where_senior_level e : where_senior e = true -> emp_level e = "senior".
Proof.
  unfold where_senior, is_senior. intros H.
  apply andb_true_iff in H as [_ H]. apply String.eqb_eq in H. exact H.
Qed.

Lemma where_senior_true e :
  where_senior e = true <->
  emp_role e = "Data Engineer" /\ emp_level e = "senior".
Proof.
  unfold where_senior, is_data_engineer, is_senior.
  rewrite andb_true_iff, !String.eqb_eq. tauto.
Qed.

Lemma where_senior_at_true preferred_location e :
  where_senior_at preferred_location e = true <->
  emp_role e = "Data Engineer" /\ emp_level e = "senior"
  /\ emp_location e = preferred_location.
Proof.
  unfold where_senior_at, is_data_engineer, is_senior.
  rewrite !andb_true_iff, !String.eqb_eq. tauto.
Qed.

(** Whoever [select_mentor] returns is a senior Data Engineer of the table. *)
Lemma select_mentor_senior env h preferred_location table m :
  select_mentor env h preferred_location table = Some m ->
  In m table /\ where_senior m = true.
Proof.
  unfold select_mentor. intros H.
  destruct (senior_at env h preferred_location table) as [row |] eqn:Hat.
  - injection H as ->. apply senior_at_Some in Hat as [Hin _].
    apply filter_In in Hin as [Hin Hw]. split; [exact Hin |].
    eapply where_senior_at_senior. exact Hw.
  - apply senior_any_Some in H as [Hin _].
    apply filter_In in Hin as [Hin Hw]. auto.
Qed.

(** The selector finds nobody exactly when the table has no senior Data
    Engineer. *)
Lemma select_mentor_None env h preferred_location table :
  select_mentor env h preferred_location table = None <->
  List.filter where_senior table = [].
Proof.
  unfold select_mentor. split.
  - destruct (senior_at env h preferred_location table); [discriminate |].
    apply senior_any_None.
  - intros Hnone.
    destruct (senior_at env h preferred_location table) as [m |] eqn:Hat.
    + apply senior_at_Some in Hat as [Hin _].
      apply filter_In in Hin as [Hin Hw]. apply where_senior_at_senior in Hw.
      assert (Hm : In m (List.filter where_senior table))
        by (apply filter_In; auto).
      rewrite Hnone in Hm. destruct Hm.
    + unfold senior_any. rewrite Hnone. reflexivity.
Qed.

Lemma find_new_joiners_data_engineers_eq env joined_since_days w :
  find_new_joiners_data_engineers env joined_since_days w
  = let cutoff := today_in env w - joined_since_days in
    let w1 := add_ticks 1 w in
    if Z.abs (- joined_since_days) <=? 999999999 then
      if valid_date cutoff then
        (Ok (List.filter (where_new_joiner cutoff) (w_employees w)),
         add_events [EvSql (SelectNewJoiners cutoff)] w1)
      else (Raise (mkExc OverflowError "date value out of range"), w1)
    else
      (Raise (mkExc OverflowError
                ("days=" +:+ str_int (- joined_since_days)
                 +:+ "; must have magnitude <= 999999999")), w1).
Proof.
  unfold find_new_joiners_data_engineers.
  unfold bind at 1, date_today at 1, bind at 1, clock_us at 1, ret at 1.
  change (dt_date (datetime_of_us (env_clock env (w_ticks w))))
    with (today_in env w).
  unfold bind at 1, date_add_days. rewrite Z.add_opp_r. cbv zeta.
  destruct (Z.abs (- joined_since_days) <=? 999999999); [| reflexivity].
  destruct (valid_date (today_in env w - joined_since_days)); reflexivity.
Qed.

Lemma find_new_joiners_data_engineers_Ok env joined_since_days w rows w' :
  find_new_joiners_data_engineers env joined_since_days w = (Ok rows, w') ->
  let cutoff := today_in env w - joined_since_days in
  Z.abs joined_since_days <= 999999999
  /\ valid_date cutoff = true
  /\ rows = List.filter (where_new_joiner cutoff) (w_employees w)
  /\ w' = add_events [EvSql (SelectNewJoiners cutoff)] (add_ticks 1 w).
Proof.
  rewrite find_new_joiners_data_engineers_eq. cbv zeta. rewrite Z.abs_opp.
  destruct (Z.abs joined_since_days <=? 999999999) eqn:Habs; [| discriminate].
  destruct (valid_date (today_in env w - joined_since_days)); [| discriminate].
  intros [= <- <-]. apply Z.leb_le in Habs. auto.
Qed.

Lemma find_new_joiners_data_engineers_Raise env joined_since_days w e w' :
  find_new_joiners_data_engineers env joined_since_days w = (Raise e, w') ->
  (999999999 < Z.abs joined_since_days
   \/ valid_date (today_in env w - joined_since_days) = false)
  /\ exc_class e = OverflowError
  /\ w' = add_ticks 1 w.
Proof.
  rewrite find_new_joiners_data_engineers_eq. cbv zeta. rewrite Z.abs_opp.
  destruct (Z.abs joined_since_days <=? 999999999) eqn:Habs.
  - destruct (valid_date (today_in env w - joined_since_days)); [discriminate |].
    intros [= <- <-]. auto.
  - intros [= <- <-]. apply Z.leb_gt in Habs. auto.
Qed.

Lemma where_new_joiner_true cutoff e :
  where_new_joiner cutoff e = true <->
  emp_role e = "Data Engineer" /\ emp_level e = "junior"
  /\ cutoff <= emp_date_joined e.
Proof.
  unfold where_new_joiner, is_data_engineer, is_junior.
  rewrite !andb_true_iff, !String.eqb_eq, Z.leb_le. tauto.
Qed.

(** ** The loop of the orchestrator, one employee at a time *)

Lemma new_dict_eq s w : new_dict s w = (Ok (length (w_heap w)), with_state s w).
Proof. reflexivity. Qed.

Lemma for_each_joiner_Ok compiled emp rest successes failures w r w1 :
  invoke compiled (length (w_heap w)) (with_state (fresh_state emp) w) = (Ok r, w1) ->
  for_each_joiner compiled (emp :: rest) successes failures w
  = for_each_joiner compiled rest (successes + 1) failures w1.
Proof.
  intros H. simpl. unfold bind at 1. rewrite new_dict_eq.
  unfold bind at 1, try_except, bind at 1. fold (fresh_state emp). rewrite H.
  reflexivity.
Qed.

Lemma for_each_joiner_Raise compiled emp rest successes failures w e w1 :
  invoke compiled (length (w_heap w)) (with_state (fresh_state emp) w)
  = (Raise e, w1) ->
  for_each_joiner compiled (emp :: rest) successes failures w
  = if is_Exception (exc_class e)
    then for_each_joiner compiled rest successes
           (failures ++ [failure_descriptor emp e]) w1
    else (Raise e, w1).
Proof.
  intros H. simpl. unfold bind at 1. rewrite new_dict_eq.
  unfold bind at 1, try_except, bind at 1. fold (fresh_state emp). rewrite H.
  destruct (is_Exception (exc_class e)); reflexivity.
Qed.

(** ** Lemmas for the rest of the program *)

Lemma date_today_eq env w :
  date_today env w = (Ok (today_in env w), add_ticks 1 w).
Proof. reflexivity. Qed.

Lemma date_add_days_Ok d n w :
  Z.abs n <= 999999999 -> valid_date (d + n) = true ->
  date_add_days d n w = (Ok (d + n), w).
Proof.
  intros Hn Hv. unfold date_add_days. apply Z.leb_le in Hn.
  rewrite Hn, Hv. reflexivity.
Qed.

(** The rows of the seeded table, written out. *)
Lemma seeded_table_rows today :
  seeded_table today
  = [ mkEmployee 1 "Kaushal Vachhani" "kaushal.vachhani@example.com"
        "Data Engineer" "Data Platform" today "Bengaluru" "junior"
        (Some "lead.de@example.com");
      mkEmployee 2 "Asha Patel" "asha.patel@example.com"
        "Data Engineer" "Data Platform" (today - 100) "Bengaluru" "junior"
        (Some "lead.de@example.com");
      mkEmployee 3 "Neeraj Singh" "neeraj.singh@example.com"
        "Data Engineer" "Data Platform" (today - 400) "Bengaluru" "senior"
        (Some "director.de@example.com");
      mkEmployee 4 "Sneha Rao" "sneha.rao@example.com"
        "Data Engineer" "Data Platform" (today - 900) "Pune" "senior"
        (Some "director.de@example.com");
      mkEmployee 5 "Karan Shah" "karan.shah@example.com"
        "Backend Engineer" "App Eng" (today - 7) "Bengaluru" "junior"
        (Some "lead.be@example.com") ].
Proof. reflexivity. Qed.

(** *** The seeded store *)

Lemma bootstrap_dummy_db_eq env w :
  let today := today_in env w in
  valid_date today = true ->
  valid_date (today - 900) = true ->
  bootstrap_dummy_db env w
  = (Ok tt,
     mkWorld (seeded_table today) (w_heap w)
             (w_trace w ++ bootstrap_statements today) (S (w_ticks w))).
Proof.
  intros today Ht H900.
  assert (Hv : forall n, 0 <= n <= 900 -> valid_date (today + - n) = true).
  { intros n Hn. unfold valid_date, MINORDINAL, MAXORDINAL in *.
    apply andb_true_iff in Ht as [Ht1 Ht2].
    apply andb_true_iff in H900 as [H1 H2].
    apply andb_true_iff. split; apply Z.leb_le;
      apply Z.leb_le in Ht1, Ht2, H1, H2; lia. }
  unfold bootstrap_dummy_db.
  unfold bind at 1, execute at 1. unfold bind at 1, execute at 1.
  unfold bind at 1, execute_count at 1.
  cbn [w_employees w_heap w_trace w_ticks table_after length].
  change (Z.of_nat 0 =? 0) with true. cbv iota.
  unfold bind at 1. rewrite date_today_eq.
  unfold today_in, add_ticks. cbn [w_employees w_heap w_trace w_ticks].
  fold (today_in env w). fold today.
  unfold bind at 1. rewrite (date_add_days_Ok today (- 7) _ ltac:(lia) (Hv 7 ltac:(lia))).
  unfold bind at 1. rewrite (date_add_days_Ok today (- 100) _ ltac:(lia) (Hv 100 ltac:(lia))).
  unfold bind at 1. rewrite (date_add_days_Ok today (- 400) _ ltac:(lia) (Hv 400 ltac:(lia))).
  unfold bind at 1. rewrite (date_add_days_Ok today (- 900) _ ltac:(lia) (Hv 900 ltac:(lia))).
  unfold bind, execute, ret.
  cbn [w_employees w_heap w_trace w_ticks table_after app max_id fold_right].
  unfold seeded_table, bootstrap_statements.
  rewrite <- !app_assoc. reflexivity.
Qed.

Lemma seeded_new_joiners today cutoff :
  today - 100 < cutoff -> cutoff <= today ->
  List.filter (where_new_joiner cutoff) (seeded_table today)
  = [mkEmployee 1 "Kaushal Vachhani" "kaushal.vachhani@example.com"
       "Data Engineer" "Data Platform" today "Bengaluru" "junior"
       (Some "lead.de@example.com")].
Proof.
  intros Hlow Hhigh. rewrite seeded_table_rows.
  unfold where_new_joiner, is_data_engineer, is_junior. simpl.
  rewrite ?andb_true_r, ?andb_false_r.
  destruct (Z.leb_spec cutoff today); [| lia].
  destruct (Z.leb_spec cutoff (today - 100)); [lia |]. reflexivity.
Qed.

Lemma seeded_select_mentor_bengaluru env h today :
  select_mentor env h "Bengaluru" (seeded_table today)
  = Some (mkEmployee 3 "Neeraj Singh" "neeraj.singh@example.com"
            "Data Engineer" "Data Platform" (today - 400) "Bengaluru" "senior"
            (Some "director.de@example.com")).
Proof. rewrite seeded_table_rows. reflexivity. Qed.

(** *** Confinement, by the structure of the program *)

Section Confinement.

Variable allowed : Event -> bool.

Lemma confined_silent {A} (m : M A) :
  (forall w, w_employees (snd (m w)) = w_employees w
             /\ w_trace (snd (m w)) = w_trace w) ->
  confined allowed m.
Proof.
  intros H w. destruct (H w) as [He Ht]. split; [exact He |].
  exists []. rewrite app_nil_r. split; [exact Ht | reflexivity].
Qed.

Lemma confined_ret {A} (a : A) : confined allowed (ret a).
Proof. apply confined_silent. intros w. split; reflexivity. Qed.

Lemma confined_raise {A} c msg : confined allowed (@raise A c msg).
Proof. apply confined_silent. intros w. split; reflexivity. Qed.

Lemma confined_bind {A B} (m : M A) (k : A -> M B) :
  confined allowed m -> (forall a, confined allowed (k a)) ->
  confined allowed (bind m k).
Proof.
  intros Hm Hk w. unfold bind. specialize (Hm w).
  destruct (m w) as [[a | e] w1]; cbn [snd] in Hm; [| exact Hm].
  destruct Hm as (He & evs & Ht & Ha).
  destruct (Hk a w1) as (He' & evs' & Ht' & Ha').
  split; [congruence |]. exists (evs ++ evs').
  rewrite Ht', Ht, <- app_assoc. split; [reflexivity |].
  rewrite forallb_app, Ha, Ha'. reflexivity.
Qed.

Lemma confined_try_except {A} (body : M A) cls (handler : PyExc -> M A) :
  confined allowed body -> (forall e, confined allowed (handler e)) ->
  confined allowed (try_except body cls handler).
Proof.
  intros Hm Hk w. unfold try_except. specialize (Hm w).
  destruct (body w) as [[a | e] w1]; cbn [snd] in Hm; [exact Hm |].
  destruct (cls (exc_class e)); [| exact Hm].
  destruct Hm as (He & evs & Ht & Ha).
  destruct (Hk e w1) as (He' & evs' & Ht' & Ha').
  split; [congruence |]. exists (evs ++ evs').
  rewrite Ht', Ht, <- app_assoc. split; [reflexivity |].
  rewrite forallb_app, Ha, Ha'. reflexivity.
Qed.

Lemma confined_event {A} (m : M A) ev :
  allowed ev = true ->
  (forall w, w_employees (snd (m w)) = w_employees w
             /\ w_trace (snd (m w)) = w_trace w ++ [ev]) ->
  confined allowed m.
Proof.
  intros Hev H w. destruct (H w) as [He Ht]. split; [exact He |].
  exists [ev]. split; [exact Ht |]. cbn. rewrite Hev. reflexivity.
Qed.

Lemma confined_call {A} ev (answer : list Event -> Res A) :
  allowed ev = true -> confined allowed (call ev answer).
Proof.
  intros Hev. apply (confined_event _ ev Hev). intros w. split; reflexivity.
Qed.

Lemma confined_execute env stmt :
  allowed (EvSql stmt) = true -> is_pipeline_query stmt = true ->
  confined allowed (execute env stmt).
Proof.
  intros Hev Hq. apply (confined_event _ (EvSql stmt) Hev). intros w.
  split; [| reflexivity]. destruct stmt; try discriminate Hq; reflexivity.
Qed.

Lemma confined_st_write text :
  allowed (EvStWrite text) = true -> confined allowed (st_write text).
Proof.
  intros Hev. apply (confined_event _ _ Hev). intros w. split; reflexivity.
Qed.

Lemma confined_st_markdown text :
  allowed (EvStMarkdown text) = true -> confined allowed (st_markdown text).
Proof.
  intros Hev. apply (confined_event _ _ Hev). intros w. split; reflexivity.
Qed.

Lemma confined_date_today env : confined allowed (date_today env).
Proof. apply confined_silent. intros w. split; reflexivity. Qed.

Lemma confined_datetime_now env : confined allowed (datetime_now env).
Proof. apply confined_silent. intros w. split; reflexivity. Qed.

Lemma confined_date_add_days d n : confined allowed (date_add_days d n).
Proof.
  unfold date_add_days.
  destruct (Z.abs n <=? 999999999); [destruct (valid_date (d + n)) |];
    auto using @confined_ret, @confined_raise.
Qed.

Lemma confined_getitem {A} state key (field : EmpState -> option A) :
  confined allowed (getitem state key field).
Proof.
  apply confined_silent. intros w. unfold getitem.
  destruct (field (deref w state)); split; reflexivity.
Qed.

Lemma confined_get_logs state : confined allowed (get_logs state).
Proof. apply confined_silent. intros w. split; reflexivity. Qed.

Lemma confined_setitem state update : confined allowed (setitem state update).
Proof. apply confined_silent. intros w. split; reflexivity. Qed.

Lemma confined_new_dict s : confined allowed (new_dict s).
Proof. apply confined_silent. intros w. split; reflexivity. Qed.

End Confinement.

Lemma confined_weaken (allowed allowed' : Event -> bool) {A} (m : M A) :
  (forall ev, allowed ev = true -> allowed' ev = true) ->
  confined allowed m -> confined allowed' m.
Proof.
  intros Himp H w. destruct (H w) as (He & evs & Ht & Ha).
  split; [exact He |]. exists evs. split; [exact Ht |].
  rewrite forallb_forall in *. auto.
Qed.

Lemma confined_create_message allowed env sender to subject message_text :
  confined allowed (create_message env sender to subject message_text).
Proof.
  unfold create_message, as_bytes. cbv zeta.
  destruct (plain_headers _); [apply confined_ret |].
  destruct (env_email_error env _) as [[cls text] |];
    [apply confined_raise | apply confined_ret].
Qed.

(** One step of the structural argument. *)
Ltac confine_step :=
  first
    [ apply confined_ret
    | apply confined_create_message
    | apply confined_raise
    | apply confined_getitem
    | apply confined_get_logs
    | apply confined_setitem
    | apply confined_new_dict
    | apply confined_date_today
    | apply confined_datetime_now
    | apply confined_date_add_days
    | apply confined_call; reflexivity
    | apply confined_execute; reflexivity
    | apply confined_st_write; reflexivity
    | apply confined_st_markdown; reflexivity
    | apply confined_bind; [| intros ?]
    | apply confined_try_except; [| intros ?]
    | match goal with
      | |- confined _ (match ?x with _ => _ end) => destruct x
      end ].

Ltac confine := cbv zeta; repeat confine_step.

Lemma confined_append_log allowed env state msg :
  confined allowed (append_log env state msg).
Proof. unfold append_log. confine. Qed.

Lemma confined_send_gmail env sender recipient subject body :
  confined behind_the_scenes (send_gmail env sender recipient subject body).
Proof.
  unfold send_gmail, get_gmail_service, send_message. confine.
Qed.

Lemma confined_schedule_calendar_event env summary location description
    start_time_str end_time_str attendees_emails timezone reminders
    conference_request_id :
  confined behind_the_scenes
    (schedule_calendar_event env summary location description start_time_str
       end_time_str attendees_emails timezone reminders conference_request_id).
Proof.
  unfold schedule_calendar_event, get_calendar_service. confine.
Qed.

Lemma confined_create_onboarding_tasks env workspace_gid project_gid
    new_member_email task_name :
  confined behind_the_scenes
    (create_onboarding_tasks env workspace_gid project_gid new_member_email
                             task_name).
Proof.
  unfold create_onboarding_tasks, invite_user_to_workspace, create_task.
  confine.
Qed.

Lemma confined_find_senior_mentor env preferred_location :
  confined behind_the_scenes (find_senior_mentor env preferred_location).
Proof. unfold find_senior_mentor. confine. Qed.

Lemma confined_pipeline_steps env step :
  In step (pipeline_steps env) ->
  forall state, confined behind_the_scenes (step state).
Proof.
  intros Hin state. simpl in Hin.
  destruct Hin as [<- | [<- | [<- | [<- | [<- | []]]]]].
  - unfold node_generate_email, generate_welcome_email_content.
    confine; apply confined_append_log.
  - unfold node_send_email. confine;
      first [apply confined_send_gmail | apply confined_append_log].
  - unfold node_asana_task. confine;
      first [apply confined_create_onboarding_tasks | apply confined_append_log].
  - unfold node_find_mentor. confine;
      first [apply confined_find_senior_mentor | apply confined_append_log].
  - unfold node_schedule_intro_call. confine;
      first [apply confined_schedule_calendar_event | apply confined_append_log].
Qed.

Lemma confined_run_steps allowed steps :
  (forall step, In step steps -> forall state, confined allowed (step state)) ->
  forall state, confined allowed (run_steps steps state).
Proof.
  induction steps as [| f rest IH]; intros H state; cbn [run_steps].
  - apply confined_ret.
  - apply confined_bind; [apply H; left; reflexivity |].
    intros state'. apply IH. intros step Hin. apply H. right. exact Hin.
Qed.

Lemma confined_invoke env state :
  confined behind_the_scenes (invoke (build_employee_graph env) state).
Proof.
  intros w. rewrite invoke_build_employee_graph.
  apply (confined_run_steps _ _ (confined_pipeline_steps env)).
Qed.

Lemma confined_for_each_joiner env new_joiners :
  forall successes failures,
    confined behind_the_scenes
      (for_each_joiner (build_employee_graph env) new_joiners successes
                       failures).
Proof.
  induction new_joiners as [| emp rest IH]; intros successes failures;
    cbn [for_each_joiner].
  - apply confined_ret.
  - confine; first [apply confined_invoke | apply IH].
Qed.

Lemma confined_find_new_joiners_data_engineers env joined_since_days :
  confined behind_the_scenes
    (find_new_joiners_data_engineers env joined_since_days).
Proof. unfold find_new_joiners_data_engineers. confine. Qed.

Lemma confined_write_details new_joiners :
  confined reads_the_store_only (write_details new_joiners).
Proof.
  induction new_joiners as [| emp rest IH]; cbn [write_details].
  - apply confined_ret.
  - confine. exact IH.
Qed.

Lemma behind_the_scenes_reads_the_store_only ev :
  behind_the_scenes ev = true -> reads_the_store_only ev = true.
Proof. destruct ev; cbn; auto. Qed.

Lemma confined_run_onboarding_for_new_joiners env joined_since_days :
  confined reads_the_store_only
    (run_onboarding_for_new_joiners env joined_since_days).
Proof.
  unfold run_onboarding_for_new_joiners.
  apply confined_bind.
  - apply (confined_weaken _ _ _ behind_the_scenes_reads_the_store_only).
    apply confined_find_new_joiners_data_engineers.
  - intros [| emp rest]; confine;
      first [ apply confined_write_details
            | apply (confined_weaken _ _ _ behind_the_scenes_reads_the_store_only);
              apply confined_for_each_joiner ].
Qed.

Lemma behind_the_scenes_front_end evs :
  forallb behind_the_scenes evs = true -> front_end evs = [].
Proof.
  induction evs as [| ev evs IH]; cbn; [reflexivity |].
  intros H. apply andb_true_iff in H as [Hev H].
  destruct ev; cbn in *; try discriminate Hev; auto.
Qed.

Lemma front_end_app evs1 evs2 :
  front_end (evs1 ++ evs2) = front_end evs1 ++ front_end evs2.
Proof. apply List.filter_app. Qed.

Lemma front_end_announcement new_joiners joined_since_days :
  front_end (announcement new_joiners joined_since_days)
  = announcement new_joiners joined_since_days.
Proof.
  unfold announcement. rewrite !front_end_app. f_equal. f_equal.
  induction new_joiners as [| emp rest IH]; cbn; [reflexivity |].
  f_equal. exact IH.
Qed.

Lemma filter_sublist {A} (p q : A -> bool) (l : list A) :
  (forall x, p x = true -> q x = true) ->
  sublist (List.filter p l) (List.filter q l).
Proof.
  intros Hpq. induction l as [| x l IH]; cbn; [constructor |].
  destruct (p x) eqn:Hp.
  - rewrite (Hpq x Hp). apply sublist_skip. exact IH.
  - destruct (q x); [apply sublist_cons |]; exact IH.
Qed.

(** *** Strings *)

Lemma append_nil_l s : "" +:+ s = s.
Proof. reflexivity. Qed.

Lemma append_cons c s1 s2 : String c s1 +:+ s2 = String c (s1 +:+ s2).
Proof. reflexivity. Qed.

Lemma append_nil_r s : s +:+ "" = s.
Proof.
  induction s as [| c s IH]; [reflexivity |].
  rewrite append_cons, IH. reflexivity.
Qed.

Lemma append_assoc s1 s2 s3 : (s1 +:+ s2) +:+ s3 = s1 +:+ s2 +:+ s3.
Proof.
  induction s1 as [| c s1 IH]; [reflexivity |].
  rewrite !append_cons, IH. reflexivity.
Qed.

Lemma length_append s1 s2 :
  String.length (s1 +:+ s2) = (String.length s1 + String.length s2)%nat.
Proof.
  induction s1 as [| c s1 IH]; [reflexivity |].
  rewrite append_cons. cbn [String.length]. rewrite IH. reflexivity.
Qed.

Lemma append_inv_tail s1 s2 s : s1 +:+ s = s2 +:+ s -> s1 = s2.
Proof.
  revert s2. induction s1 as [| c s1 IH]; intros [| d s2] H.
  - reflexivity.
  - apply (f_equal String.length) in H.
    rewrite append_nil_l, append_cons in H. cbn [String.length] in H.
    rewrite length_append in H. lia.
  - apply (f_equal String.length) in H.
    rewrite append_nil_l, append_cons in H. cbn [String.length] in H.
    rewrite length_append in H. lia.
  - rewrite !append_cons in H. injection H as -> H. f_equal. apply IH. exact H.
Qed.

(** A white-space character at the head of a text is a prefix of one, two
    or three bytes, and is one whatever follows it. *)
Lemma space_at_head_Some s rest :
  space_at_head s = Some rest ->
  exists u,
    s = u +:+ rest
    /\ (String.length rest < String.length s)%nat
    /\ forall x, space_at_head (u +:+ x) = Some x.
Proof.
  destruct s as [| c1 [| c2 [| c3 s3]]]; cbn [space_at_head].
  - discriminate.
  - destruct (is_space c1) eqn:H1; [| discriminate].
    intros [= <-]. exists (String c1 ""). split; [reflexivity |].
    split; [cbn [String.length]; lia |]. intros x. rewrite !append_cons, append_nil_l. cbn [space_at_head].
      rewrite ?H1, ?H2, ?H3. reflexivity.
  - destruct (is_space c1) eqn:H1.
    + intros [= <-]. exists (String c1 ""). split; [reflexivity |].
      split; [cbn [String.length]; lia |]. intros x. rewrite !append_cons, append_nil_l. cbn [space_at_head].
      rewrite ?H1, ?H2, ?H3. reflexivity.
    + destruct (is_space2 c1 c2) eqn:H2; [| discriminate].
      intros [= <-]. exists (String c1 (String c2 "")). split; [reflexivity |].
      split; [cbn [String.length]; lia |]. intros x. rewrite !append_cons, append_nil_l. cbn [space_at_head].
      rewrite ?H1, ?H2, ?H3. reflexivity.
  - destruct (is_space c1) eqn:H1.
    + intros [= <-]. exists (String c1 ""). split; [reflexivity |].
      split; [cbn [String.length]; lia |]. intros x. rewrite !append_cons, append_nil_l. cbn [space_at_head].
      rewrite ?H1, ?H2, ?H3. reflexivity.
    + destruct (is_space2 c1 c2) eqn:H2.
      * intros [= <-]. exists (String c1 (String c2 "")). split; [reflexivity |].
        split; [cbn [String.length]; lia |]. intros x. rewrite !append_cons, append_nil_l. cbn [space_at_head].
      rewrite ?H1, ?H2, ?H3. reflexivity.
      * destruct (is_space3 c1 c2 c3) eqn:H3; [| discriminate].
        intros [= <-]. exists (String c1 (String c2 (String c3 ""))).
        split; [reflexivity |]. split; [cbn [String.length]; lia |].
        intros x. rewrite !append_cons, append_nil_l. cbn [space_at_head].
      rewrite ?H1, ?H2, ?H3. reflexivity.
Qed.

Lemma lstrip_eq s :
  lstrip s = match space_at_head s with
             | Some rest => lstrip rest
             | None => s
             end.
Proof.
  destruct s as [| c1 [| c2 [| c3 s3]]]; cbn [lstrip space_at_head];
    try reflexivity.
  - destruct (is_space c1); reflexivity.
  - destruct (is_space c1); [reflexivity |].
    destruct (is_space2 c1 c2); reflexivity.
  - destruct (is_space c1); [reflexivity |].
    destruct (is_space2 c1 c2); [reflexivity |].
    destruct (is_space3 c1 c2 c3); reflexivity.
Qed.

Lemma all_space_eq s :
  all_space s = match s with
                | EmptyString => true
                | _ => match space_at_head s with
                       | Some rest => all_space rest
                       | None => false
                       end
                end.
Proof.
  destruct s as [| c1 [| c2 [| c3 s3]]]; cbn [all_space space_at_head];
    try reflexivity.
  - destruct (is_space c1); reflexivity.
  - destruct (is_space c1); [reflexivity |].
    destruct (is_space2 c1 c2); reflexivity.
  - destruct (is_space c1); [reflexivity |].
    destruct (is_space2 c1 c2); [reflexivity |].
    destruct (is_space3 c1 c2 c3); reflexivity.
Qed.

(** Induction along the white space at the head of a text. *)
Lemma space_ind (P : string -> Prop) :
  (forall s, space_at_head s = None -> P s) ->
  (forall s rest, space_at_head s = Some rest -> P rest -> P s) ->
  forall s, P s.
Proof.
  intros Hnone Hsome s.
  remember (String.length s) as n eqn:Hn. revert s Hn.
  induction n as [n IH] using lt_wf_ind. intros s Hn.
  destruct (space_at_head s) as [rest |] eqn:Hs.
  - apply (Hsome s rest Hs).
    destruct (space_at_head_Some _ _ Hs) as (_ & _ & Hlt & _).
    apply (IH (String.length rest)); [lia | reflexivity].
  - apply Hnone. exact Hs.
Qed.

Lemma space_at_head_append u x rest :
  (forall y, space_at_head (u +:+ y) = Some y) ->
  space_at_head (u +:+ x) = Some rest -> rest = x.
Proof. intros Hu H. rewrite Hu in H. congruence. Qed.

Lemma all_space_token u x :
  (forall y, space_at_head (u +:+ y) = Some y) ->
  all_space (u +:+ x) = all_space x.
Proof.
  intros Hu. rewrite all_space_eq, Hu.
  destruct (u +:+ x) eqn:E; [| reflexivity].
  specialize (Hu x). rewrite E in Hu. discriminate Hu.
Qed.

Lemma lstrip_spec s :
  exists l,
    s = l +:+ lstrip s /\ all_space l = true
    /\ starts_with_space (lstrip s) = false.
Proof.
  induction s as [s Hs | s rest Hs (l & Hrest & Hl & Hstart)] using space_ind.
  - exists "". rewrite lstrip_eq, Hs. unfold starts_with_space. rewrite Hs.
    repeat split.
  - destruct (space_at_head_Some _ _ Hs) as (u & -> & _ & Hu).
    exists (u +:+ l). rewrite (lstrip_eq (u +:+ rest)), Hs.
    rewrite append_assoc, <- Hrest, (all_space_token _ _ Hu).
    repeat split; assumption.
Qed.

Lemma lstrip_all_space l s : all_space l = true -> lstrip (l +:+ s) = lstrip s.
Proof.
  induction l as [l Hl | l rest Hl IH] using space_ind; intros H.
  - rewrite all_space_eq, Hl in H. destruct l; [reflexivity | discriminate H].
  - destruct (space_at_head_Some _ _ Hl) as (u & -> & _ & Hu).
    rewrite (all_space_token _ _ Hu) in H.
    rewrite append_assoc, lstrip_eq, Hu. apply IH. exact H.
Qed.

Lemma lstrip_only_space r : all_space r = true -> lstrip r = "".
Proof.
  intros H. rewrite <- (append_nil_r r). rewrite (lstrip_all_space _ _ H).
  reflexivity.
Qed.

Lemma all_space_lstrip s : lstrip s = "" -> all_space s = true.
Proof.
  induction s as [s Hs | s rest Hs IH] using space_ind; intros H.
  - rewrite lstrip_eq, Hs in H. subst s. reflexivity.
  - rewrite lstrip_eq, Hs in H. rewrite all_space_eq, Hs.
    destruct s; [reflexivity | auto].
Qed.

Lemma rstrip_spec s :
  exists r,
    s = rstrip s +:+ r /\ all_space r = true
    /\ ends_with_space (rstrip s) = false.
Proof.
  induction s as [| c s (r & Hs & Hr & Hend)]; cbn [rstrip].
  - exists "". repeat split.
  - destruct (all_space (String c s)) eqn:Hall.
    + exists (String c s). repeat split. exact Hall.
    + exists r. rewrite append_cons, <- Hs. split; [reflexivity |].
      split; [exact Hr |]. cbn [ends_with_space]. rewrite Hend, orb_false_r.
      unfold is_one_space.
      destruct (space_at_head (String c (rstrip s))) as [[| d t] |] eqn:Hone;
        try reflexivity.
      destruct (space_at_head_Some _ _ Hone) as (u & Hu & _ & Htok).
      rewrite append_nil_r in Hu.
      assert (Hall' : all_space (String c s) = true).
      { rewrite Hs, <- append_cons, Hu, (all_space_token _ _ Htok). exact Hr. }
      rewrite Hall' in Hall. discriminate Hall.
Qed.

Lemma starts_with_space_append s r :
  starts_with_space s = true -> starts_with_space (s +:+ r) = true.
Proof.
  unfold starts_with_space.
  destruct (space_at_head s) as [rest |] eqn:Hs; [| discriminate].
  intros _. destruct (space_at_head_Some _ _ Hs) as (u & -> & _ & Hu).
  rewrite append_assoc, Hu. reflexivity.
Qed.

Lemma rstrip_starts s :
  starts_with_space s = false -> starts_with_space (rstrip s) = false.
Proof.
  intros H. destruct (rstrip_spec s) as (r & Hs & _ & _).
  destruct (starts_with_space (rstrip s)) eqn:E; [| reflexivity].
  apply (starts_with_space_append _ r) in E. rewrite <- Hs, H in E.
  discriminate E.
Qed.

Lemma strip_spec s :
  exists l r,
    s = l +:+ strip s +:+ r
    /\ all_space l = true /\ all_space r = true
    /\ starts_with_space (strip s) = false
    /\ ends_with_space (strip s) = false.
Proof.
  unfold strip.
  destruct (lstrip_spec s) as (l & Hs & Hl & Hstart).
  destruct (rstrip_spec (lstrip s)) as (r & Hs' & Hr & Hend).
  exists l, r. rewrite <- Hs'. repeat split; auto using rstrip_starts.
Qed.

Lemma is_graphic_not_space c x :
  is_graphic c = true -> space_at_head (String c x) = None.
Proof.
  intros H. unfold is_graphic in H. apply andb_true_iff in H as [H1 H2].
  apply Nat.leb_le in H1, H2.
  assert (Hs : is_space c = false).
  { unfold is_space. apply orb_false_iff. split; apply andb_false_iff.
    - right. apply Nat.leb_gt. lia.
    - right. apply Nat.leb_gt. lia. }
  assert (H194 : (nat_of_ascii c =? 194)%nat = false) by (apply Nat.eqb_neq; lia).
  assert (H225 : (nat_of_ascii c =? 225)%nat = false) by (apply Nat.eqb_neq; lia).
  assert (H226 : (nat_of_ascii c =? 226)%nat = false) by (apply Nat.eqb_neq; lia).
  assert (H227 : (nat_of_ascii c =? 227)%nat = false) by (apply Nat.eqb_neq; lia).
  cbn [space_at_head]. rewrite Hs.
  destruct x as [| c2 [| c3 s3]]; try reflexivity.
  - unfold is_space2. cbv zeta. rewrite H194. reflexivity.
  - unfold is_space2, is_space3. cbv zeta.
    rewrite H194, H225, H226, H227. reflexivity.
Qed.

Lemma rstrip_only_space r : all_space r = true -> rstrip r = "".
Proof. destruct r as [| c r]; cbn [rstrip]; [reflexivity | intros ->; reflexivity]. Qed.

Lemma rstrip_graphic word r :
  all_graphic word = true -> all_space r = true -> rstrip (word +:+ r) = word.
Proof.
  intros Hw Hr. induction word as [| c word IH].
  - rewrite append_nil_l. apply rstrip_only_space. exact Hr.
  - cbn [all_graphic] in Hw. apply andb_true_iff in Hw as [Hc Hw].
    rewrite append_cons. cbn [rstrip].
    rewrite all_space_eq, (is_graphic_not_space _ _ Hc), (IH Hw). reflexivity.
Qed.

(** A text of printable characters without a space, padded with white
    space, is what [strip] gives back. *)
Lemma strip_padded l word r :
  all_space l = true -> all_space r = true -> all_graphic word = true ->
  strip (l +:+ word +:+ r) = word.
Proof.
  intros Hl Hr Hw. unfold strip. rewrite (lstrip_all_space _ _ Hl).
  destruct word as [| c word].
  - rewrite append_nil_l, (lstrip_only_space _ Hr). reflexivity.
  - assert (Hc : is_graphic c = true).
    { cbn [all_graphic] in Hw. apply andb_true_iff in Hw as [Hc _]. exact Hc. }
    rewrite append_cons, lstrip_eq, (is_graphic_not_space _ _ Hc).
    rewrite <- append_cons. apply rstrip_graphic; assumption.
Qed.


(** *** The accumulators of the loop *)

Lemma for_each_joiner_counts compiled new_joiners :
  forall successes failures w successes' failures' w',
    for_each_joiner compiled new_joiners successes failures w
    = (Ok (successes', failures'), w') ->
    successes' + Z.of_nat (length failures')
    = successes + Z.of_nat (length failures) + Z.of_nat (length new_joiners)
    /\ successes <= successes'.
Proof.
  induction new_joiners as [| emp rest IH];
    intros successes failures w successes' failures' w' H.
  - injection H as <- <- _. cbn. lia.
  - destruct (invoke compiled (length (w_heap w)) (with_state (fresh_state emp) w))
      as [[r | e] w1] eqn:Hinv.
    + rewrite (for_each_joiner_Ok _ _ _ _ _ _ _ _ Hinv) in H.
      apply IH in H. cbn [length]. lia.
    + rewrite (for_each_joiner_Raise _ _ _ _ _ _ _ _ Hinv) in H.
      destruct (is_Exception (exc_class e)); [| discriminate H].
      apply IH in H. rewrite length_app in H. cbn [length] in *. lia.
Qed.

Lemma for_each_joiner_prefix env before w outcomes w1 :
  loop_run env before w outcomes w1 ->
  Forall caught outcomes ->
  forall rest successes failures,
    for_each_joiner (build_employee_graph env) (before ++ rest) successes
                    failures w
    = for_each_joiner (build_employee_graph env) rest
        (successes + count_completed outcomes)
        (failures ++ descriptors before outcomes) w1.
Proof.
  induction 1 as [w | emp before w r w1 outcomes w' Hinv Hrun IH
                    | emp before w e w1 outcomes w' Hinv Hrun IH];
    intros Hcaught rest successes failures.
  - cbn. rewrite Z.add_0_r, app_nil_r. reflexivity.
  - apply List.Forall_cons_iff in Hcaught as [_ Hcaught].
    rewrite <- app_comm_cons, (for_each_joiner_Ok _ _ _ _ _ _ _ _ Hinv).
    rewrite (IH Hcaught). cbn [count_completed descriptors].
    rewrite Z.add_assoc. reflexivity.
  - apply List.Forall_cons_iff in Hcaught as [He Hcaught]. cbn in He.
    rewrite <- app_comm_cons, (for_each_joiner_Raise _ _ _ _ _ _ _ _ Hinv), He.
    rewrite (IH Hcaught). cbn [count_completed descriptors].
    rewrite <- app_assoc. reflexivity.
Qed.

(** *** The workflow mode *)

Lemma onboarding_mode_eq env w :
  onboarding_mode env w
  = (summary <- run_onboarding_for_new_joiners env 14 ;;
     st_write "âœ… Workflow completed.")
      (add_events [EvStWrite "Starting onboarding workflow...";
                   EvStWrite "Fetching new joiners..."] w).
Proof.
  unfold onboarding_mode. unfold bind at 1, st_write at 1.
  unfold bind at 1, st_write at 1. unfold add_events.
  cbn [w_employees w_heap w_trace w_ticks]. rewrite <- app_assoc. reflexivity.
Qed.

Lemma run_onboarding_for_new_joiners_nil env joined_since_days w w0 :
  find_new_joiners_data_engineers env joined_since_days w = (Ok [], w0) ->
  run_onboarding_for_new_joiners env joined_since_days w
  = (Ok (mkRunResult 0 0 [] (Some "No new Data Engineers found")), w0).
Proof.
  intros H. unfold run_onboarding_for_new_joiners.
  rewrite (bind_Ok _ _ _ _ _ H). reflexivity.
Qed.

(** *** The settings *)

Lemma falsy_false x : config.falsy x = false -> exists v, x = Some v /\ v <> "".
Proof.
  destruct x as [v |]; cbn; [| discriminate].
  intros H. exists v. split; [reflexivity |].
  intros ->. discriminate H.
Qed.

Lemma config_import_Ok environ m :
  config.import environ = Ok m ->
  config.falsy (environ "GOOGLE_API_KEY") = false
  /\ config.falsy (environ "ASANA_WORKSPACE_GID") = false
  /\ config.falsy (environ "ASANA_PROJECT_GID") = false
  /\ config.falsy (environ "ASANA_PAT") = false
  /\ m = config.mkExports
           (config.mkSettings (environ "GOOGLE_API_KEY")
              (environ "ASANA_WORKSPACE_GID") (environ "ASANA_PROJECT_GID")
              (environ "ASANA_PAT"))
           (environ "ASANA_PAT").
Proof.
  unfold config.import.
  destruct (config.falsy (environ "GOOGLE_API_KEY"));
    destruct (config.falsy (environ "ASANA_WORKSPACE_GID"));
    destruct (config.falsy (environ "ASANA_PROJECT_GID"));
    destruct (config.falsy (environ "ASANA_PAT"));
    cbn; intros H; try discriminate H.
  injection H as <-. auto.
Qed.

(** *** The stop commands *)

Lemma is_graphic_lower_char c : is_graphic (lower_char c) = is_graphic c.
Proof. destruct c as [[] [] [] [] [] [] [] []]; reflexivity. Qed.

Lemma all_graphic_lower s : all_graphic (lower s) = all_graphic s.
Proof.
  induction s as [| c s IH]; [reflexivity |].
  cbn [lower all_graphic]. rewrite is_graphic_lower_char, IH. reflexivity.
Qed.

Lemma in_STOP_COMMANDS_In x : in_STOP_COMMANDS x = true <-> In x STOP_COMMANDS.
Proof.
  unfold in_STOP_COMMANDS. rewrite existsb_exists. split.
  - intros (y & Hin & Heq). apply String.eqb_eq in Heq. subst y. exact Hin.
  - intros Hin. exists x. split; [exact Hin | apply String.eqb_refl].
Qed.

Lemma stop_command_graphic x : In x STOP_COMMANDS -> all_graphic x = true.
Proof. intros [<- | [<- | [<- | [<- | []]]]]; reflexivity. Qed.

Lemma value_of_is_Some {A} (r : Res A) :
  is_Some (value_of r) -> exists a, r = Ok a.
Proof. destruct r as [a | e]; [eauto | intros [? H]; discriminate H]. Qed.

(** *** The headers of the welcome message *)

Lemma plain_header_append s1 s2 :
  plain_header (s1 +:+ s2) = plain_header s1 && plain_header s2.
Proof.
  induction s1 as [| c s1 IH]; [reflexivity |].
  rewrite append_cons. cbn [plain_header]. rewrite IH, andb_assoc. reflexivity.
Qed.

(** The headers of the welcome message are plain exactly when the name and
    the address of the employee are. *)
Lemma plain_headers_welcome_message emp body :
  plain_headers (welcome_message emp body)
  = plain_header (emp_email emp) && plain_header (emp_name emp).
Proof.
  unfold plain_headers, welcome_message. cbn [msg_to msg_from msg_subject].
  rewrite !plain_header_append.
  change (plain_header "me") with true.
  change (plain_header "Welcome to the team, ") with true.
  change (plain_header "!") with true.
  rewrite !andb_true_r. reflexivity.
Qed.

Lemma email_error_plain env emp body :
  plain_header (emp_email emp) = true -> plain_header (emp_name emp) = true ->
  email_error env (welcome_message emp body) = None.
Proof.
  intros Hm Hn. unfold email_error.
  rewrite plain_headers_welcome_message, Hm, Hn. reflexivity.
Qed.

Lemma email_error_not_plain env message e :
  email_error env message = Some e -> plain_headers message = false.
Proof.
  unfold email_error. destruct (plain_headers message); [discriminate | reflexivity].
Qed.

(** *** The outcome of a chain when no collaborator fails unexpectedly *)

Lemma chain_raise_inv env emp state w e w' :
  no_unexpected_error env ->
  deref w state = fresh_state emp ->
  invoke (build_employee_graph env) state w = (Raise e, w') ->
  (exists generated,
     env_llm env (w_trace w) (welcome_fields emp) = Ok generated
     /\ email_error env (welcome_message emp (strip generated)) = Some e)
  \/ (e = mkExc RuntimeError ("No senior mentor available for " +:+ emp_name emp)
      /\ List.filter where_senior (w_employees w) = [])
  \/ (e = mkExc OverflowError "date value out of range"
      /\ List.filter where_senior (w_employees w) <> []
      /\ valid_date (date_at env (4 + w_ticks w) + 7) = false).
Proof.
  intros (Hllm & Hgs & Hsend & Hinvite & Htask & Hcs & Hinsert) Hfresh H.
  assert (He : employee (deref w state) = Some emp) by (rewrite Hfresh; reflexivity).
  rewrite invoke_build_employee_graph in H.
  unfold pipeline_steps in H. cbn [run_steps] in H.
  (* draft message *)
  unfold bind at 1 in H.
  destruct (node_generate_email env state w) as [[s1 | e1] w1] eqn:H1.
  2:{ rewrite (node_generate_email_eq _ _ _ _ He) in H1. cbv zeta in H1.
      destruct (value_of_is_Some _ (Hllm (w_trace w) (welcome_fields emp)))
        as [b Hb].
      rewrite Hb in H1. discriminate H1. }
  apply node_generate_email_Ok in H1 as (emp1 & generated & He1 & Hgen & -> & R1).
  assert (emp1 = emp) as -> by congruence.
  pose proof (step_result_deref _ _ _ _ _ _ R1) as D1.
  destruct R1 as (_ & E1 & _ & _ & K1).
  assert (He2 : employee (deref w1 state) = Some emp) by (rewrite D1; exact He).
  assert (Hb2 : email_body (deref w1 state) = Some (strip generated))
    by (rewrite D1; reflexivity).
  (* deliver message *)
  unfold bind at 1 in H.
  destruct (node_send_email env state w1) as [[s2 | e2] w2] eqn:H2.
  2:{ rewrite (node_send_email_eq _ _ _ _ _ He2 Hb2) in H2. cbv zeta in H2.
      destruct (value_of_is_Some _ (Hgs (w_trace w1))) as [[] Hsvc].
      rewrite Hsvc in H2.
      destruct (email_error env (welcome_message emp (strip generated)))
        as [e' |] eqn:Hmime.
      - injection H2 as <- _. injection H as <- _. left. eauto.
      - rewrite Hsend in H2. discriminate H2. }
  apply node_send_email_Ok in H2
    as (emp2 & body2 & res & _ & _ & _ & _ & _ & _ & -> & R2).
  pose proof (step_result_deref _ _ _ _ _ _ R2) as D2.
  destruct R2 as (_ & E2 & _ & _ & K2).
  assert (He3 : employee (deref w2 state) = Some emp)
    by (rewrite D2; cbn; exact He2).
  (* file task *)
  unfold bind at 1 in H.
  destruct (node_asana_task env state w2) as [[s3 | e3] w3] eqn:H3.
  2:{ rewrite (node_asana_task_eq _ _ _ _ He3) in H3. cbv zeta in H3.
      rewrite Hinvite, Htask in H3. discriminate H3. }
  apply node_asana_task_Ok in H3 as (emp3 & task & _ & _ & -> & R3).
  pose proof (step_result_deref _ _ _ _ _ _ R3) as D3.
  destruct R3 as (_ & E3 & _ & _ & K3).
  assert (He4 : employee (deref w3 state) = Some emp)
    by (rewrite D3; cbn; exact He3).
  (* select mentor *)
  unfold bind at 1 in H.
  rewrite (node_find_mentor_eq _ _ _ _ He4) in H. cbv zeta in H.
  rewrite E3, E2, E1 in H.
  destruct (select_mentor env (w_trace w3) (emp_location emp) (w_employees w))
    as [m |] eqn:Hsel.
  2:{ injection H as <- _. right. left. split; [reflexivity |].
      apply select_mentor_None in Hsel. exact Hsel. }
  assert (Hsenior : List.filter where_senior (w_employees w) <> []).
  { intros Hnone. apply (select_mentor_None env (w_trace w3) (emp_location emp))
      in Hnone. congruence. }
  set (w4 := logged env state (set_mentor m) _ _) in H.
  assert (Hv : (state < length (w_heap w3))%nat) by exact (employee_valid _ _ _ He4).
  assert (D4 : deref w4 state
               = stored env (set_mentor m) (w_ticks w3)
                   ("Selected mentor " +:+ emp_name m +:+ " for "
                    +:+ emp_email emp) (deref w3 state)).
  { subst w4. unfold logged. rewrite deref_insert.
    - reflexivity.
    - cbn [add_events w_heap]. exact Hv. }
  assert (He5 : employee (deref w4 state) = Some emp)
    by (rewrite D4; cbn; exact He4).
  assert (Hm5 : mentor (deref w4 state) = Some m) by (rewrite D4; reflexivity).
  (* schedule meeting *)
  unfold bind at 1 in H.
  rewrite (node_schedule_intro_call_eq _ _ _ _ _ He5 Hm5) in H. cbv zeta in H.
  assert (Htoday : today_in env w4 = date_at env (4 + w_ticks w)).
  { subst w4. unfold today_in, logged. cbn [w_ticks add_events].
    rewrite K3, K2, K1. reflexivity. }
  rewrite Htoday in H.
  destruct (valid_date (date_at env (4 + w_ticks w) + 7)) eqn:Hvalid.
  - destruct (value_of_is_Some _ (Hcs (w_trace w4))) as [[] Hsvc].
    rewrite Hsvc, Hinsert in H. discriminate H.
  - injection H as <- _. right. right. split; [reflexivity |].
    split; [exact Hsenior | reflexivity].
Qed.

Lemma chain_completes env emp state w :
  no_unexpected_error env ->
  deref w state = fresh_state emp ->
  plain_header (emp_email emp) = true ->
  plain_header (emp_name emp) = true ->
  List.filter where_senior (w_employees w) <> [] ->
  valid_date (date_at env (4 + w_ticks w) + 7) = true ->
  exists w', invoke (build_employee_graph env) state w = (Ok state, w').
Proof.
  intros Hh Hfresh Hmail Hname Hsenior Hvalid.
  destruct (invoke (build_employee_graph env) state w) as [[r | e] w'] eqn:H.
  - exists w'. pose proof H as H'. rewrite invoke_build_employee_graph in H'.
    apply pipeline_Ok in H' as (_ & _ & _ & _ & _ & _ & _ & -> & _).
    reflexivity.
  - destruct (chain_raise_inv _ _ _ _ _ _ Hh Hfresh H)
      as [(generated & _ & Hmime) | [[_ Hnone] | (_ & _ & Hinvalid)]].
    + rewrite (email_error_plain _ _ _ Hmail Hname) in Hmime. discriminate Hmime.
    + contradiction.
    + congruence.
Qed.

(** *** Stepping through a chain *)

(** The state after a step that returned, from the state before it. *)
Ltac after_step Hrun lemma :=
  let s := fresh "s" in
  let w1 := fresh "w" in
  let H := fresh "H" in
  apply bind_Ok_inv in Hrun as (s & w1 & H & Hrun);
  apply lemma in H;
  repeat match type of H with
         | exists _, _ => let x := fresh "x" in destruct H as (x & H)
         end;
  repeat match type of H with
         | step_result _ _ _ _ _ _ => apply step_result_deref in H
         | _ = _ /\ _ => let E := fresh "E" in destruct H as (E & H); try subst s
         end.

Ltac settle :=
  first [ reflexivity
        | lia
        | intros [? Habs]; discriminate Habs
        | intros _; eexists; reflexivity
        | intros ?; lia ].

(** * Properties of the pipeline *)

(** ** Eligibility query and mentor selection *)

Lemma lookup_with_state s w :
  deref (with_state s w) (length (w_heap w)) = s.
Proof.
  unfold deref, with_state. simpl.
  rewrite list_lookup_middle by reflexivity. reflexivity.
Qed.

Lemma NoDup_map_injective {A B} (f : A -> B) (l : list A) a b :
  List.NoDup (List.map f l) -> In a l -> In b l -> f a = f b -> a = b.
Proof.
  induction l as [| x l IH]; simpl; intros Hnd Ha Hb Hf; [contradiction |].
  inversion Hnd as [| y l' Hnotin Hnd' ]; subst.
  destruct Ha as [-> | Ha], Hb as [-> | Hb]; auto.
  - exfalso. apply Hnotin. rewrite Hf. apply in_map. exact Hb.
  - exfalso. apply Hnotin. rewrite <- Hf. apply in_map. exact Ha.
Qed.

(** C1. Mentor selection follows the three-branch policy. Given a preferred
    location: when the store holds a row whose role is "Data Engineer",
    whose level is "senior" and whose location is the preferred one,
    [find_senior_mentor] returns such a row, and no such row joined before
    it; otherwise, when the store holds a row whose role is "Data Engineer"
    and whose level is "senior", it returns such a row, and no such row
    joined before it, wherever it is located; otherwise it returns [None].
    In that last case the select-mentor node raises [RuntimeError] for its
    employee, and the orchestrator, for an employee whose chain got as far
    as that node, records the failure for this employee and goes on with
    the remaining ones. *)
Theorem mentor_selection_policy (env : Env) (preferred_location : string)
    (w : World) :
  let table := w_employees w in
  let result := fst (find_senior_mentor env preferred_location w) in
  let senior_engineer (e : Employee) :=
    In e table /\ emp_role e = "Data Engineer" /\ emp_level e = "senior" in
  let local (e : Employee) :=
    senior_engineer e /\ emp_location e = preferred_location in
  ((exists e, local e) ->
   exists m,
     result = Ok (Some m) /\ local m
     /\ forall e, local e -> emp_date_joined m <= emp_date_joined e)
  /\ (~ (exists e, local e) -> (exists e, senior_engineer e) ->
      exists m,
        result = Ok (Some m) /\ senior_engineer m
        /\ forall e, senior_engineer e -> emp_date_joined m <= emp_date_joined e)
  /\ (~ (exists e, senior_engineer e) ->
      result = Ok None
      /\ (forall state emp,
            employee (deref w state) = Some emp ->
            fst (node_find_mentor env state w)
            = Raise (mkExc RuntimeError
                       ("No senior mentor available for " +:+ emp_name emp)))
      /\ (forall emp rest successes failures w3,
            run_steps (take 3 (pipeline_steps env)) (length (w_heap w))
                      (with_state (fresh_state emp) w)
            = (Ok (length (w_heap w)), w3) ->
            for_each_joiner (build_employee_graph env) (emp :: rest)
                            successes failures w
            = for_each_joiner (build_employee_graph env) rest successes
                (failures ++ [emp_email emp +:+ ": No senior mentor available for "
                              +:+ emp_name emp])
                (add_events [EvSql (SelectSeniorAt (emp_location emp));
                             EvSql SelectSeniorAny] w3))).
Proof.
  cbv zeta. rewrite find_senior_mentor_eq. cbn [fst].
  assert (Hlocal : forall e,
             In e (List.filter (where_senior_at preferred_location)
                               (w_employees w))
             <-> (In e (w_employees w) /\ emp_role e = "Data Engineer"
                  /\ emp_level e = "senior")
                 /\ emp_location e = preferred_location).
  { intros e. rewrite filter_In, where_senior_at_true. tauto. }
  assert (Hsenior : forall e,
             In e (List.filter where_senior (w_employees w))
             <-> In e (w_employees w) /\ emp_role e = "Data Engineer"
                 /\ emp_level e = "senior").
  { intros e. rewrite filter_In, where_senior_true. tauto. }
  split; [| split].
  - intros [e He]. unfold select_mentor.
    destruct (senior_at env (w_trace w) preferred_location (w_employees w))
      as [m |] eqn:Hat.
    + apply senior_at_Some in Hat as [Hin Hmin].
      exists m. split; [reflexivity |]. split; [apply Hlocal; exact Hin |].
      intros x Hx. apply Hmin, Hlocal. exact Hx.
    + apply senior_at_None in Hat. apply Hlocal in He. rewrite Hat in He.
      destruct He.
  - intros Hnone [e He]. unfold select_mentor.
    destruct (senior_at env (w_trace w) preferred_location (w_employees w))
      as [m |] eqn:Hat.
    + apply senior_at_Some in Hat as [Hin _]. exfalso. apply Hnone.
      exists m. apply Hlocal. exact Hin.
    + destruct (senior_any env _ (w_employees w)) as [m |] eqn:Hsa.
      * apply senior_any_Some in Hsa as [Hin Hmin].
        exists m. split; [reflexivity |]. split; [apply Hsenior; exact Hin |].
        intros x Hx. apply Hmin, Hsenior. exact Hx.
      * apply senior_any_None in Hsa. apply Hsenior in He. rewrite Hsa in He.
        destruct He.
  - intros Hnobody.
    assert (Hany : List.filter where_senior (w_employees w) = []).
    { destruct (List.filter where_senior (w_employees w)) as [| x l] eqn:Hf;
        [reflexivity |].
      exfalso. apply Hnobody. exists x. apply Hsenior. left. reflexivity. }
    assert (Hnone : forall h loc, select_mentor env h loc (w_employees w) = None).
    { intros h loc. apply select_mentor_None. exact Hany. }
    assert (Hq : forall loc,
               mentor_queries loc (w_employees w)
               = [EvSql (SelectSeniorAt loc); EvSql SelectSeniorAny]).
    { intros loc. rewrite (mentor_queries_eq env []).
      specialize (Hnone [] loc). unfold select_mentor in Hnone.
      destruct (senior_at env [] loc (w_employees w));
        [discriminate Hnone | reflexivity]. }
    split; [rewrite Hnone; reflexivity |]. split.
    + intros state emp He. rewrite (node_find_mentor_eq _ _ _ _ He). cbv zeta.
      rewrite Hnone. reflexivity.
    + intros emp rest successes failures w3 Hrun.
      set (state := length (w_heap w)) in *.
      set (w0 := with_state (fresh_state emp) w) in *.
      pose proof (run_steps_frame env (take 3 (pipeline_steps env))
                    (Forall_take _ _ _ (pipeline_steps_frame env)) state w0)
        as Hframe.
      rewrite Hrun in Hframe.
      destruct Hframe as (_ & Hemps & _ & _ & Hemp & _).
      assert (He3 : employee (deref w3 state) = Some emp).
      { rewrite Hemp. subst state w0. rewrite lookup_with_state. reflexivity. }
      assert (Hinv : invoke (build_employee_graph env) state w0
                     = (Raise (mkExc RuntimeError
                                 ("No senior mentor available for "
                                  +:+ emp_name emp)),
                        add_events [EvSql (SelectSeniorAt (emp_location emp));
                                    EvSql SelectSeniorAny] w3)).
      { rewrite invoke_build_employee_graph.
        rewrite <- (take_drop 3 (pipeline_steps env)).
        rewrite run_steps_app. rewrite (bind_Ok _ _ _ _ _ Hrun).
        change (drop 3 (pipeline_steps env))
          with [node_find_mentor env; node_schedule_intro_call env].
        cbn [run_steps]. apply bind_Raise.
        rewrite (node_find_mentor_eq _ _ _ _ He3). cbv zeta.
        rewrite Hemps. change (w_employees w0) with (w_employees w).
        rewrite Hnone, Hq. reflexivity. }
      rewrite (for_each_joiner_Raise _ _ _ _ _ _ _ _ Hinv). reflexivity.
Qed.

(** The theorem at work: Bengaluru has a senior; Mumbai has none but the
    store has two; a store of juniors has none, and there the orchestrator
    records the failure of the new joiner whose chain reached the
    select-mentor step. *)
Lemma mentor_selection_policy_witness :
  (exists m,
     fst (find_senior_mentor env_ok "Bengaluru" seeded_world) = Ok (Some m)
     /\ ((In m (w_employees seeded_world) /\ emp_role m = "Data Engineer"
          /\ emp_level m = "senior")
         /\ emp_location m = "Bengaluru")
     /\ forall e,
          (In e (w_employees seeded_world) /\ emp_role e = "Data Engineer"
           /\ emp_level e = "senior")
          /\ emp_location e = "Bengaluru" ->
          emp_date_joined m <= emp_date_joined e)
  /\ (exists m,
        fst (find_senior_mentor env_ok "Mumbai" seeded_world) = Ok (Some m)
        /\ (In m (w_employees seeded_world) /\ emp_role m = "Data Engineer"
            /\ emp_level m = "senior")
        /\ forall e,
             In e (w_employees seeded_world) /\ emp_role e = "Data Engineer"
             /\ emp_level e = "senior" ->
             emp_date_joined m <= emp_date_joined e)
  /\ fst (find_senior_mentor env_ok "Bengaluru" juniors_only_world) = Ok None
  /\ for_each_joiner (build_employee_graph env_ok) [kaushal] 0 []
                     juniors_only_world
     = for_each_joiner (build_employee_graph env_ok) [] 0
         ([] ++ ["kaushal.vachhani@example.com: No senior mentor available for "
                 +:+ "Kaushal Vachhani"])
         (add_events [EvSql (SelectSeniorAt "Bengaluru"); EvSql SelectSeniorAny]
            (snd (run_steps (take 3 (pipeline_steps env_ok)) 0%nat
                    (with_state (fresh_state kaushal) juniors_only_world)))).
Proof.
  split; [| split].
  - apply (proj1 (mentor_selection_policy env_ok "Bengaluru" seeded_world)).
    exists neeraj. vm_compute. auto 10.
  - apply (proj1 (proj2 (mentor_selection_policy env_ok "Mumbai" seeded_world))).
    + intros [e [[Hin _] Hloc]]. simpl in Hin.
      destruct Hin as [<- | [<- | [<- | [<- | [<- | []]]]]]; discriminate Hloc.
    + exists neeraj. vm_compute. auto 10.
  - assert (Hnobody :
              ~ (exists e, In e (w_employees juniors_only_world)
                           /\ emp_role e = "Data Engineer"
                           /\ emp_level e = "senior")).
    { intros [e [Hin [_ Hlevel]]]. simpl in Hin.
      destruct Hin as [<- | [<- | [<- | []]]]; discriminate Hlevel. }
    destruct (proj2 (proj2 (mentor_selection_policy env_ok "Bengaluru"
                              juniors_only_world)) Hnobody)
      as (Hnone & _ & Hloop).
    split; [exact Hnone |].
    apply (Hloop kaushal [] 0 []). vm_compute. reflexivity.
Defined.

(** The three branches on the seeded store: the senior of Bengaluru for
    Bengaluru, the only senior of Pune for Pune, and for Mumbai, where no
    senior works, the senior who joined first of all. *)
Example mentor_selection_seeded :
  fst (find_senior_mentor env_ok "Bengaluru" seeded_world) = Ok (Some neeraj)
  /\ fst (find_senior_mentor env_ok "Pune" seeded_world) = Ok (Some sneha)
  /\ fst (find_senior_mentor env_ok "Mumbai" seeded_world) = Ok (Some sneha)
  /\ fst (find_senior_mentor env_ok "Bengaluru" juniors_only_world) = Ok None.
Proof. vm_compute. repeat split; reflexivity. Qed.

(** Of two seniors of the same place, the one who joined first wins,
    wherever the scan of the table meets them. *)
Example mentor_selection_earliest_wins :
  let a := mkEmployee 1 "A" "a@example.com" "Data Engineer" "Data Platform"
             10 "X" "senior" None in
  let b := mkEmployee 2 "B" "b@example.com" "Data Engineer" "Data Platform"
             5 "X" "senior" None in
  fst (find_senior_mentor env_ok "X" (mkWorld [a; b] [] [] 0)) = Ok (Some b)
  /\ fst (find_senior_mentor env_ok "X" (mkWorld [b; a] [] [] 0)) = Ok (Some b)
  /\ fst (find_senior_mentor env_ok "Y" (mkWorld [a; b] [] [] 0)) = Ok (Some b).
Proof. vm_compute. repeat split; reflexivity. Qed.



(** What is left to the engine is the order of the rows that joined on the
    same day, and nothing else: two runs in which SQLite orders such rows
    alike, at the first query and at the second, return the same record. *)
Lemma mentor_selection_with_the_same_tie_order (env1 env2 : Env)
    (preferred_location : string) (w1 w2 : World) :
  w_employees w1 = w_employees w2 ->
  (forall x y,
     env_sqlite_order env1 (w_trace w1) x y
     = env_sqlite_order env2 (w_trace w2) x y) ->
  (forall x y,
     env_sqlite_order env1
       (w_trace w1 ++ [EvSql (SelectSeniorAt preferred_location)]) x y
     = env_sqlite_order env2
         (w_trace w2 ++ [EvSql (SelectSeniorAt preferred_location)]) x y) ->
  fst (find_senior_mentor env1 preferred_location w1)
  = fst (find_senior_mentor env2 preferred_location w2).
Proof.
  intros Htable Hfirst Hsecond. rewrite !find_senior_mentor_eq. cbn [fst].
  rewrite Htable. unfold select_mentor, senior_at, senior_any.
  rewrite (order_by_date_joined_ext _ _ _ Hfirst).
  rewrite (order_by_date_joined_ext _ _ _ Hsecond). reflexivity.
Qed.


Example mentor_selection_tie :
  emp_date_joined twin_a = emp_date_joined twin_b
  /\ fst (find_senior_mentor env_ties_vary "Pune" twins_world)
     = Ok (Some twin_a)
  /\ fst (find_senior_mentor env_ties_vary "Pune" twins_world_later)
     = Ok (Some twin_b)
  /\ fst (find_senior_mentor env_ok "Pune" twins_world_later)
     = Ok (Some twin_a).
Proof. vm_compute. repeat split; reflexivity. Qed.

(** C5. For every lookback window [W], in every world: when the eligibility
    query returns, a record is among its rows exactly when it is a row of the
    table whose role is "Data Engineer", whose level is "junior" and whose
    join date is on or after today minus [W] days, so it returns only such
    records; the table is left as it was and the one statement sent to the
    store is the SELECT. The query returns whenever [W] is a number of days
    [timedelta] accepts and today minus [W] is a date; otherwise the date
    arithmetic raises [OverflowError] before any statement is sent, and the
    table is untouched as well. *)
Theorem eligibility_query_filters (env : Env) (joined_since_days : Z) (w : World) :
  let cutoff := today_in env w - joined_since_days in
  match find_new_joiners_data_engineers env joined_since_days w with
  | (Ok rows, w') =>
      Z.abs joined_since_days <= 999999999
      /\ valid_date cutoff = true
      /\ (forall e, In e rows <->
                    In e (w_employees w)
                    /\ emp_role e = "Data Engineer"
                    /\ emp_level e = "junior"
                    /\ cutoff <= emp_date_joined e)
      /\ w_employees w' = w_employees w
      /\ w_heap w' = w_heap w
      /\ w_trace w' = w_trace w ++ [EvSql (SelectNewJoiners cutoff)]
  | (Raise e, w') =>
      (999999999 < Z.abs joined_since_days \/ valid_date cutoff = false)
      /\ exc_class e = OverflowError
      /\ w_employees w' = w_employees w
      /\ w_heap w' = w_heap w
      /\ w_trace w' = w_trace w
  end.
Proof.
  cbv zeta.
  destruct (find_new_joiners_data_engineers env joined_since_days w)
    as [[rows | e] w'] eqn:H.
  - apply find_new_joiners_data_engineers_Ok in H as (Habs & Hvalid & -> & ->).
    repeat split; auto.
    + apply filter_In in H. tauto.
    + apply filter_In in H as [_ H]. apply where_new_joiner_true in H. tauto.
    + apply filter_In in H as [_ H]. apply where_new_joiner_true in H. tauto.
    + apply filter_In in H as [_ H]. apply where_new_joiner_true in H. tauto.
    + intros (Hin & Hrest). apply filter_In. split; [exact Hin |].
      apply where_new_joiner_true. exact Hrest.
  - apply find_new_joiners_data_engineers_Raise in H as (Hwhy & Hcls & ->).
    repeat split; auto.
Qed.

(** On the seeded store, with the default window of 14 days, the query
    returns the one junior Data Engineer who joined today: not the junior who
    joined 100 days ago, not the seniors, not the junior of another role. A
    window of 100 days is inclusive of the one who joined 100 days ago. *)
Example eligibility_query_seeded :
  fst (find_new_joiners_data_engineers env_ok 14 seeded_world) = Ok [kaushal]
  /\ (exists asha,
        fst (find_new_joiners_data_engineers env_ok 100 seeded_world)
        = Ok [kaushal; asha]
        /\ emp_date_joined asha = today_in env_ok seeded_world - 100)
  /\ fst (find_new_joiners_data_engineers env_ok 99 seeded_world) = Ok [kaushal].
Proof.
  split; [vm_compute; reflexivity |]. split; [| vm_compute; reflexivity].
  eexists. split; vm_compute; reflexivity.
Qed.

(** C10. An eligible employee is never selected as their own mentor: for
    every employee the eligibility query returned and every run of the
    select-mentor node for that employee that returns, the mentor stored in
    the state has level "senior" while the employee has level "junior", so
    the two records differ; and when the identifiers of the table the mentor
    was read from are unique and the employee is still a row of it, the two
    identifiers differ as well. *)
Theorem mentor_is_not_the_new_joiner (env : Env) (joined_since_days : Z)
    (w w1 w2 w3 : World) (rows : list Employee) (emp : Employee)
    (state r : ref) :
  find_new_joiners_data_engineers env joined_since_days w = (Ok rows, w1) ->
  In emp rows ->
  employee (deref w2 state) = Some emp ->
  node_find_mentor env state w2 = (Ok r, w3) ->
  exists m,
    mentor (deref w3 state) = Some m
    /\ emp_level emp = "junior"
    /\ emp_level m = "senior"
    /\ m <> emp
    /\ (List.NoDup (List.map emp_id (w_employees w2)) ->
        In emp (w_employees w2) ->
        emp_id m <> emp_id emp).
Proof.
  intros Hq Hin He Hnode.
  apply find_new_joiners_data_engineers_Ok in Hq as (_ & _ & -> & _).
  apply filter_In in Hin as [_ Hjunior].
  apply where_new_joiner_true in Hjunior as (_ & Hjunior & _).
  apply node_find_mentor_Ok in Hnode as (emp' & m & He' & Hsel & -> & R).
  apply step_result_deref in R.
  apply select_mentor_senior in Hsel as [Hm Hsenior].
  apply where_senior_level in Hsenior.
  assert (Hne : m <> emp).
  { intros ->. rewrite Hjunior in Hsenior. discriminate Hsenior. }
  exists m. repeat split; auto.
  - rewrite R. reflexivity.
  - intros Hnd Hemp Hid. apply Hne.
    eapply NoDup_map_injective; eauto.
Qed.

Lemma mentor_is_not_the_new_joiner_witness :
  exists m,
    mentor (deref (snd (node_find_mentor env_ok 0%nat
                          (with_state (fresh_state kaushal) seeded_world))) 0%nat)
    = Some m
    /\ emp_level kaushal = "junior"
    /\ emp_level m = "senior"
    /\ m <> kaushal
    /\ (List.NoDup (List.map emp_id (w_employees seeded_world)) ->
        In kaushal (w_employees seeded_world) ->
        emp_id m <> emp_id kaushal).
Proof.
  apply (mentor_is_not_the_new_joiner env_ok 14 seeded_world
           (snd (find_new_joiners_data_engineers env_ok 14 seeded_world))
           (with_state (fresh_state kaushal) seeded_world)
           (snd (node_find_mentor env_ok 0%nat
                   (with_state (fresh_state kaushal) seeded_world)))
           [kaushal] kaushal 0%nat 0%nat).
  - vm_compute. reflexivity.
  - left. reflexivity.
  - reflexivity.
  - vm_compute. reflexivity.
Defined.

(** ** The orchestrator without new joiners *)

(** C4. When the eligibility query returns no employee,
    [run_onboarding_for_new_joiners] returns the summary processed = 0,
    successes = 0, failures = [] with the message "No new Data Engineers
    found", in the very world the query left: the only external call of the
    whole run is the SELECT of the query, no dictionary is created and no
    step of the pipeline runs. *)
Theorem no_new_joiners_is_a_no_op (env : Env) (joined_since_days : Z)
    (w w1 : World) :
  find_new_joiners_data_engineers env joined_since_days w = (Ok [], w1) ->
  run_onboarding_for_new_joiners env joined_since_days w
  = (Ok (mkRunResult 0 0 [] (Some "No new Data Engineers found")), w1)
  /\ w_trace w1
     = w_trace w ++ [EvSql (SelectNewJoiners (today_in env w - joined_since_days))]
  /\ w_heap w1 = w_heap w
  /\ w_employees w1 = w_employees w.
Proof.
  intros H. split.
  - unfold run_onboarding_for_new_joiners. rewrite (bind_Ok _ _ _ _ _ H).
    reflexivity.
  - apply find_new_joiners_data_engineers_Ok in H as (_ & _ & _ & ->).
    repeat split; reflexivity.
Qed.

Lemma no_new_joiners_is_a_no_op_witness :
  run_onboarding_for_new_joiners env_ok 14 veterans_world
  = (Ok (mkRunResult 0 0 [] (Some "No new Data Engineers found")),
     snd (find_new_joiners_data_engineers env_ok 14 veterans_world))
  /\ w_trace (snd (find_new_joiners_data_engineers env_ok 14 veterans_world))
     = w_trace veterans_world
       ++ [EvSql (SelectNewJoiners (today_in env_ok veterans_world - 14))]
  /\ w_heap (snd (find_new_joiners_data_engineers env_ok 14 veterans_world))
     = w_heap veterans_world
  /\ w_employees (snd (find_new_joiners_data_engineers env_ok 14 veterans_world))
     = w_employees veterans_world.
Proof.
  apply (no_new_joiners_is_a_no_op env_ok 14 veterans_world).
  vm_compute. reflexivity.
Defined.

(** ** The meeting *)

(** C6. For an employee processed on the date [D] (the date the
    schedule-meeting node reads from the clock) whose mentor is in the
    state: when [D + 7] is a date Python can represent and the calendar
    client can be built, the node asks the calendar for exactly one event,
    which starts on [D + 7] at 10:00:00 and ends on [D + 7] at 11:00:00,
    both in the time zone "Asia/Kolkata", whose attendees are the employee
    and the mentor, in this order and nobody else, and whose request token is
    "mentor-<employee id>-<D + 7 in ISO format>", a function of the
    employee's identifier and of the computed date only. *)
Theorem intro_call_is_next_week_10_to_11 (env : Env) (state : ref) (w : World)
    (emp m : Employee) :
  employee (deref w state) = Some emp ->
  mentor (deref w state) = Some m ->
  valid_date (today_in env w + 7) = true ->
  env_calendar_service env (w_trace w) = Ok tt ->
  let D := today_in env w in
  exists body,
    w_trace (snd (node_schedule_intro_call env state w))
    = w_trace w ++ [EvCalendarService; EvCalendarInsert "primary" body]
    /\ ev_start body
       = mkEventTime (date_isoformat (D + 7) +:+ "T10:00:00") "Asia/Kolkata"
    /\ ev_end body
       = mkEventTime (date_isoformat (D + 7) +:+ "T11:00:00") "Asia/Kolkata"
    /\ ev_attendees body = [emp_email emp; emp_email m]
    /\ ev_requestId body
       = "mentor-" +:+ str_int (emp_id emp) +:+ "-" +:+ date_isoformat (D + 7).
Proof.
  intros He Hm Hvalid Hsvc. cbv zeta.
  exists (intro_call_event emp m (today_in env w + 7)).
  split; [| repeat split; reflexivity].
  rewrite (node_schedule_intro_call_eq _ _ _ _ _ He Hm). cbv zeta.
  rewrite Hvalid, Hsvc.
  destruct (escapes is_HttpError _); reflexivity.
Qed.

Lemma intro_call_is_next_week_10_to_11_witness :
  exists body,
    w_trace (snd (node_schedule_intro_call env_ok 0%nat
                    (with_state (set_mentor neeraj (fresh_state kaushal))
                                seeded_world)))
    = w_trace seeded_world ++ [EvCalendarService; EvCalendarInsert "primary" body]
    /\ ev_start body = mkEventTime ("2026-11-10" +:+ "T10:00:00") "Asia/Kolkata"
    /\ ev_end body = mkEventTime ("2026-11-10" +:+ "T11:00:00") "Asia/Kolkata"
    /\ ev_attendees body
       = ["kaushal.vachhani@example.com"; "neeraj.singh@example.com"]
    /\ ev_requestId body = "mentor-" +:+ "1" +:+ "-" +:+ "2026-11-10".
Proof.
  apply (intro_call_is_next_week_10_to_11 env_ok 0%nat
           (with_state (set_mentor neeraj (fresh_state kaushal)) seeded_world)
           kaushal neeraj); reflexivity.
Defined.

(** ** The chain of five steps *)

Lemma in_pipeline_steps env step :
  In step (pipeline_steps env) -> respects_frame env step.
Proof.
  intros H. pose proof (pipeline_steps_frame env) as F.
  rewrite List.Forall_forall in F. auto.
Qed.

(** C9. For every employee's run the five steps execute in the fixed order
    draft message, deliver message, file task, select mentor, schedule
    meeting: running the compiled graph is running the five nodes in
    sequence, each on the state the previous one returned, so a run that
    completes has made its external calls in this order; and within the
    file-task step the invitation to the workspace is sent before the task
    is created (the task creation, when it happens, is the one call that
    follows the invitation). *)
Theorem steps_run_in_fixed_order (env : Env) (state : ref) (w : World) :
  invoke (build_employee_graph env) state w
  = (s1 <- node_generate_email env state ;;
     s2 <- node_send_email env s1 ;;
     s3 <- node_asana_task env s2 ;;
     s4 <- node_find_mentor env s3 ;;
     s5 <- node_schedule_intro_call env s4 ;;
     ret s5) w
  /\ (forall r w',
        invoke (build_employee_graph env) state w = (Ok r, w') ->
        exists emp m body,
          employee (deref w state) = Some emp
          /\ w_trace w'
             = w_trace w
               ++ [EvLlmInvoke (welcome_fields emp);
                   EvGmailService;
                   EvGmailSend "me" (welcome_message emp body);
                   workspace_invite env emp;
                   EvAsanaCreateTask (onboarding_task env emp)]
               ++ mentor_queries (emp_location emp) (w_employees w)
               ++ [EvCalendarService;
                   EvCalendarInsert "primary"
                     (intro_call_event emp m (date_at env (4 + w_ticks w) + 7))])
  /\ (forall workspace_gid project_gid new_member_email task_name,
        exists rest,
          w_trace (snd (create_onboarding_tasks env workspace_gid project_gid
                          new_member_email task_name w))
          = w_trace w ++ EvAsanaAddUser workspace_gid new_member_email :: rest
          /\ (rest = []
              \/ rest = [EvAsanaCreateTask
                           (mkTaskBody task_name new_member_email workspace_gid
                                       [project_gid])])).
Proof.
  split; [reflexivity |]. split.
  - intros r w' H. rewrite invoke_build_employee_graph in H.
    apply pipeline_Ok in H
      as (emp & body & res & task & m & event & He & _ & _ & _ & R).
    destruct R as (_ & _ & _ & T & _).
    exists emp, m, body. split; [exact He | exact T].
  - intros workspace_gid project_gid new_member_email task_name.
    rewrite create_onboarding_tasks_eq. cbv zeta.
    destruct (escapes is_ApiException _).
    + exists []. split; [reflexivity | left; reflexivity].
    + rewrite create_task_eq. cbv zeta.
      eexists. split; [| right; reflexivity].
      destruct (escapes is_ApiException _); simpl; rewrite <- app_assoc;
        reflexivity.
Qed.

Lemma steps_run_in_fixed_order_witness :
  let w := with_state (fresh_state kaushal) seeded_world in
  exists emp m body,
    employee (deref w 0%nat) = Some emp
    /\ w_trace (snd (invoke (build_employee_graph env_ok) 0%nat w))
       = w_trace w
         ++ [EvLlmInvoke (welcome_fields emp);
             EvGmailService;
             EvGmailSend "me" (welcome_message emp body);
             workspace_invite env_ok emp;
             EvAsanaCreateTask (onboarding_task env_ok emp)]
         ++ mentor_queries (emp_location emp) (w_employees w)
         ++ [EvCalendarService;
             EvCalendarInsert "primary"
               (intro_call_event emp m (date_at env_ok (4 + w_ticks w) + 7))].
Proof.
  cbv zeta.
  apply (proj1 (proj2 (steps_run_in_fixed_order env_ok 0%nat
                         (with_state (fresh_state kaushal) seeded_world)))
           0%nat
           (snd (invoke (build_employee_graph env_ok) 0%nat
                   (with_state (fresh_state kaushal) seeded_world)))).
  vm_compute. reflexivity.
Defined.

(** The run of the seeded store's new joiner, call by call. *)
Example steps_run_in_fixed_order_seeded :
  let w := with_state (fresh_state kaushal) seeded_world in
  exists body event,
    skipn (length (w_trace w))
          (w_trace (snd (invoke (build_employee_graph env_ok) 0%nat w)))
    = [EvLlmInvoke (welcome_fields kaushal);
       EvGmailService;
       EvGmailSend "me" (welcome_message kaushal body);
       EvAsanaAddUser "1200000000000001" "kaushal.vachhani@example.com";
       EvAsanaCreateTask (onboarding_task env_ok kaushal);
       EvSql (SelectSeniorAt "Bengaluru");
       EvCalendarService;
       EvCalendarInsert "primary" event].
Proof. cbv zeta. do 2 eexists. vm_compute. reflexivity. Qed.

(** *** The log *)

Lemma datetime_seconds_of_us us :
  datetime_seconds (datetime_of_us us) = us / US_PER_SECOND.
Proof.
  unfold datetime_seconds, datetime_of_us, US_PER_DAY. simpl.
  rewrite (Z.mul_comm 86400 US_PER_SECOND).
  rewrite <- Z.div_div by (unfold US_PER_SECOND; lia).
  generalize (us / US_PER_SECOND). intros q.
  replace (q / 86400 + 1 - 1) with (q / 86400) by lia.
  Z.to_euclidean_division_equations. lia.
Qed.

Lemma monotone_clock_le env :
  monotone_clock env ->
  forall (k n : nat), env_clock env n <= env_clock env (k + n).
Proof.
  intros Hmono k n. induction k as [| k IH]; simpl; [lia |].
  specialize (Hmono (k + n)%nat). lia.
Qed.

Lemma log_instant_le env :
  monotone_clock env ->
  forall (k n : nat), log_instant env n <= log_instant env (k + n).
Proof.
  intros Hmono k n. unfold log_instant. rewrite !datetime_seconds_of_us.
  apply Z.div_le_mono; [unfold US_PER_SECOND; lia |].
  apply monotone_clock_le. exact Hmono.
Qed.

Lemma clock_from_monotone env start :
  env_clock env = clock_from start -> monotone_clock env.
Proof.
  intros H n. rewrite H. unfold clock_from, US_PER_SECOND. lia.
Qed.

Example env_ok_clock_is_monotone : monotone_clock env_ok.
Proof. eapply clock_from_monotone. reflexivity. Qed.

(** C7, as the code has it. A step that returns has appended exactly one
    line to the log of its state, stamped with a reading of the clock made
    during the step; this includes the steps whose adapter swallowed an API
    error and returned [None]. A step that raises has not touched the heap,
    so it has appended nothing. For an employee whose five steps completed,
    starting from an empty log, the log holds exactly the five lines of the
    five steps, in the order of the steps, stamped with the 1st, 2nd, 3rd,
    4th and 6th reading of the clock made during the run (the 5th reading is
    the date of the meeting); the instants these lines show never decrease
    when the clock never runs backwards. *)
Theorem returning_steps_log_once (env : Env) (state : ref) (w : World) :
  (forall step,
     In step (pipeline_steps env) ->
     match step state w with
     | (Ok r, w') =>
         exists tick msg,
           logs_of (deref w' state)
           = logs_of (deref w state) ++ [log_entry env tick msg]
           /\ (w_ticks w <= tick < w_ticks w')%nat
     | (Raise e, w') =>
         w_heap w' = w_heap w
         /\ logs_of (deref w' state) = logs_of (deref w state)
     end)
  /\ (forall r w',
        invoke (build_employee_graph env) state w = (Ok r, w') ->
        logs (deref w state) = Some [] ->
        exists emp m,
          employee (deref w state) = Some emp
          /\ mentor (deref w' state) = Some m
          /\ logs (deref w' state)
             = Some
                 [log_entry env (w_ticks w)
                    ("Generated email for " +:+ emp_email emp);
                  log_entry env (1 + w_ticks w)
                    ("Sent welcome email to " +:+ emp_email emp);
                  log_entry env (2 + w_ticks w)
                    ("Created Asana task for " +:+ emp_email emp);
                  log_entry env (3 + w_ticks w)
                    ("Selected mentor " +:+ emp_name m +:+ " for "
                     +:+ emp_email emp);
                  log_entry env (5 + w_ticks w)
                    ("Scheduled mentor call for " +:+ emp_email emp)]
          /\ (monotone_clock env ->
              log_instant env (w_ticks w) <= log_instant env (1 + w_ticks w)
              /\ log_instant env (1 + w_ticks w) <= log_instant env (2 + w_ticks w)
              /\ log_instant env (2 + w_ticks w) <= log_instant env (3 + w_ticks w)
              /\ log_instant env (3 + w_ticks w) <= log_instant env (5 + w_ticks w))).
Proof.
  split.
  - intros step Hin. simpl in Hin.
    destruct (step state w) as [[r | e] w'] eqn:H.
    + destruct Hin as [<- | [<- | [<- | [<- | [<- | []]]]]].
      * apply node_generate_email_Ok in H as (emp & body & _ & _ & -> & R).
        pose proof (step_result_deref _ _ _ _ _ _ R) as D.
        destruct R as (_ & _ & _ & _ & K).
        eexists _, _. rewrite D, K. split; [reflexivity | lia].
      * apply node_send_email_Ok in H
          as (emp & body & res & _ & _ & _ & _ & _ & _ & -> & R).
        pose proof (step_result_deref _ _ _ _ _ _ R) as D.
        destruct R as (_ & _ & _ & _ & K).
        eexists _, _. rewrite D, K. split; [reflexivity | lia].
      * apply node_asana_task_Ok in H as (emp & task & _ & _ & -> & R).
        pose proof (step_result_deref _ _ _ _ _ _ R) as D.
        destruct R as (_ & _ & _ & _ & K).
        eexists _, _. rewrite D, K. split; [reflexivity | lia].
      * apply node_find_mentor_Ok in H as (emp & m & _ & _ & -> & R).
        pose proof (step_result_deref _ _ _ _ _ _ R) as D.
        destruct R as (_ & _ & _ & _ & K).
        eexists _, _. rewrite D, K. split; [reflexivity | lia].
      * apply node_schedule_intro_call_Ok in H
          as (emp & m & ev & _ & _ & _ & _ & -> & _ & R).
        pose proof (step_result_deref _ _ _ _ _ _ R) as D.
        destruct R as (_ & _ & _ & _ & K).
        eexists _, _. rewrite D, K. split; [reflexivity | lia].
    + assert (Hheap : w_heap w' = w_heap w).
      { pose proof (in_pipeline_steps env step) as F.
        assert (Hin' : In step (pipeline_steps env)) by exact Hin.
        specialize (F Hin' state w). rewrite H in F. destruct F as (F & _).
        exact F. }
      split; [exact Hheap |]. unfold deref. rewrite Hheap. reflexivity.
  - intros r w' H Hlogs. rewrite invoke_build_employee_graph in H.
    apply pipeline_Ok in H
      as (emp & body & res & task & m & event & He & _ & _ & _ & R).
    apply step_result_deref in R. exists emp, m.
    split; [exact He |]. rewrite R. cbn [mentor logs].
    split; [reflexivity |]. split.
    + unfold logs_of. rewrite Hlogs. reflexivity.
    + intros Hmono.
      pose proof (log_instant_le env Hmono 1 (w_ticks w)) as H1.
      pose proof (log_instant_le env Hmono 1 (1 + w_ticks w)) as H2.
      pose proof (log_instant_le env Hmono 1 (2 + w_ticks w)) as H3.
      pose proof (log_instant_le env Hmono 2 (3 + w_ticks w)) as H4.
      auto.
Qed.

(** The log of the seeded store's new joiner: five lines, one second apart
    but for the last, in the order of the steps. *)
Lemma returning_steps_log_once_witness :
  let w := with_state (fresh_state kaushal) seeded_world in
  exists emp m,
    employee (deref w 0%nat) = Some emp
    /\ mentor (deref (snd (invoke (build_employee_graph env_ok) 0%nat w)) 0%nat)
       = Some m
    /\ logs (deref (snd (invoke (build_employee_graph env_ok) 0%nat w)) 0%nat)
       = Some
           [log_entry env_ok 1 ("Generated email for " +:+ emp_email emp);
            log_entry env_ok 2 ("Sent welcome email to " +:+ emp_email emp);
            log_entry env_ok 3 ("Created Asana task for " +:+ emp_email emp);
            log_entry env_ok 4
              ("Selected mentor " +:+ emp_name m +:+ " for " +:+ emp_email emp);
            log_entry env_ok 6 ("Scheduled mentor call for " +:+ emp_email emp)]
    /\ (monotone_clock env_ok ->
        log_instant env_ok 1 <= log_instant env_ok 2
        /\ log_instant env_ok 2 <= log_instant env_ok 3
        /\ log_instant env_ok 3 <= log_instant env_ok 4
        /\ log_instant env_ok 4 <= log_instant env_ok 6).
Proof.
  cbv zeta.
  apply (proj2 (returning_steps_log_once env_ok 0%nat
                  (with_state (fresh_state kaushal) seeded_world))
           0%nat
           (snd (invoke (build_employee_graph env_ok) 0%nat
                   (with_state (fresh_state kaushal) seeded_world)))).
  - vm_compute. reflexivity.
  - reflexivity.
Defined.

Example log_of_the_seeded_run :
  logs (deref (snd (invoke (build_employee_graph env_ok) 0%nat
                      (with_state (fresh_state kaushal) seeded_world))) 0%nat)
  = Some
      ["2026-11-03T09:05:08 | Generated email for kaushal.vachhani@example.com";
       "2026-11-03T09:05:09 | Sent welcome email to kaushal.vachhani@example.com";
       "2026-11-03T09:05:10 | Created Asana task for kaushal.vachhani@example.com";
       "2026-11-03T09:05:11 | Selected mentor Neeraj Singh for kaushal.vachhani@example.com";
       "2026-11-03T09:05:13 | Scheduled mentor call for kaushal.vachhani@example.com"].
Proof. vm_compute. reflexivity. Qed.

(** The counterexample to the literal reading (C7): with no senior in the
    store, the chain of the new joiner reaches the select-mentor node with
    three lines in its log; the node raises before it logs, and the log
    still has three lines afterwards. *)
Lemma failing_step_does_not_log : ~ every_step_logs_once.
Proof.
  intros H.
  destruct (H env_ok (node_find_mentor env_ok)
              (or_intror (or_intror (or_intror (or_introl eq_refl))))
              0%nat
              (snd (run_steps (take 3 (pipeline_steps env_ok)) 0%nat
                      (with_state (fresh_state kaushal) juniors_only_world))))
    as [entry Hentry].
  - vm_compute. lia.
  - apply (f_equal (@length string)) in Hentry. vm_compute in Hentry.
    discriminate Hentry.
Qed.

Example failing_step_outcome :
  let w3 := snd (run_steps (take 3 (pipeline_steps env_ok)) 0%nat
                   (with_state (fresh_state kaushal) juniors_only_world)) in
  length (logs_of (deref w3 0%nat)) = 3%nat
  /\ node_find_mentor env_ok 0%nat w3
     = (Raise (mkExc RuntimeError
                 "No senior mentor available for Kaushal Vachhani"),
        add_events [EvSql (SelectSeniorAt "Bengaluru"); EvSql SelectSeniorAny] w3)
  /\ length (logs_of (deref (snd (node_find_mentor env_ok 0%nat w3)) 0%nat))
     = 3%nat.
Proof. vm_compute. repeat split; reflexivity. Qed.

(** *** Failures inside the chain *)

(** C2, as the code has it. For every employee's run and every one of the
    five steps: when the step raises, in whatever state the previous steps
    left, the run of the graph raises the same exception in the very world
    the step stopped in, so none of the subsequent steps execute. In the
    deliver-message step, a message the [email] package refuses to encode
    is such a failure: the step raises once the Gmail client is obtained,
    and nothing is sent. A refusal by Gmail of a message that was encoded,
    or by Asana of the task, is such a failure only when the exception is
    not the [HttpError], respectively the [ApiException], the adapter
    catches: a caught refusal makes the adapter return [None], the step
    stores it, logs and returns, and the chain goes on. *)
Theorem raising_step_halts_chain (env : Env) :
  (forall (k : nat) step state w s w1 e w2,
     pipeline_steps env !! k = Some step ->
     run_steps (take k (pipeline_steps env)) state w = (Ok s, w1) ->
     step s w1 = (Raise e, w2) ->
     invoke (build_employee_graph env) state w = (Raise e, w2))
  /\ (forall state w emp body e,
        employee (deref w state) = Some emp ->
        email_body (deref w state) = Some body ->
        env_gmail_service env (w_trace w) = Ok tt ->
        email_error env (welcome_message emp body) = Some e ->
        node_send_email env state w
        = (Raise e, add_events [EvGmailService] w))
  /\ (forall state w emp body e,
        employee (deref w state) = Some emp ->
        email_body (deref w state) = Some body ->
        env_gmail_service env (w_trace w) = Ok tt ->
        email_error env (welcome_message emp body) = None ->
        env_gmail_send env (w_trace w ++ [EvGmailService]) "me"
                       (welcome_message emp body) = Raise e ->
        let w2 := add_events [EvGmailService;
                              EvGmailSend "me" (welcome_message emp body)] w in
        node_send_email env state w
        = if is_HttpError (exc_class e)
          then (Ok state,
                logged env state (set_email_result None)
                       ("Sent welcome email to " +:+ emp_email emp) w2)
          else (Raise e, w2))
  /\ (forall state w emp e,
        employee (deref w state) = Some emp ->
        escapes is_ApiException
          (env_asana_add_user env (w_trace w)
             (environ_get env "ASANA_WORKSPACE_GID" "workspace_dummy")
             (emp_email emp)) = None ->
        env_asana_create_task env (w_trace w ++ [workspace_invite env emp])
                              (onboarding_task env emp) = Raise e ->
        let w2 := add_events [workspace_invite env emp;
                              EvAsanaCreateTask (onboarding_task env emp)] w in
        node_asana_task env state w
        = if is_ApiException (exc_class e)
          then (Ok state,
                logged env state (set_asana_task None)
                       ("Created Asana task for " +:+ emp_email emp) w2)
          else (Raise e, w2)).
Proof.
  split; [| split; [| split]].
  - intros k step state w s w1 e w2 Hk Hbefore Hstep.
    rewrite invoke_build_employee_graph.
    rewrite <- (take_drop_middle _ _ _ Hk).
    rewrite run_steps_app. rewrite (bind_Ok _ _ _ _ _ Hbefore).
    cbn [run_steps]. apply bind_Raise. exact Hstep.
  - intros state w emp body e He Hb Hsvc Hmime.
    rewrite (node_send_email_eq _ _ _ _ _ He Hb). cbv zeta.
    rewrite Hsvc, Hmime. reflexivity.
  - intros state w emp body e He Hb Hsvc Hmime Hsend. cbv zeta.
    rewrite (node_send_email_eq _ _ _ _ _ He Hb). cbv zeta.
    rewrite Hsvc, Hmime, Hsend. simpl.
    destruct (is_HttpError (exc_class e)); reflexivity.
  - intros state w emp e He Hinvite Hcreate. cbv zeta.
    rewrite (node_asana_task_eq _ _ _ _ He). cbv zeta.
    rewrite Hinvite, Hcreate. simpl.
    destruct (is_ApiException (exc_class e)); reflexivity.
Qed.

(** With no senior in the store, the chain of the new joiner stops at the
    select-mentor step: the meeting is never requested. *)
Lemma raising_step_halts_chain_witness :
  let w := with_state (fresh_state kaushal) juniors_only_world in
  pipeline_steps env_ok !! 3%nat = Some (node_find_mentor env_ok)
  /\ fst (run_steps (take 3 (pipeline_steps env_ok)) 0%nat w) = Ok 0%nat
  /\ invoke (build_employee_graph env_ok) 0%nat w
     = (Raise (mkExc RuntimeError
                 "No senior mentor available for Kaushal Vachhani"),
        add_events [EvSql (SelectSeniorAt "Bengaluru"); EvSql SelectSeniorAny]
                   (snd (run_steps (take 3 (pipeline_steps env_ok)) 0%nat w))).
Proof.
  cbv zeta. split; [reflexivity |]. split; [vm_compute; reflexivity |].
  apply (proj1 (raising_step_halts_chain env_ok) 3%nat (node_find_mentor env_ok)
           0%nat (with_state (fresh_state kaushal) juniors_only_world) 0%nat
           (snd (run_steps (take 3 (pipeline_steps env_ok)) 0%nat
                   (with_state (fresh_state kaushal) juniors_only_world)))).
  - reflexivity.
  - vm_compute. reflexivity.
  - vm_compute. reflexivity.
Defined.

(** A message the [email] package refuses: the name of the new joiner
    holds a line feed, the chain stops in the deliver-message step before
    anything is sent, and the orchestrator records the failure. *)
Example refused_header_halts_chain :
  let w := with_state (fresh_state eve) eve_world in
  invoke (build_employee_graph env_ok) 0%nat w
  = (Raise (mkExc (OtherException "HeaderParseError")
              "header value appears to contain an embedded header"),
     add_events [EvGmailService]
                (snd (node_generate_email env_ok 0%nat w)))
  /\ fst (run_onboarding_for_new_joiners env_ok 14 eve_world)
     = Ok (mkRunResult 1 0
             ["eve@example.com: header value appears to contain an embedded header"]
             None).
Proof. vm_compute. split; reflexivity. Qed.

(** The counterexample to the literal reading (C2): Gmail refuses the
    message with an [HttpError] and Asana refuses the task with an
    [ApiException], yet the chain of the new joiner runs to its end: after
    the message this chain sent and Gmail refused come the invitation, the
    task, the mentor query and the meeting. *)
Lemma refused_delivery_does_not_halt : ~ refusal_halts_chain.
Proof.
  intros H.
  pose (w := with_state (fresh_state kaushal) seeded_world).
  pose (tr := w_trace (snd (invoke (build_employee_graph env_refusing) 0%nat w))).
  assert (Htail : skipn 7 tr = []).
  { apply (H env_refusing kaushal 0%nat w
             [EvLlmInvoke (welcome_fields kaushal); EvGmailService]
             (EvGmailSend "me" (welcome_message kaushal "<p>Welcome Kaushal Vachhani</p>"))
             (skipn 7 tr)).
    - reflexivity.
    - vm_compute. reflexivity.
    - simpl. eexists. reflexivity. }
  vm_compute in Htail. discriminate Htail.
Qed.

Example refused_delivery_outcome :
  let w := with_state (fresh_state kaushal) seeded_world in
  let w' := snd (invoke (build_employee_graph env_refusing) 0%nat w) in
  fst (invoke (build_employee_graph env_refusing) 0%nat w) = Ok 0%nat
  /\ email_result (deref w' 0%nat) = Some None
  /\ asana_task (deref w' 0%nat) = Some None
  /\ mentor (deref w' 0%nat) = Some neeraj
  /\ length (logs_of (deref w' 0%nat)) = 5%nat.
Proof. vm_compute. repeat split; reflexivity. Qed.

(** *** The loop over the new joiners *)

Lemma write_details_eq new_joiners w :
  write_details new_joiners w
  = (Ok tt,
     add_events (List.map (fun emp => EvStWrite ("- " +:+ emp_name emp +:+ " - "
                                                 +:+ emp_email emp))
                          new_joiners) w).
Proof.
  revert w. induction new_joiners as [| emp rest IH]; intros w; simpl.
  - unfold ret, add_events. rewrite app_nil_r. destruct w; reflexivity.
  - unfold bind, st_write. rewrite IH. unfold add_events. simpl.
    rewrite <- app_assoc. reflexivity.
Qed.

Lemma run_onboarding_for_new_joiners_eq env joined_since_days w emp rest w0 :
  find_new_joiners_data_engineers env joined_since_days w = (Ok (emp :: rest), w0) ->
  run_onboarding_for_new_joiners env joined_since_days w
  = (acc <- for_each_joiner (build_employee_graph env) (emp :: rest) 0 [] ;;
     ret (mkRunResult (Z.of_nat (length (emp :: rest))) (fst acc) (snd acc) None))
      (add_events (announcement (emp :: rest) joined_since_days) w0).
Proof.
  intros H. unfold run_onboarding_for_new_joiners.
  rewrite (bind_Ok _ _ _ _ _ H).
  unfold bind at 1, st_write at 1. unfold bind at 1, st_write at 1.
  unfold bind at 1. rewrite write_details_eq.
  unfold bind at 1, st_write at 1. unfold bind at 1, st_markdown at 1.
  unfold bind at 1, st_write at 1. cbv zeta.
  unfold add_events, announcement. cbn [w_employees w_heap w_trace w_ticks].
  rewrite <- !app_assoc. reflexivity.
Qed.

Lemma deref_unchanged (w w' : World) (r : ref) :
  w_heap w' !! r = w_heap w !! r -> deref w' r = deref w r.
Proof. unfold deref. intros ->. reflexivity. Qed.

(** The loop never raises when the outside raises [Exception]s only: every
    new joiner gets a dictionary of their own, the outcome of each chain is
    counted or described, and the dictionaries that existed before are not
    touched. *)
Lemma for_each_joiner_total env new_joiners :
  well_behaved env ->
  forall successes failures w,
  exists outcomes w',
    loop_run env new_joiners w outcomes w'
    /\ for_each_joiner (build_employee_graph env) new_joiners successes failures w
       = (Ok (successes + count_completed outcomes,
              failures ++ descriptors new_joiners outcomes), w')
    /\ length outcomes = length new_joiners
    /\ w_employees w' = w_employees w
    /\ length (w_heap w') = (length (w_heap w) + length new_joiners)%nat
    /\ (forall (i : nat) emp,
          new_joiners !! i = Some emp ->
          employee (deref w' (length (w_heap w) + i)%nat) = Some emp)
    /\ (forall r : ref,
          (r < length (w_heap w))%nat -> w_heap w' !! r = w_heap w !! r).
Proof.
  intros Hwb. induction new_joiners as [| emp rest IH]; intros successes failures w.
  - exists [], w. simpl. rewrite Z.add_0_r, app_nil_r, Nat.add_0_r.
    repeat split; auto. + constructor. + intros i emp Hi. discriminate Hi.
  - set (state := length (w_heap w)).
    set (w0 := with_state (fresh_state emp) w).
    pose proof (run_steps_frame env (pipeline_steps env)
                  (pipeline_steps_frame env) state w0) as F.
    rewrite <- invoke_build_employee_graph in F.
    assert (Hlen0 : length (w_heap w0) = S (length (w_heap w))).
    { subst w0. unfold with_state. simpl. rewrite length_app. simpl. lia. }
    assert (Hold0 : forall r : ref, (r < length (w_heap w))%nat ->
                                    w_heap w0 !! r = w_heap w !! r).
    { intros r Hr. subst w0. unfold with_state. simpl.
      apply lookup_app_l. exact Hr. }
    assert (Hd0 : employee (deref w0 state) = Some emp).
    { subst w0 state. rewrite lookup_with_state. reflexivity. }
    destruct (invoke (build_employee_graph env) state w0)
      as [[r | e] w1] eqn:Hinv.
    + destruct F as (_ & Fe & Fl & Fo & Fs & _).
      destruct (IH (successes + 1) failures w1)
        as (outcomes & w' & Hrun & Heq & Hlen & Hemps & Hheap & Hnew & Hold).
      exists (None :: outcomes), w'. repeat split.
      * eapply loop_completed; eauto.
      * rewrite (for_each_joiner_Ok _ _ _ _ _ _ _ _ Hinv). rewrite Heq.
        simpl. rewrite <- Z.add_assoc. reflexivity.
      * simpl. lia.
      * rewrite Hemps, Fe. reflexivity.
      * rewrite Hheap, Fl, Hlen0. simpl. lia.
      * intros [| i] emp' Hi; simpl in Hi.
        -- injection Hi as <-. rewrite Nat.add_0_r. fold state.
           rewrite (deref_unchanged w1 w' state).
           ++ rewrite Fs. exact Hd0.
           ++ apply Hold. rewrite Fl, Hlen0. subst state. lia.
        -- specialize (Hnew i emp' Hi). rewrite Fl, Hlen0 in Hnew.
           replace (state + S i)%nat
             with (S (length (w_heap w)) + i)%nat by (subst state; lia).
           exact Hnew.
      * intros r0 Hr. rewrite Hold by (rewrite Fl, Hlen0; lia).
        rewrite Fo by (subst state; lia). apply Hold0. exact Hr.
    + destruct F as ((Fe & Fl & Fo & Fs & _) & Hexc).
      specialize (Hexc Hwb).
      destruct (IH successes (failures ++ [failure_descriptor emp e]) w1)
        as (outcomes & w' & Hrun & Heq & Hlen & Hemps & Hheap & Hnew & Hold).
      exists (Some e :: outcomes), w'. repeat split.
      * eapply loop_failed; eauto.
      * rewrite (for_each_joiner_Raise _ _ _ _ _ _ _ _ Hinv). rewrite Hexc, Heq.
        simpl. rewrite <- app_assoc. reflexivity.
      * simpl. lia.
      * rewrite Hemps, Fe. reflexivity.
      * rewrite Hheap, Fl, Hlen0. simpl. lia.
      * intros [| i] emp' Hi; simpl in Hi.
        -- injection Hi as <-. rewrite Nat.add_0_r. fold state.
           rewrite (deref_unchanged w1 w' state).
           ++ rewrite Fs. exact Hd0.
           ++ apply Hold. rewrite Fl, Hlen0. subst state. lia.
        -- specialize (Hnew i emp' Hi). rewrite Fl, Hlen0 in Hnew.
           replace (state + S i)%nat
             with (S (length (w_heap w)) + i)%nat by (subst state; lia).
           exact Hnew.
      * intros r0 Hr. rewrite Hold by (rewrite Fl, Hlen0; lia).
        rewrite Fo by (subst state; lia). apply Hold0. exact Hr.
Qed.

(** C3. For every eligible employee processed by the orchestrator (the
    outside raising [Exception]s only): the employee is run on a newly
    allocated dictionary holding that employee and an empty log, in the
    world the previous employee left, whatever the previous outcome was;
    when the chain raises, the exception goes no further than the loop: the
    orchestrator returns its summary, whose failures list gets, in the order
    of the employees, the descriptor "<address>: <reason>" of each employee
    whose chain raised, and whose successes count the others; every employee
    is processed, each on a dictionary of their own, and the dictionaries
    that existed before the run are untouched. *)
Theorem orchestrator_isolates_failures (env : Env) (joined_since_days : Z)
    (w w0 : World) (new_joiners : list Employee) :
  well_behaved env ->
  find_new_joiners_data_engineers env joined_since_days w = (Ok new_joiners, w0) ->
  new_joiners <> [] ->
  exists outcomes w',
    loop_run env new_joiners
             (add_events (announcement new_joiners joined_since_days) w0)
             outcomes w'
    /\ run_onboarding_for_new_joiners env joined_since_days w
       = (Ok (mkRunResult (Z.of_nat (length new_joiners))
                          (count_completed outcomes)
                          (descriptors new_joiners outcomes)
                          None), w')
    /\ length outcomes = length new_joiners
    /\ (forall (i : nat) emp,
          new_joiners !! i = Some emp ->
          employee (deref w' (length (w_heap w) + i)%nat) = Some emp)
    /\ (forall r : ref,
          (r < length (w_heap w))%nat -> w_heap w' !! r = w_heap w !! r)
    /\ w_employees w' = w_employees w.
Proof.
  intros Hwb Hq Hne.
  assert (w_employees w0 = w_employees w /\ w_heap w0 = w_heap w)
    as [Hemps0 Hheap0].
  { pose proof Hq as Hq'.
    apply find_new_joiners_data_engineers_Ok in Hq' as (_ & _ & _ & ->).
    split; reflexivity. }
  destruct new_joiners as [| emp rest]; [contradiction |].
  set (new_joiners := emp :: rest) in *.
  destruct (for_each_joiner_total env new_joiners Hwb 0 []
              (add_events (announcement new_joiners joined_since_days) w0))
    as (outcomes & w' & Hrun & Heq & Hlen & Hemps & _ & Hnew & Hold).
  exists outcomes, w'. repeat split; auto.
  - subst new_joiners. rewrite (run_onboarding_for_new_joiners_eq _ _ _ _ _ _ Hq).
    rewrite (bind_Ok _ _ _ _ _ Heq). reflexivity.
  - intros i emp' Hi. specialize (Hnew i emp' Hi).
    cbn [add_events w_heap] in Hnew. rewrite Hheap0 in Hnew. exact Hnew.
  - intros r Hr. cbn [add_events w_heap] in Hold. rewrite Hheap0 in Hold. auto.
  - rewrite Hemps. cbn [add_events w_employees]. exact Hemps0.
Qed.

(** Three new joiners; the delivery to the second one times out: two
    successes, and the descriptor of the second one as the only failure. *)
Lemma orchestrator_isolates_failures_witness :
  exists outcomes w',
    loop_run env_timeout_for_asha [kaushal; asha; ravi]
             (add_events (announcement [kaushal; asha; ravi] 14)
                (snd (find_new_joiners_data_engineers env_timeout_for_asha 14
                        three_joiners_world)))
             outcomes w'
    /\ run_onboarding_for_new_joiners env_timeout_for_asha 14 three_joiners_world
       = (Ok (mkRunResult 3 (count_completed outcomes)
                          (descriptors [kaushal; asha; ravi] outcomes) None), w')
    /\ length outcomes = 3%nat
    /\ (forall (i : nat) emp,
          [kaushal; asha; ravi] !! i = Some emp ->
          employee (deref w' (0 + i)%nat) = Some emp)
    /\ (forall r : ref,
          (r < 0)%nat -> w_heap w' !! r = w_heap three_joiners_world !! r)
    /\ w_employees w' = w_employees three_joiners_world.
Proof.
  apply (orchestrator_isolates_failures env_timeout_for_asha 14
           three_joiners_world
           (snd (find_new_joiners_data_engineers env_timeout_for_asha 14
                   three_joiners_world))
           [kaushal; asha; ravi]).
  - unfold well_behaved, env_timeout_for_asha. simpl. repeat split; auto.
    intros h u m. destruct (String.eqb (msg_to m) "asha.patel@example.com");
      simpl; auto.
  - vm_compute. reflexivity.
  - discriminate.
Defined.

Example per_employee_isolation :
  fst (run_onboarding_for_new_joiners env_timeout_for_asha 14 three_joiners_world)
  = Ok (mkRunResult 3 2
          ["asha.patel@example.com: The read operation timed out"] None)
  /\ List.map (fun s => (option_map emp_email (employee s),
                         length (logs_of s),
                         option_map emp_email (mentor s)))
              (w_heap (snd (run_onboarding_for_new_joiners env_timeout_for_asha
                              14 three_joiners_world)))
     = [(Some "kaushal.vachhani@example.com", 5%nat,
         Some "neeraj.singh@example.com");
        (Some "asha.patel@example.com", 1%nat, None);
        (Some "ravi.kumar@example.com", 5%nat, Some "sneha.rao@example.com")].
Proof. vm_compute. split; reflexivity. Qed.

(** The same three new joiners when Gmail refuses every message with an
    [HttpError] and Asana every task with an [ApiException]: the adapters
    return [None], every chain completes and nothing is reported. *)
Example refused_deliveries_are_not_reported :
  fst (run_onboarding_for_new_joiners env_refusing 14 three_joiners_world)
  = Ok (mkRunResult 3 3 [] None)
  /\ List.map (fun s => (email_result s, asana_task s, length (logs_of s)))
              (w_heap (snd (run_onboarding_for_new_joiners env_refusing 14
                              three_joiners_world)))
     = [(Some None, Some None, 5%nat);
        (Some None, Some None, 5%nat);
        (Some None, Some None, 5%nat)].
Proof. vm_compute. split; reflexivity. Qed.

(** * Further properties of the program *)

(** ** The seeded store *)

(** X1. [bootstrap_dummy_db] resets the store: on a day [today] from which
    900 days can be subtracted, it returns, and whatever the table held
    before, it now holds exactly the five seed rows, numbered 1 to 5, with
    join dates today, today - 100, today - 400, today - 900 and today - 7.
    The guard [count == 0] never prevents the insertion, since the table was
    dropped just before; the statements sent are DROP, CREATE, SELECT
    COUNT and INSERT, and the dictionaries of the heap are untouched. *)
Theorem bootstrap_resets_the_store (env : Env) (w : World) :
  let today := today_in env w in
  valid_date today = true ->
  valid_date (today - 900) = true ->
  bootstrap_dummy_db env w
  = (Ok tt,
     mkWorld (seeded_table today) (w_heap w)
             (w_trace w ++ bootstrap_statements today) (S (w_ticks w)))
  /\ List.map emp_id (seeded_table today) = [1; 2; 3; 4; 5]
  /\ List.map emp_date_joined (seeded_table today)
     = [today; today - 100; today - 400; today - 900; today - 7].
Proof.
  intros today Ht H900. split.
  - apply bootstrap_dummy_db_eq; assumption.
  - split; reflexivity.
Qed.

(** The store of three new joiners is replaced by the seed rows. *)
Lemma bootstrap_resets_the_store_witness :
  bootstrap_dummy_db env_ok three_joiners_world
  = (Ok tt,
     mkWorld (seeded_table 739923) [] (bootstrap_statements 739923) 1)
  /\ List.map emp_id (seeded_table 739923) = [1; 2; 3; 4; 5]
  /\ List.map emp_date_joined (seeded_table 739923)
     = [739923; 739823; 739523; 739023; 739916].
Proof.
  apply (bootstrap_resets_the_store env_ok three_joiners_world); reflexivity.
Defined.

(** X2. The seeded store over time. When the store holds the rows seeded
    on some day and the eligibility query runs [days_since] days later with
    the window [joined_since_days], it returns the junior Data Engineer who
    joined on the day of the seeding exactly when [days_since] is within the
    window, followed by the one who joined 100 days before exactly when
    [days_since + 100] is; it never returns the two seniors nor the junior
    Backend Engineer. With the default window of 14 days the seeded store
    yields one new joiner for two weeks and none afterwards. *)
Theorem seeded_store_new_joiners (env : Env) (w : World) (seeded_on : date)
    (joined_since_days : Z) :
  let days_since := today_in env w - seeded_on in
  w_employees w = seeded_table seeded_on ->
  Z.abs joined_since_days <= 999999999 ->
  valid_date (today_in env w - joined_since_days) = true ->
  exists rows,
    fst (find_new_joiners_data_engineers env joined_since_days w) = Ok rows
    /\ List.map emp_name rows
       = (if days_since <=? joined_since_days then ["Kaushal Vachhani"] else [])
         ++ (if days_since + 100 <=? joined_since_days then ["Asha Patel"]
             else []).
Proof.
  intros days_since Htable Hdays Hvalid.
  rewrite find_new_joiners_data_engineers_eq. cbv zeta.
  rewrite Z.abs_opp. apply Z.leb_le in Hdays. rewrite Hdays, Hvalid.
  eexists. split; [reflexivity |].
  rewrite Htable, seeded_table_rows.
  unfold where_new_joiner, is_data_engineer, is_junior. simpl.
  rewrite ?andb_true_r, ?andb_false_r.
  subst days_since.
  destruct (Z.leb_spec (today_in env w - joined_since_days) seeded_on);
    destruct (Z.leb_spec (today_in env w - joined_since_days) (seeded_on - 100));
    destruct (Z.leb_spec (today_in env w - seeded_on) joined_since_days);
    destruct (Z.leb_spec (today_in env w - seeded_on + 100) joined_since_days);
    simpl; try reflexivity; lia.
Qed.

(** The store seeded on 2026-11-03, queried the same day, a fortnight later
    and the day after that, with the default window. *)
Lemma seeded_store_new_joiners_witness :
  (exists rows,
     fst (find_new_joiners_data_engineers env_ok 14 seeded_world) = Ok rows
     /\ List.map emp_name rows = ["Kaushal Vachhani"] ++ [])
  /\ List.map emp_name
       (value_or_nil
          (fst (find_new_joiners_data_engineers
                  (env_days_later 14) 14 seeded_world)))
     = ["Kaushal Vachhani"]
  /\ List.map emp_name
       (value_or_nil
          (fst (find_new_joiners_data_engineers
                  (env_days_later 15) 14 seeded_world)))
     = [].
Proof.
  split; [| split; reflexivity].
  apply (seeded_store_new_joiners env_ok seeded_world 739923 14).
  - reflexivity.
  - vm_compute. discriminate.
  - reflexivity.
Defined.

(** X3. The seeded store never lacks a mentor. Whatever the preferred
    location, the mentor selector finds a senior on the seeded table: the
    senior of Bengaluru for an employee located in Bengaluru, and for
    every other location (Pune or a location without any senior) the senior
    of Pune, who joined 900 days before the seeding and is therefore the
    earliest of the two. *)
Theorem seeded_store_always_has_a_mentor (env : Env) (w : World)
    (seeded_on : date) (preferred_location : string) :
  w_employees w = seeded_table seeded_on ->
  exists m,
    fst (find_senior_mentor env preferred_location w) = Ok (Some m)
    /\ In m (seeded_table seeded_on)
    /\ emp_level m = "senior"
    /\ emp_name m = (if String.eqb preferred_location "Bengaluru"
                     then "Neeraj Singh" else "Sneha Rao").
Proof.
  intros Htable. rewrite find_senior_mentor_eq. cbn [fst].
  rewrite Htable, seeded_table_rows.
  unfold select_mentor, senior_at, senior_any, where_senior_at, where_senior,
    is_data_engineer, is_senior.
  cbn [List.filter emp_role emp_level emp_location].
  rewrite (String.eqb_sym preferred_location).
  destruct (String.eqb_spec "Bengaluru" preferred_location) as [Hb | Hb];
    destruct (String.eqb_spec "Pune" preferred_location) as [Hp | Hp];
    [rewrite <- Hb in Hp; discriminate Hp | | |];
    cbn [andb List.filter String.eqb Ascii.eqb Bool.eqb order_by_date_joined
         fold_right head insert_by_date emp_date_joined emp_role emp_level].
  - eexists. split; [reflexivity |]. cbn. auto 10.
  - eexists. split; [reflexivity |]. cbn. auto 10.
  - replace (seeded_on - 400 <? seeded_on - 900) with false
      by (symmetry; apply Z.ltb_ge; lia).
    replace (seeded_on - 400 =? seeded_on - 900) with false
      by (symmetry; apply Z.eqb_neq; lia).
    cbn [orb andb head]. eexists. split; [reflexivity |]. cbn. auto 10.
Qed.

(** On the store seeded on 2026-11-03, an employee of Mumbai is given the
    senior of Pune. *)
Lemma seeded_store_always_has_a_mentor_witness :
  exists m,
    fst (find_senior_mentor env_ok "Mumbai" seeded_world) = Ok (Some m)
    /\ In m (seeded_table 739923)
    /\ emp_level m = "senior"
    /\ emp_name m = "Sneha Rao".
Proof.
  apply (seeded_store_always_has_a_mentor env_ok seeded_world 739923 "Mumbai").
  reflexivity.
Defined.

(** ** The eligibility window *)

(** X4. The eligibility window has a lower bound only. Asked on the same
    day with two windows, the query with the wider window returns every row
    the narrower one returns, in the same order; and a junior Data Engineer
    whose join date is today or lies in the future is returned for every
    window of 0 days or more, since the query compares the join date with
    the cutoff and not with today. *)
Theorem eligibility_window_is_open_ended (env : Env) (w : World)
    (narrow wide : Z) (rows1 rows2 : list Employee) (w1 w2 : World) :
  narrow <= wide ->
  find_new_joiners_data_engineers env narrow w = (Ok rows1, w1) ->
  find_new_joiners_data_engineers env wide w = (Ok rows2, w2) ->
  sublist rows1 rows2
  /\ (forall e,
        In e (w_employees w) ->
        emp_role e = "Data Engineer" ->
        emp_level e = "junior" ->
        today_in env w <= emp_date_joined e ->
        0 <= narrow ->
        In e rows1).
Proof.
  intros Hle H1 H2.
  apply find_new_joiners_data_engineers_Ok in H1 as (_ & _ & -> & _).
  apply find_new_joiners_data_engineers_Ok in H2 as (_ & _ & -> & _).
  split.
  - apply filter_sublist. intros e He.
    apply where_new_joiner_true in He as (Hr & Hl & Hd).
    apply where_new_joiner_true. repeat split; auto. lia.
  - intros e Hin Hr Hl Hd Hn. apply filter_In. split; [exact Hin |].
    apply where_new_joiner_true. repeat split; auto. lia.
Qed.

(** On the store of three new joiners, the window of 5 days finds two of
    them and the window of 14 days all three. *)
Lemma eligibility_window_is_open_ended_witness :
  sublist [kaushal; asha] [kaushal; asha; ravi]
  /\ (forall e,
        In e (w_employees three_joiners_world) ->
        emp_role e = "Data Engineer" ->
        emp_level e = "junior" ->
        today_in env_ok three_joiners_world <= emp_date_joined e ->
        0 <= 5 ->
        In e [kaushal; asha]).
Proof.
  apply (eligibility_window_is_open_ended env_ok three_joiners_world 5 14
           [kaushal; asha] [kaushal; asha; ravi]
           (snd (find_new_joiners_data_engineers env_ok 5 three_joiners_world))
           (snd (find_new_joiners_data_engineers env_ok 14 three_joiners_world))).
  - lia.
  - reflexivity.
  - reflexivity.
Defined.

(** ** The adapters *)

(** X5. The outcomes of [send_gmail]. The Gmail client is asked for first,
    and when that fails the exception leaves [send_gmail] and no message is
    sent. The message is then built: when the [email] package refuses to
    encode it, which it never does when the sender, the recipient and the
    subject are made of printable ASCII characters, its exception leaves
    [send_gmail] and no message is sent either. Otherwise exactly one
    message is sent, on behalf of the sender, addressed to the recipient,
    with the subject and the body as given; the result is the receipt of
    Gmail, [None] exactly when Gmail refused the message with an
    [HttpError], and an exception of any other class leaves [send_gmail].
    The store and the heap are never touched. *)
Theorem send_gmail_outcomes (env : Env) (sender_email recipient_email subject
    body : string) (w : World) :
  let message := mkGmailMessage recipient_email sender_email subject body in
  let answer :=
    env_gmail_send env (w_trace w ++ [EvGmailService]) sender_email message in
  let asked := add_events [EvGmailService] w in
  let sent := add_events [EvGmailService; EvGmailSend sender_email message] w in
  match send_gmail env sender_email recipient_email subject body w with
  | (Ok (Some receipt), w') =>
      env_gmail_service env (w_trace w) = Ok tt
      /\ email_error env message = None
      /\ answer = Ok receipt
      /\ w' = sent
  | (Ok None, w') =>
      env_gmail_service env (w_trace w) = Ok tt
      /\ email_error env message = None
      /\ (exists e, answer = Raise e /\ exc_class e = HttpError)
      /\ w' = sent
  | (Raise e, w') =>
      (env_gmail_service env (w_trace w) = Raise e /\ w' = asked)
      \/ (env_gmail_service env (w_trace w) = Ok tt
          /\ email_error env message = Some e
          /\ w' = asked)
      \/ (env_gmail_service env (w_trace w) = Ok tt
          /\ email_error env message = None
          /\ answer = Raise e
          /\ exc_class e <> HttpError
          /\ w' = sent)
  end
  /\ (plain_header sender_email = true ->
      plain_header recipient_email = true ->
      plain_header subject = true ->
      email_error env message = None).
Proof.
  cbv zeta. split.
  - rewrite send_gmail_eq. cbv zeta.
    destruct (env_gmail_service env (w_trace w)) as [[] | e] eqn:Hs.
    + destruct (email_error env _) as [e |] eqn:Hmime.
      * right. left. auto.
      * rewrite send_message_eq. cbv zeta. cbn [add_events w_trace].
        destruct (env_gmail_send env (w_trace w ++ [EvGmailService]) sender_email
                    (mkGmailMessage recipient_email sender_email subject body))
          as [receipt | e] eqn:Ha; cbn [escapes value_of].
        -- rewrite add_events_app. auto.
        -- destruct (is_HttpError (exc_class e)) eqn:Hc; rewrite add_events_app.
           ++ split; [reflexivity |]. split; [reflexivity |].
              split; [| reflexivity].
              exists e. split; [reflexivity |].
              destruct (exc_class e); try discriminate Hc; reflexivity.
           ++ right. right. repeat split; auto.
              intros Hh. rewrite Hh in Hc. discriminate Hc.
    + left. split; reflexivity.
  - intros Hsender Hrecipient Hsubject. unfold email_error, plain_headers.
    cbn [msg_to msg_from msg_subject].
    rewrite Hsender, Hrecipient, Hsubject. reflexivity.
Qed.

(** A subject that holds a line feed, with an [email] package that refuses
    such a header: the client is asked for and nothing is sent. *)
Example send_gmail_refused_header :
  send_gmail env_ok "me" "eve@example.com" "Welcome
Bcc: all@example.com" "<p>Welcome</p>" seeded_world
  = (Raise (mkExc (OtherException "HeaderParseError")
              "header value appears to contain an embedded header"),
     add_events [EvGmailService] seeded_world).
Proof. vm_compute. reflexivity. Qed.

(** X6. The outcomes of [schedule_calendar_event]. The request never asks
    for the default reminders of the calendar and always lists at least one
    reminder of its own: the reminders it was given, or, when it was given
    none, an email one day before and a popup 30 minutes before. The
    Calendar client is asked for first, and when that fails no event is
    requested. Otherwise exactly one event is requested, on the primary
    calendar, with a Google Meet conference; the result is the event
    created, [None] exactly when Calendar refused with an [HttpError], and
    an exception of any other class leaves the function. *)
Theorem schedule_calendar_event_outcomes (env : Env) (summary location
    description start_time_str end_time_str : string)
    (attendees_emails : list string) (timezone : string)
    (reminders : list Reminder) (conference_request_id : string) (w : World) :
  let overrides :=
    match reminders with
    | [] => [mkReminder "email" 1440; mkReminder "popup" 30]
    | _ => reminders
    end in
  let request :=
    mkEventDetails summary location description
      (mkEventTime start_time_str timezone) (mkEventTime end_time_str timezone)
      attendees_emails false overrides conference_request_id "hangoutsMeet" in
  let answer :=
    env_calendar_insert env (w_trace w ++ [EvCalendarService]) request in
  let asked :=
    add_events [EvCalendarService; EvCalendarInsert "primary" request] w in
  overrides <> []
  /\ match schedule_calendar_event env summary location description
             start_time_str end_time_str attendees_emails timezone reminders
             conference_request_id w with
     | (Ok (Some event), w') =>
         env_calendar_service env (w_trace w) = Ok tt
         /\ answer = Ok event
         /\ w' = asked
     | (Ok None, w') =>
         env_calendar_service env (w_trace w) = Ok tt
         /\ (exists e, answer = Raise e /\ exc_class e = HttpError)
         /\ w' = asked
     | (Raise e, w') =>
         (env_calendar_service env (w_trace w) = Raise e
          /\ w' = add_events [EvCalendarService] w)
         \/ (env_calendar_service env (w_trace w) = Ok tt
             /\ answer = Raise e
             /\ exc_class e <> HttpError
             /\ w' = asked)
     end.
Proof.
  cbv zeta. split; [destruct reminders; discriminate |].
  rewrite schedule_calendar_event_eq. cbv zeta.
  change default_reminders
    with [mkReminder "email" 1440; mkReminder "popup" 30].
  destruct (env_calendar_service env (w_trace w)) as [[] | e] eqn:Hs.
  - destruct (env_calendar_insert env (w_trace w ++ [EvCalendarService]) _)
      as [event | e] eqn:Ha; cbn [escapes value_of].
    + auto.
    + destruct (is_HttpError (exc_class e)) eqn:Hc.
      * split; [reflexivity |]. split; [| reflexivity].
        exists e. split; [reflexivity |].
        destruct (exc_class e); try discriminate Hc; reflexivity.
      * right. repeat split; auto. intros Hh. rewrite Hh in Hc. discriminate Hc.
  - left. split; reflexivity.
Qed.

(** X7. The answer to the invitation has no influence on the task. Take
    two outsides that answer alike when a task is created. Whether Asana
    accepts the invitation to the workspace or refuses it with an
    [ApiException], in the one and in the other, [create_onboarding_tasks]
    makes the same two calls, the invitation and then the creation of the
    task, and returns the same result: a refused invitation is neither
    reported nor retried. *)
Theorem invitation_outcome_is_ignored (env env' : Env) (workspace_gid
    project_gid new_member_email task_name : string) (w : World) :
  (forall h body, env_asana_create_task env h body
                  = env_asana_create_task env' h body) ->
  escapes is_ApiException
    (env_asana_add_user env (w_trace w) workspace_gid new_member_email) = None ->
  escapes is_ApiException
    (env_asana_add_user env' (w_trace w) workspace_gid new_member_email) = None ->
  create_onboarding_tasks env workspace_gid project_gid new_member_email
                          task_name w
  = create_onboarding_tasks env' workspace_gid project_gid new_member_email
                            task_name w
  /\ w_trace (snd (create_onboarding_tasks env workspace_gid project_gid
                     new_member_email task_name w))
     = w_trace w
       ++ [EvAsanaAddUser workspace_gid new_member_email;
           EvAsanaCreateTask (mkTaskBody task_name new_member_email
                                         workspace_gid [project_gid])].
Proof.
  intros Hsame Hinv Hinv'.
  rewrite !create_onboarding_tasks_eq. cbv zeta. rewrite Hinv, Hinv'.
  rewrite !create_task_eq. cbv zeta. rewrite Hsame, !add_events_app.
  split; [reflexivity |].
  destruct (escapes is_ApiException (env_asana_create_task env' _ _));
    reflexivity.
Qed.

(** The invitation accepted and the invitation refused: the same task. *)
Lemma invitation_outcome_is_ignored_witness :
  create_onboarding_tasks env_ok "1200000000000001" "1200000000000002"
    "kaushal.vachhani@example.com" "Onboarding" seeded_world
  = create_onboarding_tasks env_invite_refused "1200000000000001"
      "1200000000000002" "kaushal.vachhani@example.com" "Onboarding"
      seeded_world
  /\ w_trace (snd (create_onboarding_tasks env_ok "1200000000000001"
                     "1200000000000002" "kaushal.vachhani@example.com"
                     "Onboarding" seeded_world))
     = w_trace seeded_world
       ++ [EvAsanaAddUser "1200000000000001" "kaushal.vachhani@example.com";
           EvAsanaCreateTask
             (mkTaskBody "Onboarding" "kaushal.vachhani@example.com"
                         "1200000000000001" ["1200000000000002"])].
Proof.
  apply (invitation_outcome_is_ignored env_ok env_invite_refused).
  - reflexivity.
  - reflexivity.
  - reflexivity.
Defined.

(** ** The steps and their state *)

(** X8. The welcome email. [generate_welcome_email_content] makes one
    call, to the text generator, with the name, role, team, start date and
    location of the employee; the manager address it passes is never empty:
    it is the employee's manager when there is one, and "hr@company.com"
    when the record has none or an empty one. What it returns is the
    generated text without the white space around it: the generated text is
    the returned body between two runs of white space, and the body neither
    starts nor ends with a white-space character. White space is what
    [str.strip] takes for it: the ASCII blanks and controls, and the
    no-break space, the next-line control and the spaces and separators of
    the other planes of Unicode as well. An exception of the generator
    leaves the function as it is. *)
Theorem welcome_email_is_trimmed (env : Env) (emp : Employee) (w : World) :
  let fields := welcome_fields emp in
  let w1 := add_events [EvLlmInvoke fields] w in
  f_manager_email fields <> ""
  /\ (forall m, emp_manager_email emp = Some m -> m <> "" ->
                f_manager_email fields = m)
  /\ match generate_welcome_email_content env emp w with
     | (Ok body, w') =>
         w' = w1
         /\ starts_with_space body = false
         /\ ends_with_space body = false
         /\ exists generated l r,
              env_llm env (w_trace w) fields = Ok generated
              /\ generated = l +:+ body +:+ r
              /\ all_space l = true
              /\ all_space r = true
     | (Raise e, w') =>
         w' = w1 /\ env_llm env (w_trace w) fields = Raise e
     end.
Proof.
  cbv zeta. split; [| split].
  - unfold welcome_fields, or_str. cbn [f_manager_email].
    destruct (emp_manager_email emp) as [m |]; [| discriminate].
    destruct (String.eqb_spec m ""); [discriminate | assumption].
  - intros m Hm Hne. unfold welcome_fields, or_str. cbn [f_manager_email].
    rewrite Hm. destruct (String.eqb_spec m ""); [contradiction | reflexivity].
  - unfold generate_welcome_email_content, bind, call, ret.
    fold (welcome_fields emp).
    destruct (env_llm env (w_trace w) (welcome_fields emp))
      as [generated | e] eqn:Hg.
    + destruct (strip_spec generated) as (l & r & Hs & Hl & Hr & Hstart & Hend).
      split; [reflexivity |]. split; [exact Hstart |]. split; [exact Hend |].
      exists generated, l, r. auto.
    + split; reflexivity.
Qed.

(** X9. What the steps need. A step given a state without the key it reads
    raises [KeyError] naming that key and does nothing else: no call to the
    outside, no reading of the clock, no change of the state. Every step
    needs [employee]; the deliver-message step needs [email_body] as well,
    which the draft-message step writes, and the schedule-meeting step needs
    [mentor], which the select-mentor step writes. *)
Theorem steps_need_their_inputs (env : Env) (state : ref) (w : World) :
  (employee (deref w state) = None ->
   forall step,
     In step (pipeline_steps env) ->
     step state w = (Raise (mkExc KeyError "'employee'"), w))
  /\ (employee (deref w state) <> None ->
      email_body (deref w state) = None ->
      node_send_email env state w = (Raise (mkExc KeyError "'email_body'"), w))
  /\ (employee (deref w state) <> None ->
      mentor (deref w state) = None ->
      node_schedule_intro_call env state w
      = (Raise (mkExc KeyError "'mentor'"), w)).
Proof.
  split; [| split].
  - intros He step Hin. simpl in Hin.
    destruct Hin as [<- | [<- | [<- | [<- | [<- | []]]]]].
    + unfold node_generate_email. apply getitem_employee_None. exact He.
    + unfold node_send_email. apply getitem_employee_None. exact He.
    + unfold node_asana_task. apply getitem_employee_None. exact He.
    + unfold node_find_mentor. apply getitem_employee_None. exact He.
    + unfold node_schedule_intro_call. apply getitem_employee_None. exact He.
  - intros He Hb. destruct (employee (deref w state)) as [emp |] eqn:Hemp;
      [| contradiction].
    unfold node_send_email. rewrite (getitem_employee_Some _ _ _ _ Hemp).
    cbv zeta. unfold bind at 1, getitem at 1. rewrite Hb. reflexivity.
  - intros He Hm. destruct (employee (deref w state)) as [emp |] eqn:Hemp;
      [| contradiction].
    apply (node_schedule_intro_call_no_mentor env state w emp Hemp Hm).
Qed.

(** A new dictionary holds the employee and an empty log only: the
    deliver-message and the schedule-meeting steps cannot come first. *)
Example steps_need_their_inputs_fresh :
  let w := with_state (fresh_state kaushal) seeded_world in
  node_send_email env_ok 0%nat w = (Raise (mkExc KeyError "'email_body'"), w)
  /\ node_schedule_intro_call env_ok 0%nat w
     = (Raise (mkExc KeyError "'mentor'"), w)
  /\ node_find_mentor env_ok 1%nat w = (Raise (mkExc KeyError "'employee'"), w).
Proof. vm_compute. repeat split; reflexivity. Qed.

(** X10. The state records how far the chain got. Starting from the
    dictionary the orchestrator builds for an employee, once the first [k]
    of the five steps have returned, the state holds the results of these
    [k] steps and of no other, its log has exactly [k] lines and its
    employee is unchanged; this holds as well when a result is [None]
    because an adapter swallowed an API error. Since a step that raises
    leaves the state as it was, the state of a failed chain tells which step
    failed. *)
Theorem state_records_progress (env : Env) (emp : Employee) (state : ref)
    (w : World) (k : nat) (r : ref) (w' : World) :
  deref w state = fresh_state emp ->
  (k <= 5)%nat ->
  run_steps (take k (pipeline_steps env)) state w = (Ok r, w') ->
  progress k (deref w' state) /\ employee (deref w' state) = Some emp.
Proof.
  intros Hfresh Hk Hrun. unfold pipeline_steps in Hrun.
  destruct k as [| [| [| [| [| [| k]]]]]]; [| | | | | | lia];
    cbn [take firstn run_steps] in Hrun.
  - injection Hrun as _ <-. rewrite Hfresh. unfold progress.
    cbn. repeat split; settle.
  - after_step Hrun node_generate_email_Ok.
    injection Hrun as _ <-. rewrite H, Hfresh. unfold progress.
    cbn. repeat split; settle.
  - after_step Hrun node_generate_email_Ok.
    after_step Hrun node_send_email_Ok.
    injection Hrun as _ <-. rewrite H0, H, Hfresh. unfold progress.
    cbn. repeat split; settle.
  - after_step Hrun node_generate_email_Ok.
    after_step Hrun node_send_email_Ok.
    after_step Hrun node_asana_task_Ok.
    injection Hrun as _ <-. rewrite H1, H0, H, Hfresh. unfold progress.
    cbn. repeat split; settle.
  - after_step Hrun node_generate_email_Ok.
    after_step Hrun node_send_email_Ok.
    after_step Hrun node_asana_task_Ok.
    after_step Hrun node_find_mentor_Ok.
    injection Hrun as _ <-. rewrite H2, H1, H0, H, Hfresh. unfold progress.
    cbn. repeat split; settle.
  - after_step Hrun node_generate_email_Ok.
    after_step Hrun node_send_email_Ok.
    after_step Hrun node_asana_task_Ok.
    after_step Hrun node_find_mentor_Ok.
    after_step Hrun node_schedule_intro_call_Ok.
    injection Hrun as _ <-. rewrite H3, H2, H1, H0, H, Hfresh. unfold progress.
    cbn. repeat split; settle.
Qed.

(** Three steps on the new joiner of the seeded store, Gmail and Asana
    refusing: the three results are present (two of them are [None]), the
    mentor and the meeting are not, and the log has three lines. *)
Lemma state_records_progress_witness :
  let w := with_state (fresh_state kaushal) seeded_world in
  let w' := snd (run_steps (take 3 (pipeline_steps env_refusing)) 0%nat w) in
  progress 3 (deref w' 0%nat) /\ employee (deref w' 0%nat) = Some kaushal.
Proof.
  cbv zeta.
  apply (state_records_progress env_refusing kaushal 0%nat
           (with_state (fresh_state kaushal) seeded_world) 3 0%nat).
  - reflexivity.
  - lia.
  - vm_compute. reflexivity.
Defined.

(** X11. The conference request token identifies the employee. For
    meetings on the same day, the tokens of two requests are equal exactly
    when the identifiers of the two employees are: two new joiners of the
    same run never share a token, and the token of an employee does not
    depend on the mentor, so that a second run on the same day asks for the
    same conference even when another mentor was selected. *)
Theorem request_token_identifies_the_employee (emp1 mentor1 emp2 mentor2
    : Employee) (next_week : date) :
  ev_requestId (intro_call_event emp1 mentor1 next_week)
  = ev_requestId (intro_call_event emp2 mentor2 next_week)
  <-> emp_id emp1 = emp_id emp2.
Proof.
  cbn [intro_call_event ev_requestId]. split.
  - intros H. apply (inj (String.append "mentor-")) in H.
    apply append_inv_tail in H. unfold str_int in H.
    apply (inj pretty) in H. exact H.
  - intros ->. reflexivity.
Qed.

(** The tokens the seeded run would carry for two employees on 2026-11-10. *)
Example request_tokens :
  ev_requestId (intro_call_event kaushal neeraj 739930) = "mentor-1-2026-11-10"
  /\ ev_requestId (intro_call_event kaushal sneha 739930) = "mentor-1-2026-11-10"
  /\ ev_requestId (intro_call_event asha sneha 739930) = "mentor-2-2026-11-10".
Proof. vm_compute. repeat split; reflexivity. Qed.

(** X12. The state holds what the outside answered. When the chain of an
    employee completes, the message that was delivered carries the text the
    generator returned for that employee, trimmed of the white space
    [str.strip] removes, and the [email] package accepted its headers; the
    state holds, under [email_result], [asana_task] and [calendar_event],
    the very answers of Gmail, Asana and Calendar to the requests of this
    chain ([None] for a refusal the adapter caught), and under [mentor] the
    row the mentor selector returned when it was asked; every answer is the
    one given after the calls that precede it in the chain. *)
Theorem state_holds_the_answers (env : Env) (state : ref) (w : World)
    (r : ref) (w' : World) :
  invoke (build_employee_graph env) state w = (Ok r, w') ->
  exists emp generated m,
    employee (deref w state) = Some emp
    /\ env_llm env (w_trace w) (welcome_fields emp) = Ok generated
    /\ let body := strip generated in
       let message := welcome_message emp body in
       let request := intro_call_event emp m (date_at env (4 + w_ticks w) + 7) in
       let h1 := w_trace w ++ [EvLlmInvoke (welcome_fields emp); EvGmailService] in
       let h2 := h1 ++ [EvGmailSend "me" message; workspace_invite env emp] in
       let h3 := h2 ++ [EvAsanaCreateTask (onboarding_task env emp)] in
       let h4 := h3 ++ mentor_queries (emp_location emp) (w_employees w)
                    ++ [EvCalendarService] in
       email_error env message = None
       /\ select_mentor env h3 (emp_location emp) (w_employees w) = Some m
       /\ email_body (deref w' state) = Some body
       /\ email_result (deref w' state)
          = Some (value_of (env_gmail_send env h1 "me" message))
       /\ asana_task (deref w' state)
          = Some (value_of (env_asana_create_task env h2 (onboarding_task env emp)))
       /\ mentor (deref w' state) = Some m
       /\ calendar_event (deref w' state)
          = Some (value_of (env_calendar_insert env h4 request))
       /\ w_trace w' = h4 ++ [EvCalendarInsert "primary" request].
Proof.
  intros H. rewrite invoke_build_employee_graph in H.
  unfold pipeline_steps in H. cbn [run_steps] in H.
  apply bind_Ok_inv in H as (s1 & w1 & H1 & H).
  apply bind_Ok_inv in H as (s2 & w2 & H2 & H).
  apply bind_Ok_inv in H as (s3 & w3 & H3 & H).
  apply bind_Ok_inv in H as (s4 & w4 & H4 & H).
  apply bind_Ok_inv in H as (s5 & w5 & H5 & H).
  injection H as <- <-.
  apply node_generate_email_Ok in H1 as (emp & generated & He & Hllm & -> & R1).
  pose proof (step_result_deref _ _ _ _ _ _ R1) as D1.
  apply node_send_email_Ok in H2
    as (emp2 & body2 & res & He2 & Hb2 & _ & Hmime & _ & Hres & -> & R2).
  rewrite D1 in He2, Hb2, R2. simpl in He2, Hb2.
  assert (emp2 = emp) as -> by congruence. injection Hb2 as <-.
  pose proof (step_result_deref _ _ _ _ _ _ R2) as D2.
  apply node_asana_task_Ok in H3 as (emp3 & task & He3 & Htask & -> & R3).
  rewrite D2 in He3, R3. simpl in He3.
  assert (emp3 = emp) as -> by congruence.
  pose proof (step_result_deref _ _ _ _ _ _ R3) as D3.
  apply node_find_mentor_Ok in H4 as (emp4 & m & He4 & Hsel & -> & R4).
  rewrite D3 in He4, R4. simpl in He4.
  assert (emp4 = emp) as -> by congruence.
  pose proof (step_result_deref _ _ _ _ _ _ R4) as D4.
  apply node_schedule_intro_call_Ok in H5
    as (emp5 & m5 & event & He5 & Hm5 & _ & Hevent & -> & _ & R5).
  rewrite D4 in He5, Hm5, R5. simpl in He5, Hm5.
  assert (emp5 = emp) as -> by congruence. injection Hm5 as <-.
  pose proof (step_result_deref _ _ _ _ _ _ R5) as D5.
  destruct R1 as (_ & E1 & _ & T1 & K1).
  destruct R2 as (_ & E2 & _ & T2 & K2).
  destruct R3 as (_ & E3 & _ & T3 & K3).
  destruct R4 as (_ & E4 & _ & T4 & K4).
  destruct R5 as (_ & _ & _ & T5 & _).
  rewrite E3, E2, E1 in *.
  unfold today_in in *. rewrite K4 in *. rewrite K3, K2, K1 in *.
  rewrite T1 in *. rewrite T2 in *. rewrite T3 in *. rewrite T4 in *.
  rewrite <- !app_assoc in *. cbn [app] in *.
  exists emp, generated, m. split; [exact He |]. split; [exact Hllm |].
  cbv zeta.
  rewrite D5. unfold stored. cbn [email_body email_result asana_task mentor
                                  calendar_event set_logs set_calendar_event
                                  set_mentor set_asana_task set_email_result
                                  set_email_body].
  rewrite Hres, Htask, Hevent, T5.
  rewrite <- ?app_assoc. cbn [app]. rewrite <- ?app_assoc. cbn [app].
  repeat split; first [reflexivity | assumption].
Qed.

(** The completed chain of the new joiner of the seeded store. *)
Lemma state_holds_the_answers_witness :
  let w := with_state (fresh_state kaushal) seeded_world in
  let w' := snd (invoke (build_employee_graph env_ok) 0%nat w) in
  exists emp generated m,
    employee (deref w 0%nat) = Some emp
    /\ env_llm env_ok (w_trace w) (welcome_fields emp) = Ok generated
    /\ let body := strip generated in
       let message := welcome_message emp body in
       let request :=
         intro_call_event emp m (date_at env_ok (4 + w_ticks w) + 7) in
       let h1 := w_trace w ++ [EvLlmInvoke (welcome_fields emp); EvGmailService] in
       let h2 := h1 ++ [EvGmailSend "me" message; workspace_invite env_ok emp] in
       let h3 := h2 ++ [EvAsanaCreateTask (onboarding_task env_ok emp)] in
       let h4 := h3 ++ mentor_queries (emp_location emp) (w_employees w)
                    ++ [EvCalendarService] in
       email_error env_ok message = None
       /\ select_mentor env_ok h3 (emp_location emp) (w_employees w) = Some m
       /\ email_body (deref w' 0%nat) = Some body
       /\ email_result (deref w' 0%nat)
          = Some (value_of (env_gmail_send env_ok h1 "me" message))
       /\ asana_task (deref w' 0%nat)
          = Some (value_of (env_asana_create_task env_ok h2
                              (onboarding_task env_ok emp)))
       /\ mentor (deref w' 0%nat) = Some m
       /\ calendar_event (deref w' 0%nat)
          = Some (value_of (env_calendar_insert env_ok h4 request))
       /\ w_trace w' = h4 ++ [EvCalendarInsert "primary" request].
Proof.
  cbv zeta.
  apply (state_holds_the_answers env_ok 0%nat
           (with_state (fresh_state kaushal) seeded_world) 0%nat).
  vm_compute. reflexivity.
Defined.

(** X13. A chain fails for three reasons only. With an outside without
    unexpected errors (the text generator and the Google clients answer;
    Gmail, Asana and Calendar answer or refuse with the error their adapter
    catches), the chain of an employee, started on the dictionary the
    orchestrator builds, can only fail: in the deliver-message step, because
    the [email] package refuses to encode the welcome message, which
    requires a character outside printable ASCII in the name or the address
    of the employee; in the select-mentor step, because the store has no
    senior Data Engineer at all; or in the schedule-meeting step, because
    the day one week ahead is beyond the last date of the calendar. The
    exception is then the one of the [email] package, the [RuntimeError]
    "No senior mentor available for <name>", respectively the
    [OverflowError] of the date arithmetic. No refusal of a collaborator
    fails a chain. *)
Theorem chain_fails_for_three_reasons_only (env : Env) (emp : Employee)
    (state : ref) (w : World) (e : PyExc) (w' : World) :
  no_unexpected_error env ->
  deref w state = fresh_state emp ->
  invoke (build_employee_graph env) state w = (Raise e, w') ->
  ((exists generated,
      env_llm env (w_trace w) (welcome_fields emp) = Ok generated
      /\ email_error env (welcome_message emp (strip generated)) = Some e)
   /\ plain_header (emp_email emp) && plain_header (emp_name emp) = false)
  \/ (e = mkExc RuntimeError ("No senior mentor available for " +:+ emp_name emp)
      /\ forall x, In x (w_employees w) ->
                   ~ (emp_role x = "Data Engineer" /\ emp_level x = "senior"))
  \/ (e = mkExc OverflowError "date value out of range"
      /\ (exists x, In x (w_employees w)
                    /\ emp_role x = "Data Engineer" /\ emp_level x = "senior")
      /\ valid_date (date_at env (4 + w_ticks w) + 7) = false).
Proof.
  intros Hhealthy Hfresh H.
  destruct (chain_raise_inv _ _ _ _ _ _ Hhealthy Hfresh H)
    as [(generated & Hgen & Hmime) | [[-> Hnone] | (-> & Hsome & Hdate)]].
  - left. split; [eauto |].
    rewrite <- (plain_headers_welcome_message emp (strip generated)).
    apply (email_error_not_plain _ _ _ Hmime).
  - right. left. split; [reflexivity |]. intros x Hin Hx.
    apply where_senior_true in Hx.
    assert (Hm : In x (List.filter where_senior (w_employees w)))
      by (apply filter_In; auto).
    rewrite Hnone in Hm. destruct Hm.
  - right. right. split; [reflexivity |]. split; [| exact Hdate].
    destruct (List.filter where_senior (w_employees w)) as [| x l] eqn:Hf;
      [contradiction |].
    assert (Hm : In x (List.filter where_senior (w_employees w)))
      by (rewrite Hf; left; reflexivity).
    apply filter_In in Hm as [Hin Hx]. apply where_senior_true in Hx.
    exists x. auto.
Qed.

(** A store without seniors: the chain of the new joiner fails in the
    select-mentor step. *)
Lemma chain_fails_for_three_reasons_only_witness :
  let e := mkExc RuntimeError "No senior mentor available for Kaushal Vachhani" in
  ((exists generated,
      env_llm env_ok (w_trace juniors_only_world) (welcome_fields kaushal)
      = Ok generated
      /\ email_error env_ok (welcome_message kaushal (strip generated)) = Some e)
   /\ plain_header (emp_email kaushal) && plain_header (emp_name kaushal) = false)
  \/ (e = mkExc RuntimeError ("No senior mentor available for " +:+ emp_name kaushal)
      /\ forall x, In x (w_employees juniors_only_world) ->
                   ~ (emp_role x = "Data Engineer" /\ emp_level x = "senior"))
  \/ (e = mkExc OverflowError "date value out of range"
      /\ (exists x, In x (w_employees juniors_only_world)
                    /\ emp_role x = "Data Engineer" /\ emp_level x = "senior")
      /\ valid_date (date_at env_ok (4 + 1) + 7) = false).
Proof.
  cbv zeta.
  apply (chain_fails_for_three_reasons_only env_ok kaushal 0%nat
           (with_state (fresh_state kaushal) juniors_only_world)
           (mkExc RuntimeError "No senior mentor available for Kaushal Vachhani")
           (snd (invoke (build_employee_graph env_ok) 0%nat
                   (with_state (fresh_state kaushal) juniors_only_world)))).
  - unfold no_unexpected_error, env_ok. cbn. repeat split; eauto.
  - reflexivity.
  - vm_compute. reflexivity.
Defined.

(** The three reasons at work: a name that holds a line feed, with an
    [email] package that refuses such a header; a store without seniors;
    and a run on the last days of the calendar. *)
Example chain_failures :
  fst (invoke (build_employee_graph env_ok) 0%nat
         (with_state (fresh_state eve) eve_world))
  = Raise (mkExc (OtherException "HeaderParseError")
             "header value appears to contain an embedded header")
  /\ fst (invoke (build_employee_graph env_ok) 0%nat
            (with_state (fresh_state kaushal) juniors_only_world))
     = Raise (mkExc RuntimeError
                "No senior mentor available for Kaushal Vachhani")
  /\ fst (invoke (build_employee_graph (env_days_later 2912130)) 0%nat
            (with_state (fresh_state kaushal) seeded_world))
     = Raise (mkExc OverflowError "date value out of range").
Proof. vm_compute. repeat split; reflexivity. Qed.

(** ** The orchestrator and the front end *)

(** X14. The pipeline never writes to the store. For every outside, every
    window and every outcome, exceptions included, a run of the
    orchestrator leaves the [employees] table as it found it, and every
    statement it sent to the store is one of the three queries: the
    eligibility query and the two queries of the mentor selector. *)
Theorem pipeline_never_writes_to_the_store (env : Env) (joined_since_days : Z)
    (w : World) :
  let w' := snd (run_onboarding_for_new_joiners env joined_since_days w) in
  w_employees w' = w_employees w
  /\ exists evs,
       w_trace w' = w_trace w ++ evs
       /\ forall stmt, In (EvSql stmt) evs -> is_pipeline_query stmt = true.
Proof.
  cbv zeta.
  destruct (confined_run_onboarding_for_new_joiners env joined_since_days w)
    as (He & evs & Ht & Ha).
  split; [exact He |]. exists evs. split; [exact Ht |].
  intros stmt Hin. rewrite forallb_forall in Ha. exact (Ha _ Hin).
Qed.

(** X15. The pipeline keeps no memory of whom it onboarded. Since a run
    leaves the store as it was, the eligibility query asked again after a
    run, on the same day and with the same window, gives what it gave
    before the run, whatever happened during the run: every employee
    onboarded by the first run is selected again, and would be sent the
    welcome message again. *)
Theorem rerun_selects_the_same_employees (env env' : Env)
    (joined_since_days : Z) (w : World) :
  let w' := snd (run_onboarding_for_new_joiners env joined_since_days w) in
  today_in env' w' = today_in env w ->
  fst (find_new_joiners_data_engineers env' joined_since_days w')
  = fst (find_new_joiners_data_engineers env joined_since_days w).
Proof.
  intros w' Htoday.
  destruct (confined_run_onboarding_for_new_joiners env joined_since_days w)
    as (Htable & _).
  fold w' in Htable.
  rewrite !find_new_joiners_data_engineers_eq. cbv zeta.
  rewrite Htoday, Htable.
  destruct (Z.abs (- joined_since_days) <=? 999999999);
    [destruct (valid_date (today_in env w - joined_since_days)) |];
    reflexivity.
Qed.

(** After the run on the seeded store, the same new joiner is eligible
    again. *)
Lemma rerun_selects_the_same_employees_witness :
  fst (find_new_joiners_data_engineers env_ok 14
         (snd (run_onboarding_for_new_joiners env_ok 14 seeded_world)))
  = fst (find_new_joiners_data_engineers env_ok 14 seeded_world).
Proof.
  apply (rerun_selects_the_same_employees env_ok env_ok 14 seeded_world).
  vm_compute. reflexivity.
Defined.

(** X16. The counts of the summary add up. Whenever the orchestrator
    returns its summary, the number of processed employees is the number of
    successes plus the length of the failures list, the number of successes
    is not negative, and the summary carries a message exactly when nobody
    was processed. *)
Theorem summary_counts_add_up (env : Env) (joined_since_days : Z)
    (w : World) (summary : RunResult) (w' : World) :
  run_onboarding_for_new_joiners env joined_since_days w = (Ok summary, w') ->
  processed summary
  = successes summary + Z.of_nat (length (failures summary))
  /\ 0 <= successes summary
  /\ (is_Some (message summary) <-> processed summary = 0).
Proof.
  intros H.
  destruct (find_new_joiners_data_engineers env joined_since_days w)
    as [[[| emp rest] | e] w0] eqn:Hq.
  - unfold run_onboarding_for_new_joiners in H.
    rewrite (bind_Ok _ _ _ _ _ Hq) in H. injection H as <- _.
    cbn. repeat split; eauto; lia.
  - rewrite (run_onboarding_for_new_joiners_eq _ _ _ _ _ _ Hq) in H.
    apply bind_Ok_inv in H as ([successes' failures'] & w1 & Hloop & H).
    injection H as <- _. apply for_each_joiner_counts in Hloop.
    cbn [processed successes failures message fst snd length] in *.
    repeat split; first [lia | intros [? Habs]; discriminate Habs].
  - unfold run_onboarding_for_new_joiners in H.
    rewrite (bind_Raise _ _ _ _ _ Hq) in H. discriminate H.
Qed.

(** The run of three new joiners of which one fails. *)
Lemma summary_counts_add_up_witness :
  3 = 2 + Z.of_nat (length ["asha.patel@example.com: The read operation timed out"])
  /\ 0 <= 2
  /\ (is_Some (@None string) <-> 3 = 0).
Proof.
  apply (summary_counts_add_up env_timeout_for_asha 14 three_joiners_world
           (mkRunResult 3 2
              ["asha.patel@example.com: The read operation timed out"] None)
           (snd (run_onboarding_for_new_joiners env_timeout_for_asha 14
                   three_joiners_world))).
  vm_compute. reflexivity.
Defined.

(** X17. An interruption aborts the run. The loop of the orchestrator
    catches [Exception] and its subclasses only. When the chain of an
    employee raises an exception of another kind ([KeyboardInterrupt],
    [SystemExit]), after the employees before it were processed as usual,
    the exception leaves the orchestrator in the world where that chain
    stopped: no summary is returned, the outcomes of the employees already
    processed are lost with it, and the employees after it are not
    started. *)
Theorem interruption_aborts_the_run (env : Env) (joined_since_days : Z)
    (w w0 : World) (before : list Employee) (emp : Employee)
    (after : list Employee) (outcomes : list (option PyExc)) (w1 : World)
    (e : PyExc) (w2 : World) :
  find_new_joiners_data_engineers env joined_since_days w
  = (Ok (before ++ emp :: after), w0) ->
  loop_run env before
           (add_events (announcement (before ++ emp :: after) joined_since_days)
                       w0)
           outcomes w1 ->
  Forall caught outcomes ->
  invoke (build_employee_graph env) (length (w_heap w1))
         (with_state (fresh_state emp) w1) = (Raise e, w2) ->
  is_Exception (exc_class e) = false ->
  run_onboarding_for_new_joiners env joined_since_days w = (Raise e, w2).
Proof.
  intros Hq Hrun Hcaught Hinv He.
  assert (Hne : exists x l, before ++ emp :: after = x :: l).
  { destruct before; cbn; eauto. }
  destruct Hne as (x & l & Hne). rewrite Hne in Hq.
  rewrite (run_onboarding_for_new_joiners_eq _ _ _ _ _ _ Hq).
  rewrite <- Hne. apply bind_Raise.
  rewrite (for_each_joiner_prefix _ _ _ _ _ Hrun Hcaught).
  rewrite (for_each_joiner_Raise _ _ _ _ _ _ _ _ Hinv), He. reflexivity.
Qed.

(** The run of three new joiners interrupted during the second one: the
    first was completed, the third is never started. *)
Lemma interruption_aborts_the_run_witness :
  let w0 := snd (find_new_joiners_data_engineers env_interrupted_for_asha 14
                   three_joiners_world) in
  let w1 := snd (invoke (build_employee_graph env_interrupted_for_asha) 0%nat
                   (with_state (fresh_state kaushal)
                      (add_events (announcement [kaushal; asha; ravi] 14) w0))) in
  let w2 := snd (invoke (build_employee_graph env_interrupted_for_asha) 1%nat
                   (with_state (fresh_state asha) w1)) in
  run_onboarding_for_new_joiners env_interrupted_for_asha 14 three_joiners_world
  = (Raise (mkExc KeyboardInterrupt ""), w2).
Proof.
  cbv zeta.
  eapply (interruption_aborts_the_run env_interrupted_for_asha 14
            three_joiners_world _ [kaushal] asha [ravi] [None]).
  - vm_compute. reflexivity.
  - eapply loop_completed; [vm_compute; reflexivity | apply loop_done].
  - repeat constructor.
  - vm_compute. reflexivity.
  - reflexivity.
Defined.

(** X18. The front end is shown no outcome. [onboarding_mode] discards the
    summary of the run. With an outside that raises [Exception]s only and an
    eligibility query that returns, the workflow mode returns, and what it
    wrote to the front end is: the two opening lines, the announcement of
    the new joiners when there are any, and the closing line "Workflow
    completed."; the chains write nothing. What the operator sees is
    therefore the same whether every chain completed or every chain failed:
    neither the failures list nor the counts reach the front end. *)
Theorem front_end_shows_no_outcome (env : Env) (w : World)
    (new_joiners : list Employee) (w0 : World) :
  well_behaved env ->
  find_new_joiners_data_engineers env 14
    (add_events [EvStWrite "Starting onboarding workflow...";
                 EvStWrite "Fetching new joiners..."] w)
  = (Ok new_joiners, w0) ->
  exists evs,
    fst (onboarding_mode env w) = Ok tt
    /\ w_trace (snd (onboarding_mode env w)) = w_trace w ++ evs
    /\ front_end evs
       = [EvStWrite "Starting onboarding workflow...";
          EvStWrite "Fetching new joiners..."]
         ++ match new_joiners with
            | [] => []
            | _ => announcement new_joiners 14
            end
         ++ [EvStWrite "âœ… Workflow completed."].
Proof.
  intros Hwb Hq.
  pose proof Hq as Hw0.
  apply find_new_joiners_data_engineers_Ok in Hw0 as (_ & _ & _ & Hw0).
  assert (Ht0 : w_trace w0
                = w_trace w
                  ++ [EvStWrite "Starting onboarding workflow...";
                      EvStWrite "Fetching new joiners..."]
                  ++ [EvSql (SelectNewJoiners
                               (today_in env
                                  (add_events
                                     [EvStWrite "Starting onboarding workflow...";
                                      EvStWrite "Fetching new joiners..."] w)
                                - 14))]).
  { rewrite Hw0. cbn [add_events add_ticks w_trace]. rewrite <- app_assoc.
    reflexivity. }
  clear Hw0. destruct new_joiners as [| emp rest].
  - assert (Hrun : onboarding_mode env w
                   = (Ok tt, add_events [EvStWrite "âœ… Workflow completed."] w0)).
    { rewrite onboarding_mode_eq. unfold bind at 1.
      rewrite (run_onboarding_for_new_joiners_nil _ _ _ _ Hq). reflexivity. }
    rewrite Hrun. cbn [fst snd add_events w_trace].
    eexists. split; [reflexivity |]. split.
    + rewrite Ht0, <- !app_assoc. reflexivity.
    + reflexivity.
  - set (wA := add_events (announcement (emp :: rest) 14) w0).
    destruct (for_each_joiner_total env (emp :: rest) Hwb 0 [] wA)
      as (outcomes & w' & _ & Heq & _).
    destruct (confined_for_each_joiner env (emp :: rest) 0 [] wA)
      as (_ & evs & Ht & Hquiet).
    rewrite Heq in Ht. cbn [snd] in Ht.
    assert (Hrun : onboarding_mode env w
                   = (Ok tt, add_events [EvStWrite "âœ… Workflow completed."] w')).
    { rewrite onboarding_mode_eq. unfold bind at 1.
      rewrite (run_onboarding_for_new_joiners_eq _ _ _ _ _ _ Hq).
      fold wA. rewrite (bind_Ok _ _ _ _ _ Heq). reflexivity. }
    rewrite Hrun. cbn [fst snd add_events w_trace].
    eexists. split; [reflexivity |]. split.
    + rewrite Ht. subst wA. cbn [add_events w_trace]. rewrite Ht0.
      rewrite <- !app_assoc. reflexivity.
    + rewrite !front_end_app, front_end_announcement,
        (behind_the_scenes_front_end _ Hquiet).
      reflexivity.
Qed.

(** The seeded store: every chain completes, and the front end shows the
    announcement and the closing line. *)
Lemma front_end_shows_no_outcome_witness :
  exists evs,
    fst (onboarding_mode env_ok seeded_world) = Ok tt
    /\ w_trace (snd (onboarding_mode env_ok seeded_world))
       = w_trace seeded_world ++ evs
    /\ front_end evs
       = [EvStWrite "Starting onboarding workflow...";
          EvStWrite "Fetching new joiners..."]
         ++ announcement
              [mkEmployee 1 "Kaushal Vachhani" "kaushal.vachhani@example.com"
                 "Data Engineer" "Data Platform" 739923 "Bengaluru" "junior"
                 (Some "lead.de@example.com")] 14
         ++ [EvStWrite "âœ… Workflow completed."].
Proof.
  apply (front_end_shows_no_outcome env_ok seeded_world
           [mkEmployee 1 "Kaushal Vachhani" "kaushal.vachhani@example.com"
              "Data Engineer" "Data Platform" 739923 "Bengaluru" "junior"
              (Some "lead.de@example.com")]
           (snd (find_new_joiners_data_engineers env_ok 14
                   (add_events [EvStWrite "Starting onboarding workflow...";
                                EvStWrite "Fetching new joiners..."]
                               seeded_world)))).
  - unfold well_behaved, env_ok. simpl. repeat split; auto.
  - vm_compute. reflexivity.
Defined.

(** X19. The first run on a new store. Seeding the store and running the
    orchestrator with the default window, with an outside without
    unexpected errors, on a day from which 900 days can be subtracted and
    one week ahead of which is a date, and with no more than 14 days between
    the seeding and the query: exactly one employee is processed, the junior
    Data Engineer seeded with today's date, the chain completes with the
    senior of Bengaluru as mentor, and the summary is processed 1,
    successes 1, failures none. *)
Theorem first_run_onboards_one_employee (env : Env) (w : World) :
  let today := today_in env w in
  let at_query := date_at env (1 + w_ticks w) in
  let at_schedule := date_at env (6 + w_ticks w) in
  no_unexpected_error env ->
  valid_date today = true ->
  valid_date (today - 900) = true ->
  today <= at_query <= today + 14 ->
  valid_date (at_schedule + 7) = true ->
  exists w',
    (bootstrap_dummy_db env ;; run_onboarding_for_new_joiners env 14) w
    = (Ok (mkRunResult 1 1 [] None), w')
    /\ option_map emp_name (employee (deref w' (length (w_heap w))))
       = Some "Kaushal Vachhani"
    /\ option_map emp_name (mentor (deref w' (length (w_heap w))))
       = Some "Neeraj Singh".
Proof.
  intros today at_query at_schedule Hhealthy Htoday H900 Hquery Hschedule.
  unfold bind at 1. rewrite (bootstrap_dummy_db_eq env w Htoday H900).
  fold today.
  set (w1 := mkWorld (seeded_table today) (w_heap w)
                     (w_trace w ++ bootstrap_statements today) (S (w_ticks w))).
  set (emp := mkEmployee 1 "Kaushal Vachhani" "kaushal.vachhani@example.com"
                "Data Engineer" "Data Platform" today "Bengaluru" "junior"
                (Some "lead.de@example.com")).
  assert (Hvalid : valid_date (at_query - 14) = true).
  { unfold valid_date, MINORDINAL, MAXORDINAL in *.
    apply andb_true_iff in Htoday as [Ht1 Ht2].
    apply andb_true_iff in H900 as [H1 H2].
    apply andb_true_iff. split; apply Z.leb_le;
      apply Z.leb_le in Ht1, Ht2, H1, H2; lia. }
  assert (Hq : find_new_joiners_data_engineers env 14 w1
               = (Ok [emp],
                  add_events [EvSql (SelectNewJoiners (at_query - 14))]
                             (add_ticks 1 w1))).
  { rewrite find_new_joiners_data_engineers_eq. cbv zeta.
    change (today_in env w1) with at_query.
    change (Z.abs (- 14) <=? 999999999) with true. cbv iota.
    rewrite Hvalid. cbn [w_employees w1].
    rewrite seeded_new_joiners by lia. reflexivity. }
  rewrite (run_onboarding_for_new_joiners_eq _ _ _ _ _ _ Hq).
  set (wA := add_events (announcement [emp] 14) _).
  assert (Hheap : w_heap wA = w_heap w) by reflexivity.
  assert (Hsenior : List.filter where_senior (seeded_table today) <> []).
  { rewrite seeded_table_rows. discriminate. }
  destruct (chain_completes env emp (length (w_heap wA))
              (with_state (fresh_state emp) wA)
              Hhealthy (lookup_with_state _ _) eq_refl eq_refl Hsenior
              Hschedule)
    as [w2 Hinv].
  exists w2. split.
  - rewrite (bind_Ok _ _ _ (1, []) w2); [reflexivity |].
    rewrite (for_each_joiner_Ok _ _ _ _ _ _ _ _ Hinv). reflexivity.
  - rewrite <- Hheap. pose proof Hinv as Hrun.
    rewrite invoke_build_employee_graph in Hrun.
    apply pipeline_Ok in Hrun
      as (emp' & body & res & task & m & event & He & _ & Hsel & _ & R).
    apply step_result_deref in R. rewrite R. cbn [employee mentor option_map].
    rewrite lookup_with_state in He. injection He as <-.
    change (w_employees (with_state (fresh_state emp) wA))
      with (seeded_table today) in Hsel.
    change (emp_location emp) with "Bengaluru" in Hsel.
    rewrite seeded_select_mentor_bengaluru in Hsel. injection Hsel as <-.
    split; reflexivity.
Qed.

(** The first run on 2026-11-03. *)
Lemma first_run_onboards_one_employee_witness :
  exists w',
    (bootstrap_dummy_db env_ok ;; run_onboarding_for_new_joiners env_ok 14)
      empty_world
    = (Ok (mkRunResult 1 1 [] None), w')
    /\ option_map emp_name (employee (deref w' 0%nat)) = Some "Kaushal Vachhani"
    /\ option_map emp_name (mentor (deref w' 0%nat)) = Some "Neeraj Singh".
Proof.
  apply (first_run_onboards_one_employee env_ok empty_world).
  - unfold no_unexpected_error, env_ok. cbn. repeat split; eauto.
  - reflexivity.
  - reflexivity.
  - vm_compute. split; discriminate.
  - reflexivity.
Defined.

(** ** The settings and the chat *)

(** X20. The settings are validated as a whole. Importing
    [config/config.py] succeeds exactly when the four variables
    GOOGLE_API_KEY, ASANA_WORKSPACE_GID, ASANA_PROJECT_GID and ASANA_PAT are
    all set to a value that is not empty; [SETTINGS] then holds these four
    values and the Asana client is given ASANA_PAT as its token. Otherwise
    the import raises [ValueError], and the message lists every variable
    that is unset or empty, not only the first one, separated by ", " and in
    that fixed order. *)
Theorem settings_are_validated_as_a_whole (environ : string -> option string) :
  match config.import environ with
  | Ok m =>
      missing_variables environ = []
      /\ (forall key, In key required_variables ->
                      exists v, environ key = Some v /\ v <> "")
      /\ config.SETTINGS m
         = config.mkSettings (environ "GOOGLE_API_KEY")
             (environ "ASANA_WORKSPACE_GID") (environ "ASANA_PROJECT_GID")
             (environ "ASANA_PAT")
      /\ config.access_token m = environ "ASANA_PAT"
  | Raise e =>
      missing_variables environ <> []
      /\ exc_class e = ValueError
      /\ exc_str e
         = "Missing required environment variables: "
           +:+ join ", " (missing_variables environ)
  end.
Proof.
  destruct (config.import environ) as [m | e] eqn:H.
  - apply config_import_Ok in H as (H1 & H2 & H3 & H4 & ->).
    unfold missing_variables, required_variables. cbn [List.filter].
    rewrite H1, H2, H3, H4. split; [reflexivity |]. split; [| split; reflexivity].
    intros key [<- | [<- | [<- | [<- | []]]]]; apply falsy_false; assumption.
  - unfold config.import in H.
    unfold missing_variables, required_variables. cbn [List.filter].
    destruct (config.falsy (environ "GOOGLE_API_KEY"));
      destruct (config.falsy (environ "ASANA_WORKSPACE_GID"));
      destruct (config.falsy (environ "ASANA_PROJECT_GID"));
      destruct (config.falsy (environ "ASANA_PAT"));
      cbn in H; try discriminate H; injection H as <-;
      (split; [discriminate | split; reflexivity]).
Qed.

(** With the workspace unset and the project empty, both are named. *)
Example settings_missing_two :
  config.import environ_partial
  = Raise (mkExc ValueError
             "Missing required environment variables: ASANA_WORKSPACE_GID, ASANA_PROJECT_GID").
Proof. reflexivity. Qed.

(** X21. The placeholders of the file-task step are never used. The
    file-task step reads the workspace and the project from the environment
    with the defaults "workspace_dummy" and "project_dummy". In a process
    where the import of [config/config.py] succeeded, as it must for
    [src/main.py] to load, these defaults are out of reach: the invitation
    is for the workspace of [SETTINGS], which is not empty, and the task,
    when it is created, is filed in that workspace under the project of
    [SETTINGS]. *)
Theorem configured_ids_reach_asana (env : Env) (m : config.Exports)
    (state : ref) (w : World) (emp : Employee) :
  config.import (env_environ env) = Ok m ->
  employee (deref w state) = Some emp ->
  exists workspace_gid project_gid rest,
    config.asana_workspace_gid (config.SETTINGS m) = Some workspace_gid
    /\ config.asana_project_gid (config.SETTINGS m) = Some project_gid
    /\ workspace_gid <> ""
    /\ project_gid <> ""
    /\ w_trace (snd (node_asana_task env state w))
       = w_trace w ++ EvAsanaAddUser workspace_gid (emp_email emp) :: rest
    /\ (rest = []
        \/ rest = [EvAsanaCreateTask
                     (mkTaskBody ("Onboarding for " +:+ emp_name emp
                                  +:+ " - Data Engineer")
                                 (emp_email emp) workspace_gid [project_gid])]).
Proof.
  intros Himport He.
  apply config_import_Ok in Himport as (_ & Hw & Hp & _ & ->).
  apply falsy_false in Hw as (workspace_gid & Hw & Hwne).
  apply falsy_false in Hp as (project_gid & Hp & Hpne).
  rewrite (node_asana_task_eq _ _ _ _ He). cbv zeta.
  unfold workspace_invite, onboarding_task, environ_get. rewrite Hw, Hp.
  exists workspace_gid, project_gid.
  destruct (escapes is_ApiException
              (env_asana_add_user env (w_trace w) workspace_gid (emp_email emp))).
  - exists []. cbn [config.SETTINGS config.asana_workspace_gid
                      config.asana_project_gid]. auto 10.
  - eexists. cbn [config.SETTINGS config.asana_workspace_gid
                    config.asana_project_gid].
    repeat (split; [solve [auto] |]). split; [| right; reflexivity].
    destruct (escapes is_ApiException (env_asana_create_task env _ _));
      reflexivity.
Qed.

(** The file-task step for the new joiner of the seeded store, in a process
    with the four settings. *)
Lemma configured_ids_reach_asana_witness :
  exists workspace_gid project_gid rest,
    Some "1200000000000001" = Some workspace_gid
    /\ Some "1200000000000002" = Some project_gid
    /\ workspace_gid <> ""
    /\ project_gid <> ""
    /\ w_trace (snd (node_asana_task env_configured 0%nat
                       (with_state (fresh_state kaushal) seeded_world)))
       = w_trace (with_state (fresh_state kaushal) seeded_world)
         ++ EvAsanaAddUser workspace_gid (emp_email kaushal) :: rest
    /\ (rest = []
        \/ rest = [EvAsanaCreateTask
                     (mkTaskBody ("Onboarding for " +:+ emp_name kaushal
                                  +:+ " - Data Engineer")
                                 (emp_email kaushal) workspace_gid
                                 [project_gid])]).
Proof.
  apply (configured_ids_reach_asana env_configured
           (config.mkExports
              (config.mkSettings (Some "AIza-example") (Some "1200000000000001")
                 (Some "1200000000000002") (Some "2/1200/example"))
              (Some "2/1200/example"))
           0%nat (with_state (fresh_state kaushal) seeded_world) kaushal).
  - reflexivity.
  - reflexivity.
Defined.

(** X22. The stop commands of the chat. A message made of one of the four
    stop commands (stop, exit, quit, silence), in any mix of upper and lower
    case and with any white space around it, is answered with the farewell
    and the text generator is not called. Every other message is passed
    to the text generator as it was typed, white space and case included,
    and the answer of the generator, or its exception, is the outcome.
    White space is what [str.strip] takes for it, the no-break space and the
    other white-space characters of Unicode included. The second part is
    stated for ASCII messages, on which [str.lower] is the function
    above. *)
Theorem chat_stops_on_request (chain : string -> Res string)
    (user_text : string) :
  (stop_request user_text ->
   chat_mode chain user_text
   = (Ok "Okay, stopping the onboarding flow. Bye!", []))
  /\ (isascii user_text = true ->
      ~ stop_request user_text ->
      chat_mode chain user_text = (chain user_text, [ChainInvoke user_text])).
Proof.
  split.
  - intros (l & word & r & -> & Hl & Hr & Hin).
    pose proof (stop_command_graphic _ Hin) as Hword.
    rewrite all_graphic_lower in Hword.
    unfold chat_mode. rewrite (strip_padded _ _ _ Hl Hr Hword).
    apply in_STOP_COMMANDS_In in Hin. rewrite Hin. reflexivity.
  - intros _ Hnot. unfold chat_mode.
    destruct (in_STOP_COMMANDS (lower (strip user_text))) eqn:Hin;
      [| reflexivity].
    exfalso. apply Hnot. apply in_STOP_COMMANDS_In in Hin.
    destruct (strip_spec user_text) as (l & r & Hs & Hl & Hr & _).
    exists l, (strip user_text), r. auto.
Qed.

(** A stop command typed with capitals and padding, two messages that
    only contain one, and a stop command between a no-break space (U+00A0)
    and a line separator (U+2028). *)
Example chat_examples :
  chat_mode chain_echo "  Quit
" = (Ok "Okay, stopping the onboarding flow. Bye!", [])
  /\ chat_mode chain_echo "SILENCE" = (Ok "Okay, stopping the onboarding flow. Bye!", [])
  /\ chat_mode chain_echo "please stop"
     = (Ok "You said: please stop", [ChainInvoke "please stop"])
  /\ chat_mode chain_echo " Stop it "
     = (Ok "You said:  Stop it ", [ChainInvoke " Stop it "])
  /\ chat_mode chain_echo
       (String "194" (String "160" ("exit" +:+ String "226" (String "128"
          (String "168" "")))))
     = (Ok "Okay, stopping the onboarding flow. Bye!", []).
Proof. vm_compute. repeat split; reflexivity. Qed.
